(** * Telemetry collection and experiment orchestration: a shallow embedding

    The development follows [data_collection.py] (the metric extractor and
    the two background collectors), [analysis.py] ([run_cmd],
    [run_cmd_background], [run_analysis] and the choice of the branches) and
    [render_charts.py] (the series of [parse_branch] and the assertions of
    the time charts).  Python values are modelled by a small
    universe of JSON-like values, exceptions by an error monad, and the
    worker threads by the finite trace of events they have consumed when
    they are joined. *)

From Stdlib Require Import ZArith QArith Qcanon List String Ascii Bool Lia Permutation.
Import ListNotations.
Local Open Scope Z_scope.
Local Set Warnings "-register-all".

(** ** Exceptions and the error monad *)

Inductive exn : Type :=
| KeyError
| TypeError
| AttributeError
| ZeroDivisionError
| ValueError
| RuntimeError
| CalledProcessError
| OtherError (tag : string).

Inductive result (A : Type) : Type :=
| Ok (a : A)
| Raise (e : exn).

Arguments Ok {A} a.
Arguments Raise {A} e.

Definition bind {A B} (m : result A) (k : A -> result B) : result B :=
  match m with
  | Ok a => k a
  | Raise e => Raise e
  end.

Notation "x <- m ;; k" := (bind m (fun x => k))
  (at level 61, m at next level, right associativity).

(** [try: m except KeyError: h] *)
Definition except_KeyError {A} (m : result A) (h : result A) : result A :=
  match m with
  | Raise KeyError => h
  | _ => m
  end.

Definition is_Ok {A} (m : result A) : bool :=
  match m with Ok _ => true | Raise _ => false end.

(** ** Python values found in a decoded stats snapshot *)

Inductive pyval : Type :=
| VNone
| VInt (n : Z)
| VStr (s : string)
| VDict (d : list (string * pyval)).

(** A [dict] keeps its items in insertion order. *)
Definition dict : Type := list (string * pyval).

Fixpoint dict_get (d : dict) (k : string) : option pyval :=
  match d with
  | [] => None
  | (k', v) :: d' => if String.eqb k k' then Some v else dict_get d' k
  end.

Definition dict_keys (d : dict) : list string := map fst d.

(** [k in d.keys()] *)
Definition dict_mem (d : dict) (k : string) : bool :=
  match dict_get d k with Some _ => true | None => false end.

(** [d[k] = v] on a dict that has the key [k]: the item keeps its place. *)
Fixpoint dict_set (d : dict) (k : string) (v : pyval) : dict :=
  match d with
  | [] => [(k, v)]
  | (k', v') :: d' =>
      if String.eqb k k' then (k', v) :: d' else (k', v') :: dict_set d' k v
  end.

(** [v[k]] *)
Definition getitem (v : pyval) (k : string) : result pyval :=
  match v with
  | VDict d =>
      match dict_get d k with
      | Some x => Ok x
      | None => Raise KeyError
      end
  | _ => Raise TypeError
  end.

(** [v[k1][k2]...[kn]] *)
Fixpoint getpath (v : pyval) (path : list string) : result pyval :=
  match path with
  | [] => Ok v
  | k :: path' => x <- getitem v k ;; getpath x path'
  end.

(** [v.keys()] *)
Definition keys (v : pyval) : result (list string) :=
  match v with
  | VDict d => Ok (dict_keys d)
  | _ => Raise AttributeError
  end.

(** [total += v] with [total] an int *)
Definition py_iadd (total : Z) (v : pyval) : result Z :=
  match v with
  | VInt n => Ok (total + n)
  | _ => Raise TypeError
  end.

(** [a - b] *)
Definition py_sub (a b : pyval) : result Z :=
  match a, b with
  | VInt x, VInt y => Ok (x - y)
  | _, _ => Raise TypeError
  end.

(** [a % b] on ints: the sign follows the divisor, as [Z.modulo] does. *)
Definition py_mod (a b : Z) : result Z :=
  if b =? 0 then Raise ZeroDivisionError else Ok (a mod b).

(** [l[:stop]] *)
Definition slice_to {A} (l : list A) (stop : Z) : list A :=
  if stop <? 0
  then firstn (Z.to_nat (Z.max 0 (Z.of_nat (List.length l) + stop))) l
  else firstn (Z.to_nat stop) l.

(** [s[1:]] on a string *)
Definition str_tail (s : string) : string :=
  match s with
  | EmptyString => EmptyString
  | String _ t => t
  end.

(** ** Floating point numbers

    The arithmetic of floats is kept abstract: [truediv a b] is the float
    [a / b] of two ints with [b <> 0], [int_add_float n x] is [n + x],
    [float_ltb] is [<], and [fromisoformat_timestamp] stands for
    [datetime.fromisoformat(s).timestamp()], [None] when the string is not
    a valid ISO format. *)

Class FloatOps (float : Type) : Type := {
  truediv : Z -> Z -> float;
  int_add_float : Z -> float -> float;
  float_ltb : float -> float -> bool;
  fromisoformat_timestamp : string -> option float
}.

(** A number that is either an int or a float. *)
Inductive pynum (float : Type) : Type :=
| PyInt (n : Z)
| PyFloat (x : float).

Arguments PyInt {float} n.
Arguments PyFloat {float} x.

(** The laws of [<] on floats that are not NaN. *)
Class FloatOrder (float : Type) `{FloatOps float} : Prop := {
  float_ltb_irrefl : forall x, float_ltb x x = false;
  float_ltb_trans : forall x y z,
      float_ltb x y = true -> float_ltb y z = true -> float_ltb x z = true;
  float_ltb_total : forall x y,
      float_ltb x y = false -> float_ltb y x = false -> x = y
}.

(** ** The metric extractor *)

Section Extract.
Context {float : Type} `{FloatOps float}.

Record sample : Type := mk_sample {
  time : float;
  container : string;
  total_net_traffic : Z;
  memory_usage : float;
  cpu_usage : pynum float
}.

(** [a / b] *)
Definition py_truediv (a b : pyval) : result float :=
  match a, b with
  | VInt x, VInt y =>
      if y =? 0 then Raise ZeroDivisionError else Ok (truediv x y)
  | _, _ => Raise TypeError
  end.

(** One turn of the loop over the interfaces. *)
Definition add_iface (data : dict) (total : Z) (i_face : string) : result Z :=
  rx <- getpath (VDict data) ["networks"; i_face; "rx_bytes"]%string ;;
  total1 <- py_iadd total rx ;;
  tx <- getpath (VDict data) ["networks"; i_face; "tx_bytes"]%string ;;
  py_iadd total1 tx.

Fixpoint for_ifaces (data : dict) (total : Z) (ifaces : list string)
  : result Z :=
  match ifaces with
  | [] => Ok total
  | i_face :: rest =>
      total' <- add_iface data total i_face ;;
      for_ifaces data total' rest
  end.

(** The body of the [try] block. *)
Definition cpu_try (data : dict) : result (pynum float) :=
  cur_total <- getpath (VDict data) ["cpu_stats"; "cpu_usage"; "total_usage"]%string ;;
  pre_total <- getpath (VDict data) ["precpu_stats"; "cpu_usage"; "total_usage"]%string ;;
  cont_diff <- py_sub cur_total pre_total ;;
  cur_sys <- getpath (VDict data) ["cpu_stats"; "system_cpu_usage"]%string ;;
  pre_sys <- getpath (VDict data) ["precpu_stats"; "system_cpu_usage"]%string ;;
  sys_diff <- py_sub cur_sys pre_sys ;;
  q <- py_truediv (VInt cont_diff) (VInt sys_diff) ;;
  Ok (PyFloat q).

Definition parse_timestamp (timestamp : pyval) : result float :=
  match timestamp with
  | VStr s =>
      match fromisoformat_timestamp s with
      | Some t => Ok t
      | None => Raise ValueError
      end
  | _ => Raise TypeError
  end.

(** [v[1:]]; only strings are sliced here. *)
Definition slice_from_1 (v : pyval) : result string :=
  match v with
  | VStr s => Ok (str_tail s)
  | _ => Raise TypeError
  end.

Definition extract (data : dict) : result (option sample) :=
  timestamp <- getitem (VDict data) "read" ;;
  let total_net_traffic := 0 in
  if negb (dict_mem data "networks") then Ok None
  else
    networks <- getitem (VDict data) "networks" ;;
    ifaces <- keys networks ;;
    total_net_traffic <- for_ifaces data total_net_traffic ifaces ;;
    usage <- getpath (VDict data) ["memory_stats"; "usage"]%string ;;
    limit <- getpath (VDict data) ["memory_stats"; "limit"]%string ;;
    memory_usage <- py_truediv usage limit ;;
    cpu_usage <- except_KeyError (cpu_try data) (Ok (PyInt 0)) ;;
    timestamp_parsed <- parse_timestamp timestamp ;;
    name <- getitem (VDict data) "name" ;;
    container <- slice_from_1 name ;;
    Ok (Some {| time := timestamp_parsed;
                container := container;
                total_net_traffic := total_net_traffic;
                memory_usage := memory_usage;
                cpu_usage := cpu_usage |}).

(** The part of [extract] after the loop over the interfaces. *)
Definition after_networks (data : dict) (timestamp : pyval) (total : Z)
  : result (option sample) :=
  usage <- getpath (VDict data) ["memory_stats"; "usage"]%string ;;
  limit <- getpath (VDict data) ["memory_stats"; "limit"]%string ;;
  memory_usage <- py_truediv usage limit ;;
  cpu_usage <- except_KeyError (cpu_try data) (Ok (PyInt 0)) ;;
  timestamp_parsed <- parse_timestamp timestamp ;;
  name <- getitem (VDict data) "name" ;;
  container <- slice_from_1 name ;;
  Ok (Some {| time := timestamp_parsed;
              container := container;
              total_net_traffic := total;
              memory_usage := memory_usage;
              cpu_usage := cpu_usage |}).

(** The sum the network section stands for: rx plus tx bytes of every
    interface, [None] when an interface lacks an integer counter. *)
Definition iface_bytes (v : pyval) : option Z :=
  match getitem v "rx_bytes", getitem v "tx_bytes" with
  | Ok (VInt rx), Ok (VInt tx) => Some (rx + tx)
  | _, _ => None
  end.

Fixpoint sum_rx_tx (nets : dict) : option Z :=
  match nets with
  | [] => Some 0
  | (_, v) :: rest =>
      match iface_bytes v, sum_rx_tx rest with
      | Some b, Some t => Some (b + t)
      | _, _ => None
      end
  end.

End Extract.

Arguments sample float : clear implicits.

(** ** Worker threads

  A collector owns one [threading.Thread].  [start] on a thread that was
  started and [join] on one that was not both raise [RuntimeError]. *)

Inductive thread_state : Type :=
| NotStarted
| Started
| Joined.

(** ** The load generator collector *)

Definition TIMEOUT_SEC : Z := 9.

Module ClientPerf.
Section WithFloat.
Context {float : Type} `{FloatOps float}.

(** What [requests.post] did for one request: it answered after
    [elapsed] seconds, it raised [requests.ReadTimeout], or it raised
    another exception. *)
Inductive response : Type :=
| Responded (elapsed : float)
| TimedOut
| Failed (e : exn).

(** One turn of the loop as the worker saw it: the value of
    [time.time_ns()] and the fate of the request. *)
Record request : Type := mk_request {
  sent_ns : Z;
  outcome : response
}.

Record observation : Type := mk_observation {
  id : Z;
  msg_length : Z;
  latency : pynum float;
  start : float
}.

Record collector : Type := mk_collector {
  url : string;
  collector_thread : thread_state;
  data : list observation;
  message_length : Z;
  stop_event : bool
}.

Definition init (client_url : string) (msg_length : Z) : collector :=
  {| url := client_url;
     collector_thread := NotStarted;
     data := [];
     message_length := msg_length;
     stop_event := false |}.

Definition set_data (self : collector) (d : list observation) : collector :=
  {| url := url self;
     collector_thread := collector_thread self;
     data := d;
     message_length := message_length self;
     stop_event := stop_event self |}.

Definition set_thread (self : collector) (t : thread_state) : collector :=
  {| url := url self;
     collector_thread := t;
     data := data self;
     message_length := message_length self;
     stop_event := stop_event self |}.

Definition set_stop_event (self : collector) : collector :=
  {| url := url self;
     collector_thread := collector_thread self;
     data := data self;
     message_length := message_length self;
     stop_event := true |}.

Definition start_collecting (self : collector) : result unit * collector :=
  match collector_thread self with
  | NotStarted => (Ok tt, set_thread self Started)
  | _ => (Raise RuntimeError, self)
  end.

(** The [try] around [requests.post]. *)
Definition post (r : request) : result (pynum float) :=
  match outcome r with
  | Responded elapsed => Ok (PyFloat elapsed)
  | TimedOut => Ok (PyInt TIMEOUT_SEC)
  | Failed e => Raise e
  end.

(** The request got an answer or timed out: [post] raises nothing. *)
Definition answered (r : request) : bool :=
  match outcome r with
  | Failed _ => false
  | _ => true
  end.

(** The [while] loop over the requests issued until the stop event was
    seen set. *)
Fixpoint load_loop (self : collector) (reqs : list request)
         (request_id : Z) (data : list observation)
  : result (list observation) :=
  match reqs with
  | [] => Ok data
  | r :: rest =>
      let start := truediv (sent_ns r) 1000000000 in
      elapsed <- post r ;;
      load_loop self rest (request_id + 1)
                (data ++ [ {| id := request_id;
                              msg_length := message_length self;
                              latency := elapsed;
                              start := start |} ])
  end.

(** The value assigned to [self.data] when the worker ends; an exception
    ends the worker before the assignment. *)
Definition load_continuous (self : collector) (reqs : list request)
  : result (list observation) :=
  load_loop self reqs 0 [].

(** [self.collector_thread.join()]: the worker has run over [reqs]. *)
Definition join (self : collector) (reqs : list request)
  : result unit * collector :=
  match collector_thread self with
  | NotStarted => (Raise RuntimeError, self)
  | Started =>
      let self' :=
        match load_continuous self reqs with
        | Ok d => set_data self d
        | Raise _ => self
        end in
      (Ok tt, set_thread self' Joined)
  | Joined => (Ok tt, self)
  end.

Definition stop_collecting (self : collector) (reqs : list request)
  : result (list observation) * collector :=
  if stop_event self then (Raise RuntimeError, self)
  else
    let self1 := set_stop_event self in
    match join self1 reqs with
    | (Ok _, self2) => (Ok (data self2), self2)
    | (Raise e, self2) => (Raise e, self2)
    end.

End WithFloat.
Arguments request float : clear implicits.
Arguments observation float : clear implicits.
Arguments collector float : clear implicits.
End ClientPerf.


(** ** The container metrics collector *)

Module DockerStat.
Section WithFloat.
Context {float : Type} `{FloatOps float}.

Record collector : Type := mk_collector {
  containers : option (list string);
  num_containers : Z;
  collector_thread : thread_state;
  data : list (sample float);
  stop_event : bool
}.

Definition init : collector :=
  {| containers := None;
     num_containers := 0;
     collector_thread := NotStarted;
     data := [];
     stop_event := false |}.

Definition set_data (self : collector) (d : list (sample float)) : collector :=
  {| containers := containers self;
     num_containers := num_containers self;
     collector_thread := collector_thread self;
     data := d;
     stop_event := stop_event self |}.

Definition set_thread (self : collector) (t : thread_state) : collector :=
  {| containers := containers self;
     num_containers := num_containers self;
     collector_thread := t;
     data := data self;
     stop_event := stop_event self |}.

Definition set_stop_event (self : collector) : collector :=
  {| containers := containers self;
     num_containers := num_containers self;
     collector_thread := collector_thread self;
     data := data self;
     stop_event := true |}.

Definition set_containers (self : collector) (conts : list string) : collector :=
  {| containers := Some conts;
     num_containers := Z.of_nat (List.length conts);
     collector_thread := collector_thread self;
     data := data self;
     stop_event := stop_event self |}.

Definition start_collecting (self : collector) : result unit * collector :=
  match collector_thread self with
  | NotStarted => (Ok tt, set_thread self Started)
  | _ => (Raise RuntimeError, self)
  end.

(** The loops of [collect] over the data points the stream generator
    yielded until the stop event was seen set. *)
Fixpoint collect_loop (points : list dict) (data : list (sample float))
  : result (list (sample float)) :=
  match points with
  | [] => Ok data
  | data_point :: rest =>
      point <- extract data_point ;;
      collect_loop rest
        match point with
        | Some p => data ++ [p]
        | None => data
        end
  end.

(** [data[: -(len(data) % self.num_containers)]] *)
Definition same_amount (self : collector) (data : list (sample float))
  : result (list (sample float)) :=
  r <- py_mod (Z.of_nat (List.length data)) (num_containers self) ;;
  Ok (slice_to data (- r)).

(** The value assigned to [self.data] when the worker ends. *)
Definition collect (self : collector) (points : list dict)
  : result (list (sample float)) :=
  data <- collect_loop points [] ;;
  same_amount self data.

(** [self.collector_thread.join()]: the worker has run over [points] and saw
    the stop event after the last of them.  The worker that may not get to
    see it, for want of containers, is the one of [Listing]. *)
Definition join (self : collector) (points : list dict)
  : result unit * collector :=
  match collector_thread self with
  | NotStarted => (Raise RuntimeError, self)
  | Started =>
      let self' :=
        match collect self points with
        | Ok d => set_data self d
        | Raise _ => self
        end in
      (Ok tt, set_thread self' Joined)
  | Joined => (Ok tt, self)
  end.

Definition stop_collecting (self : collector) (points : list dict)
  : result (list (sample float)) * collector :=
  if stop_event self then (Raise RuntimeError, self)
  else
    let self1 := set_stop_event self in
    match join self1 points with
    | (Ok _, self2) => (Ok (data self2), self2)
    | (Raise e, self2) => (Raise e, self2)
    end.

End WithFloat.
Arguments collector float : clear implicits.
End DockerStat.

(** ** The worker of a collector that was not told its containers

    While [self.containers] is [None] the stream generator asks the Docker
    API for the containers again and again and yields one snapshot of each
    container listed.  The worker reads the stop event before its first
    turn and after every snapshot that was yielded, and nowhere else: as
    long as nothing is yielded it does not see that the event was set.
    The event is set by [stop_collecting] and never cleared, so the test of
    the outer [while] that follows the [break] finds it set. *)


(** The test of [except APIError:]. *)
Definition is_APIError (e : exn) : bool :=
  match e with
  | OtherError tag => String.eqb tag "APIError"
  | _ => false
  end.

Module Listing.
Section WithFloat.
Context {float : Type} `{FloatOps float}.

(** One call of [x.stats(stream=False)] on a listed container: the snapshot
    it returned, with the value of [self.stop_event.is_set()] once the
    snapshot was processed, or the exception it raised. *)
Inductive stats_call : Type :=
| Snapshot (data_point : dict) (stop_seen : bool)
| StatsRaised (e : exn).

(** One turn of [while self.containers is None]: the calls of [stats] on
    the containers that [self.client.containers.list()] returned, or the
    exception the listing raised. *)
Inductive turn : Type :=
| Listed (calls : list stats_call)
| ListRaised (e : exn).

(** What the worker meets: the value of the stop event at the first test
    of the outer [while], and the turns of the generator in order. *)
Record run : Type := mk_run {
  stop_at_start : bool;
  turns : list turn
}.

(** How a turn ends: the generator lists again, the worker leaves the loops
    through [break], or an exception that nothing catches ends the
    worker. *)
Inductive turn_end : Type :=
| ListAgain (data : list (sample float))
| Break (data : list (sample float))
| Escaped (e : exn).

(** The [for] loop of the generator over the containers of one listing,
    with the body of the loop of [collect] run on every snapshot yielded.
    [APIError] of a call of [stats] is caught by the generator, which lists
    again; an exception of [extract] is raised in [collect], outside the
    [try] of the generator. *)
Fixpoint for_listed (calls : list stats_call) (data : list (sample float))
  : turn_end :=
  match calls with
  | [] => ListAgain data
  | StatsRaised e :: _ => if is_APIError e then ListAgain data else Escaped e
  | Snapshot data_point stop_seen :: rest =>
      match extract data_point with
      | Raise e => Escaped e
      | Ok point =>
          let data :=
            match point with
            | Some p => data ++ [p]
            | None => data
            end in
          if stop_seen then Break data else for_listed rest data
      end
  end.

Definition one_turn (t : turn) (data : list (sample float)) : turn_end :=
  match t with
  | Listed calls => for_listed calls data
  | ListRaised e => if is_APIError e then ListAgain data else Escaped e
  end.

(** The loops of [collect] over the turns on offer.  [None] when the turns
    end before the loops do: the worker is still listing. *)
Fixpoint collect_loop (turns : list turn) (data : list (sample float))
  : option (result (list (sample float))) :=
  match turns with
  | [] => None
  | t :: rest =>
      match one_turn t data with
      | ListAgain data => collect_loop rest data
      | Break data => Some (Ok data)
      | Escaped e => Some (Raise e)
      end
  end.

(** The samples held in [data] when the loops are left. *)
Definition collected (w : run) : option (result (list (sample float))) :=
  if stop_at_start w then Some (Ok []) else collect_loop (turns w) [].

(** The value assigned to [self.data] when the worker ends; [None] while
    it runs. *)
Definition collect (self : DockerStat.collector float) (w : run)
  : option (result (list (sample float))) :=
  match collected w with
  | None => None
  | Some r => Some (data <- r ;; DockerStat.same_amount self data)
  end.

(** [self.collector_thread.join()]: it returns when the worker has ended,
    [None] stands for a join that does not return. *)
Definition join (self : DockerStat.collector float) (w : run)
  : option (result unit * DockerStat.collector float) :=
  match DockerStat.collector_thread self with
  | NotStarted => Some (Raise RuntimeError, self)
  | Started =>
      match collect self w with
      | None => None
      | Some (Ok d) =>
          Some (Ok tt, DockerStat.set_thread (DockerStat.set_data self d) Joined)
      | Some (Raise _) => Some (Ok tt, DockerStat.set_thread self Joined)
      end
  | Joined => Some (Ok tt, self)
  end.

Definition stop_collecting (self : DockerStat.collector float) (w : run)
  : option (result (list (sample float)) * DockerStat.collector float) :=
  if DockerStat.stop_event self then Some (Raise RuntimeError, self)
  else
    let self1 := DockerStat.set_stop_event self in
    match join self1 w with
    | None => None
    | Some (Ok _, self2) => Some (Ok (DockerStat.data self2), self2)
    | Some (Raise e, self2) => Some (Raise e, self2)
    end.


End WithFloat.
End Listing.

(** ** The orchestrator *)

Module Analysis.

(** One attempt of [subprocess.check_output]: the process outlived the
    timeout, or it exited with a return code and its output. *)
Inductive attempt : Type :=
| TimeoutExpired
| Exited (returncode : Z) (out : string).

(** [needle in hay] on byte strings *)
Fixpoint contains (needle hay : string) : bool :=
  String.prefix needle hay ||
  match hay with
  | EmptyString => false
  | String _ hay' => contains needle hay'
  end.

(** [if expected:] *)
Definition truthy (expected : option string) : bool :=
  match expected with
  | None => false
  | Some EmptyString => false
  | Some _ => true
  end.

Definition marker (expected : option string) : string :=
  match expected with
  | None => EmptyString
  | Some m => m
  end.

(** [run_cmd] over the attempts the environment offers, in order.  [None]
    when every attempt on offer timed out: the loop is still running. *)
Fixpoint run_cmd (expected : option string) (attempts : list attempt)
  : option (result unit) :=
  match attempts with
  | [] => None
  | TimeoutExpired :: rest => run_cmd expected rest
  | Exited returncode out :: _ =>
      if negb (returncode =? 0) then Some (Raise CalledProcessError)
      else if truthy expected && negb (contains (marker expected) out)
           then Some (Raise RuntimeError)
           else Some (Ok tt)
  end.

(** Sequencing of steps that may raise or never return. *)
Definition step {A B} (m : option (result A)) (k : A -> option (result B))
  : option (result B) :=
  match m with
  | None => None
  | Some (Raise e) => Some (Raise e)
  | Some (Ok a) => k a
  end.

Notation "x <-- m ;; k" := (step m (fun x => k))
  (at level 61, m at next level, right associativity).

(** The shaping loop: the exit codes of the [tc] commands in the order
    they are run; the first non-zero one raises. *)
Fixpoint shape (exit_codes : list Z) : result unit :=
  match exit_codes with
  | [] => Ok tt
  | c :: rest => if c =? 0 then shape rest else Raise RuntimeError
  end.

Section WithFloat.
Context {float : Type} `{FloatOps float}.

Record ExperimentResult : Type := mk_result {
  docker_stats : list (sample float);
  client_perf : list (ClientPerf.observation float)
}.

(** [min(iterable)] *)
Definition py_min (l : list float) : result float :=
  match l with
  | [] => Raise ValueError
  | x :: rest =>
      Ok (fold_left (fun cur item => if float_ltb item cur then item else cur)
                    rest x)
  end.

(** [min(a, b)] *)
Definition py_min2 (a b : float) : float :=
  if float_ltb b a then b else a.

(** [a > b] *)
Definition py_gt (a b : float) : bool := float_ltb b a.

(** Lines 146 to 151 and the returned dict. *)
Definition trim_spinup (spinup_time : Z)
           (client_perf_data : list (ClientPerf.observation float))
           (docker_stats_data : list (sample float))
  : result ExperimentResult :=
  min_time_perf <- py_min (map ClientPerf.start client_perf_data) ;;
  min_time_stats <- py_min (map time docker_stats_data) ;;
  let min_time_measurement := py_min2 min_time_perf min_time_stats in
  let client_perf_data :=
    filter (fun x => py_gt (ClientPerf.start x)
                           (int_add_float spinup_time min_time_measurement))
           client_perf_data in
  let docker_stats_data :=
    filter (fun x => py_gt (time x)
                           (int_add_float spinup_time min_time_measurement))
           docker_stats_data in
  Ok {| docker_stats := docker_stats_data; client_perf := client_perf_data |}.

(** What the world does during one run: the attempts of each foreground
    command, the outcome of the checkout and of the readiness wait, the
    containers listed, the exit codes of the shaping commands, and the
    events each worker consumed before it was joined. *)
Record environment : Type := mk_environment {
  down_attempts : list attempt;
  checkout : result unit;
  test_attempts : list attempt;
  package_attempts : list attempt;
  launch : result unit;
  containers_listed : list string;
  tc_exit_codes : list Z;
  requests_seen : list (ClientPerf.request float);
  points_seen : list dict
}.

Definition BUILD_SUCCESS : string := "BUILD SUCCESS".

(** One run, up to the returned dict.  The calls that list and kill
    containers, the [sleep] and the teardown leave no mark on the result
    and are taken to succeed; [None] means that a foreground command is
    still being retried. *)
Definition run_analysis (env : environment) (spinup_time msg_length : Z)
  : option (result ExperimentResult) :=
  _ <-- run_cmd None (down_attempts env) ;;
  _ <-- Some (checkout env) ;;
  _ <-- run_cmd (Some BUILD_SUCCESS) (test_attempts env) ;;
  _ <-- run_cmd (Some BUILD_SUCCESS) (package_attempts env) ;;
  let stat_collector := DockerStat.init in
  let stat_collector := snd (DockerStat.start_collecting stat_collector) in
  _ <-- Some (launch env) ;;
  let containers := containers_listed env in
  let stat_collector := DockerStat.set_containers stat_collector containers in
  _ <-- Some (shape (tc_exit_codes env)) ;;
  let load_collector :=
    ClientPerf.init "http://localhost:8080/run-interaction/" msg_length in
  let load_collector := snd (ClientPerf.start_collecting load_collector) in
  client_perf_data <--
    Some (fst (ClientPerf.stop_collecting load_collector (requests_seen env))) ;;
  docker_stats_data <--
    Some (fst (DockerStat.stop_collecting stat_collector (points_seen env))) ;;
  Some (trim_spinup spinup_time client_perf_data docker_stats_data).

End WithFloat.
Arguments ExperimentResult float : clear implicits.
Arguments environment float : clear implicits.
End Analysis.

(** ** A reference instance of the float operations

    Exact rationals stand for floats, and the parser reads the plain format
    [YYYY-MM-DDTHH:MM:SS] as a time in UTC.  The instance serves to run the
    definitions on concrete snapshots. *)

Module Reference.

Definition digit (c : ascii) : option Z :=
  let n := Z.of_nat (nat_of_ascii c) in
  if (48 <=? n) && (n <=? 57) then Some (n - 48) else None.

Fixpoint digits (s : string) (acc : Z) : option Z :=
  match s with
  | EmptyString => Some acc
  | String c s' =>
      match digit c with
      | Some d => digits s' (10 * acc + d)
      | None => None
      end
  end.

Definition field (s : string) (from len : nat) : option Z :=
  let t := substring from len s in
  if Nat.eqb (String.length t) len then digits t 0 else None.

Definition separator (s : string) (at_ : nat) (c : string) : bool :=
  String.eqb (substring at_ 1 s) c.

(** Days from 1970-01-01 to the given day of the proleptic Gregorian
    calendar. *)
Definition days_from_civil (y m d : Z) : Z :=
  let y' := if m <=? 2 then y - 1 else y in
  let era := y' / 400 in
  let yoe := y' - era * 400 in
  let doy := (153 * (if 2 <? m then m - 3 else m + 9) + 2) / 5 + d - 1 in
  let doe := yoe * 365 + yoe / 4 - yoe / 100 + doy in
  era * 146097 + doe - 719468.

Definition iso_seconds (s : string) : option Z :=
  if Nat.eqb (String.length s) 19
     && separator s 4 "-" && separator s 7 "-" && separator s 10 "T"
     && separator s 13 ":" && separator s 16 ":"
  then
    match field s 0 4, field s 5 2, field s 8 2,
          field s 11 2, field s 14 2, field s 17 2 with
    | Some y, Some m, Some d, Some hh, Some mm, Some ss =>
        if (1 <=? m) && (m <=? 12) && (1 <=? d) && (d <=? 31)
           && (hh <=? 23) && (mm <=? 59) && (ss <=? 59)
        then Some (days_from_civil y m d * 86400 + hh * 3600 + mm * 60 + ss)
        else None
    | _, _, _, _, _, _ => None
    end
  else None.

Definition Qc_ltb (x y : Qc) : bool :=
  match Qccompare x y with
  | Lt => true
  | _ => false
  end.

#[global] Instance Qc_float : FloatOps Qc := {
  truediv a b := Qcdiv (Q2Qc (inject_Z a)) (Q2Qc (inject_Z b));
  int_add_float n x := Qcplus (Q2Qc (inject_Z n)) x;
  float_ltb := Qc_ltb;
  fromisoformat_timestamp s :=
    match iso_seconds s with
    | Some n => Some (Q2Qc (inject_Z n))
    | None => None
    end
}.

(** A complete snapshot of a container with two interfaces. *)
Definition snapshot : dict :=
  [ ("read", VStr "2024-01-01T00:00:10");
    ("name", VStr "/jwt-client");
    ("networks",
     VDict [ ("eth0", VDict [("rx_bytes", VInt 100); ("tx_bytes", VInt 50)]);
             ("eth1", VDict [("rx_bytes", VInt 7); ("tx_bytes", VInt 3)]) ]);
    ("memory_stats", VDict [("usage", VInt 512); ("limit", VInt 2048)]);
    ("cpu_stats",
     VDict [ ("cpu_usage", VDict [("total_usage", VInt 400)]);
             ("system_cpu_usage", VInt 10000) ]);
    ("precpu_stats",
     VDict [ ("cpu_usage", VDict [("total_usage", VInt 300)]);
             ("system_cpu_usage", VInt 9000) ]) ]%string.

(** The same container with the interfaces listed in the other order. *)
Definition snapshot_swapped : dict :=
  dict_set snapshot "networks"
    (VDict [ ("eth1", VDict [("rx_bytes", VInt 7); ("tx_bytes", VInt 3)]);
             ("eth0", VDict [("rx_bytes", VInt 100); ("tx_bytes", VInt 50)]) ]%string).

(** A snapshot taken while the container starts: no network section. *)
Definition snapshot_no_networks : dict :=
  [ ("read", VStr "2024-01-01T00:00:01");
    ("name", VStr "/openssl-gen");
    ("memory_stats", VDict [("usage", VInt 0); ("limit", VInt 0)]) ]%string.

(** The first snapshot of a stream: the previous system usage is missing. *)
Definition snapshot_first : dict :=
  dict_set snapshot "precpu_stats"
    (VDict [ ("cpu_usage", VDict [("total_usage", VInt 0)]) ]%string).

(** A snapshot with a network section and a memory limit of zero. *)
Definition snapshot_zero_limit : dict :=
  dict_set snapshot "memory_stats"
    (VDict [("usage", VInt 512); ("limit", VInt 0)]%string).

(** A second container. *)
Definition snapshot_creator : dict :=
  dict_set (dict_set snapshot "name" (VStr "/jwt-creator"))
           "read" (VStr "2024-01-01T00:00:11").

Definition snapshot_creator_sample : sample Qc :=
  {| time := Q2Qc (inject_Z 1704067211);
     container := "jwt-creator";
     total_net_traffic := 160;
     memory_usage := truediv 512 2048;
     cpu_usage := PyFloat (truediv 100 1000) |}.

(** A metrics collector that was started and told its two containers. *)
Definition two_containers : DockerStat.collector Qc :=
  DockerStat.set_containers
    (snd (DockerStat.start_collecting DockerStat.init))
    ["jwt-client"; "jwt-creator"]%string.

(** A load collector that was started, and three requests: an answer after
    a twentieth of a second, a timeout, and an answer again. *)
Definition load_collector : ClientPerf.collector Qc :=
  snd (ClientPerf.start_collecting
         (ClientPerf.init "http://localhost:8080/run-interaction/" 500)).

Definition twentieth : Qc := Q2Qc (1 # 20).

Definition three_requests : list (ClientPerf.request Qc) :=
  [ ClientPerf.mk_request 1704067205000000000 (ClientPerf.Responded twentieth);
    ClientPerf.mk_request 1704067206000000000 ClientPerf.TimedOut;
    ClientPerf.mk_request 1704067230000000000 (ClientPerf.Responded twentieth) ].

(** The network section of [snapshot] and the sample [extract] makes of
    the snapshot. *)
Definition networks : dict :=
  [ ("eth0", VDict [("rx_bytes", VInt 100); ("tx_bytes", VInt 50)]);
    ("eth1", VDict [("rx_bytes", VInt 7); ("tx_bytes", VInt 3)]) ]%string.

Definition snapshot_sample : sample Qc :=
  {| time := Q2Qc (inject_Z 1704067210);
     container := "jwt-client";
     total_net_traffic := 160;
     memory_usage := truediv 512 2048;
     cpu_usage := PyFloat (truediv 100 1000) |}.

Definition snapshot_first_sample : sample Qc :=
  {| time := Q2Qc (inject_Z 1704067210);
     container := "jwt-client";
     total_net_traffic := 160;
     memory_usage := truediv 512 2048;
     cpu_usage := PyInt 0 |}.

(** The observations the loop records for [three_requests]. *)
Definition three_observations : list (ClientPerf.observation Qc) :=
  [ ClientPerf.mk_observation 0 500 (PyFloat twentieth)
      (truediv 1704067205000000000 1000000000);
    ClientPerf.mk_observation 1 500 (PyInt 9)
      (truediv 1704067206000000000 1000000000);
    ClientPerf.mk_observation 2 500 (PyFloat twentieth)
      (truediv 1704067230000000000 1000000000) ].


(** A run that goes through: two containers, three data points, three
    requests. *)
Definition steady_run : Analysis.environment Qc :=
  {| Analysis.down_attempts := [Analysis.Exited 0 ""];
     Analysis.checkout := Ok tt;
     Analysis.test_attempts :=
       [Analysis.TimeoutExpired; Analysis.Exited 0 "[INFO] BUILD SUCCESS"];
     Analysis.package_attempts := [Analysis.Exited 0 "[INFO] BUILD SUCCESS"];
     Analysis.launch := Ok tt;
     Analysis.containers_listed := ["jwt-client"; "jwt-creator"];
     Analysis.tc_exit_codes := [0; 0];
     Analysis.requests_seen := three_requests;
     Analysis.points_seen := [snapshot; snapshot_creator; snapshot] |}%string.

End Reference.

(** ** Results of [extract] as samples *)

(** The samples a list of results of [extract] stands for: [None] leaves
    no sample. *)
Definition samples_of {float : Type} (rs : list (option (sample float)))
  : list (sample float) :=
  flat_map (fun r => match r with Some s => [s] | None => [] end) rs.

(** ** The steps of a run before the shaping *)

(** The clean-up, the checkout, the two build commands and the readiness
    wait all ended well. *)
Definition system_up {float : Type} (env : Analysis.environment float) : Prop :=
  Analysis.run_cmd None (Analysis.down_attempts env) = Some (Ok tt) /\
  Analysis.checkout env = Ok tt /\
  Analysis.run_cmd (Some Analysis.BUILD_SUCCESS) (Analysis.test_attempts env)
    = Some (Ok tt) /\
  Analysis.run_cmd (Some Analysis.BUILD_SUCCESS) (Analysis.package_attempts env)
    = Some (Ok tt) /\
  Analysis.launch env = Ok tt.

(** The collectors of a run as [run_analysis] sets them up. *)
Definition stat_collector_of {float : Type} `{FloatOps float}
           (env : Analysis.environment float) : DockerStat.collector float :=
  DockerStat.set_containers
    (snd (DockerStat.start_collecting DockerStat.init))
    (Analysis.containers_listed env).

Definition load_collector_of {float : Type} `{FloatOps float}
           (msg_length : Z) : ClientPerf.collector float :=
  snd (ClientPerf.start_collecting
         (ClientPerf.init "http://localhost:8080/run-interaction/" msg_length)).

(** ** Further snapshots and runs for the reference instance *)

Module Scenario.

(** A snapshot whose system usage has not moved since the previous one. *)
Definition snapshot_idle_system : dict :=
  dict_set Reference.snapshot "precpu_stats"
    (VDict [ ("cpu_usage", VDict [("total_usage", VInt 300)]);
             ("system_cpu_usage", VInt 10000) ]%string).

(** A snapshot with a network section and no memory figures. *)
Definition snapshot_no_memory : dict :=
  [ ("read", VStr "2024-01-01T00:00:10");
    ("name", VStr "/jwt-client");
    ("networks",
     VDict [ ("eth0", VDict [("rx_bytes", VInt 100); ("tx_bytes", VInt 50)]);
             ("eth1", VDict [("rx_bytes", VInt 7); ("tx_bytes", VInt 3)]) ]) ]%string.

(** A load collector that was not started. *)
Definition idle_collector : ClientPerf.collector Qc :=
  ClientPerf.init "http://localhost:8080/run-interaction/" 500.

(** A request that fails with a connection error. *)
Definition refused : ClientPerf.request Qc :=
  ClientPerf.mk_request 1704067207000000000
    (ClientPerf.Failed (OtherError "ConnectionError")).

(** The run of [Reference.steady_run] with one [tc] command that fails. *)
Definition unshaped_run : Analysis.environment Qc :=
  {| Analysis.down_attempts := Analysis.down_attempts Reference.steady_run;
     Analysis.checkout := Ok tt;
     Analysis.test_attempts := Analysis.test_attempts Reference.steady_run;
     Analysis.package_attempts := Analysis.package_attempts Reference.steady_run;
     Analysis.launch := Ok tt;
     Analysis.containers_listed := ["jwt-client"; "jwt-creator"]%string;
     Analysis.tc_exit_codes := [0; 2];
     Analysis.requests_seen := Reference.three_requests;
     Analysis.points_seen := [Reference.snapshot; Reference.snapshot_creator;
                              Reference.snapshot] |}.

(** The run of [Reference.steady_run] with one data point more: two whole
    rounds of the two containers. *)
Definition whole_rounds_run : Analysis.environment Qc :=
  {| Analysis.down_attempts := Analysis.down_attempts Reference.steady_run;
     Analysis.checkout := Ok tt;
     Analysis.test_attempts := Analysis.test_attempts Reference.steady_run;
     Analysis.package_attempts := Analysis.package_attempts Reference.steady_run;
     Analysis.launch := Ok tt;
     Analysis.containers_listed := ["jwt-client"; "jwt-creator"]%string;
     Analysis.tc_exit_codes := [0; 0];
     Analysis.requests_seen := Reference.three_requests;
     Analysis.points_seen := [Reference.snapshot; Reference.snapshot_creator;
                              Reference.snapshot; Reference.snapshot_creator] |}.

(** What [Reference.steady_run] returns with a spin-up time of 15
    seconds. *)
Definition steady_result : Analysis.ExperimentResult Qc :=
  {| Analysis.docker_stats := [];
     Analysis.client_perf :=
       [ ClientPerf.mk_observation 2 500 (PyFloat Reference.twentieth)
           (truediv 1704067230000000000 1000000000) ] |}.








End Scenario.
(** ** Background commands *)

Module Background.

(** One turn of the loop that waits for the expected output: the value of
    the test [time.time() - start_time > timeout] at its start, and the
    line that [readline] returned, empty at the end of the output. *)
Record turn : Type := mk_turn {
  late : bool;
  line : string
}.

Definition UnicodeDecodeError : exn := OtherError "UnicodeDecodeError".

Definition byte_in (lo hi : N) (c : ascii) : bool :=
  (lo <=? N_of_ascii c)%N && (N_of_ascii c <=? hi)%N.

Definition continuation : N * N := (128, 191)%N.

(** The bytes that may follow a first byte, as ranges; [None] for a byte
    that starts no sequence. *)
Definition lead (c : ascii) : option (list (N * N)) :=
  let b := N_of_ascii c in
  if (b <=? 127)%N then Some []
  else if (194 <=? b)%N && (b <=? 223)%N then Some [continuation]
  else if (b =? 224)%N then Some [(160, 191)%N; continuation]
  else if (225 <=? b)%N && (b <=? 236)%N then Some [continuation; continuation]
  else if (b =? 237)%N then Some [(128, 159)%N; continuation]
  else if (238 <=? b)%N && (b <=? 239)%N then Some [continuation; continuation]
  else if (b =? 240)%N then Some [(144, 191)%N; continuation; continuation]
  else if (241 <=? b)%N && (b <=? 243)%N
       then Some [continuation; continuation; continuation]
  else if (b =? 244)%N then Some [(128, 143)%N; continuation; continuation]
  else None.

(** The byte strings that the strict UTF-8 codec decodes: sequences of one
    to four bytes, no overlong form, no surrogate, no code point above
    U+10FFFF.  [pending] holds the ranges of the bytes still due in the
    sequence at hand. *)
Fixpoint utf8 (pending : list (N * N)) (s : string) : bool :=
  match s with
  | EmptyString =>
      match pending with
      | [] => true
      | _ :: _ => false
      end
  | String c rest =>
      match pending with
      | (lo, hi) :: more => byte_in lo hi c && utf8 more rest
      | [] =>
          match lead c with
          | Some pending' => utf8 pending' rest
          | None => false
          end
      end
  end.

(** [line.decode()]: the text is printed and nothing else, so that only
    the exception matters. *)
Definition decode (line : string) : result unit :=
  if utf8 [] line then Ok tt else Raise UnicodeDecodeError.

(** The loop over the turns the process and the clock offer.  The buffer
    feeds the message of the error and nothing else, and is left out; the
    calls of [print] are taken to succeed.  [None] when the turns on offer
    end before the loop does: it is still waiting for a line. *)
Fixpoint wait_for (expected : string) (turns : list turn)
  : option (result unit) :=
  match turns with
  | [] => None
  | t :: rest =>
      if late t then Some (Raise RuntimeError)
      else if Analysis.contains expected (line t) then Some (Ok tt)
           else match decode (line t) with
                | Ok _ => wait_for expected rest
                | Raise e => Some (Raise e)
                end
  end.

(** [run_cmd_background], with the process handle it returns left out:
    [popen] is what [subprocess.Popen] did, the process started or an
    exception such as [OSError]; [expected] is a byte string, as the lines
    are and as the caller gives it. *)
Definition run_cmd_background (popen : result unit) (expected : option string)
           (turns : list turn) : option (result unit) :=
  match popen with
  | Raise e => Some (Raise e)
  | Ok _ =>
      if Analysis.truthy expected
      then wait_for (Analysis.marker expected) turns
      else Some (Ok tt)
  end.

(** No deadline passed, no marker read, and a line that decodes: the loop
    takes another turn. *)
Definition waiting (expected : option string) (t : turn) : Prop :=
  late t = false /\
  Analysis.contains (Analysis.marker expected) (line t) = false /\
  utf8 [] (line t) = true.

(** Lines of the reference process: progress, a line that is no UTF-8, and
    the line that tells that the system is ready. *)
Definition building : turn := mk_turn false "Building jwt-client".
Definition garbled : turn := mk_turn false (String "255" "Building jwt-client").
Definition accented : turn :=
  mk_turn false (String "195" (String "169" "tape 2/7")).
Definition ready : turn := mk_turn false "I am ready to interact with the system".
Definition overdue : turn := mk_turn true "".

End Background.

(** ** Chart data

    [render_charts.py] reads back the dict that [run_analysis] returned and
    [json.dump] wrote: the two datasets are modelled by the records they
    were made from, numbers being read back as they were written. *)

Definition IndexError : exn := OtherError "IndexError".
Definition AssertionError : exn := OtherError "AssertionError".
Definition FileNotFoundError : exn := OtherError "FileNotFoundError".
Definition JSONDecodeError : exn := OtherError "JSONDecodeError".

(** The float arithmetic of the charts: [float_sub x y] is [x - y],
    [float_is_zero x] is [x == 0], [int_div_float n x] is [n / x] for [x]
    that is not zero, [fmean] is [statistics.fmean] on a list that is not
    empty, [kbps x] is [8 / 1000 * float(x)], and [num_ltb] is [<] on
    numbers. *)
Class ChartOps (float : Type) : Type := {
  float_sub : float -> float -> float;
  float_is_zero : float -> bool;
  int_div_float : Z -> float -> float;
  fmean : list (pynum float) -> float;
  kbps : float -> float;
  num_ltb : pynum float -> pynum float -> bool
}.

Module Charts.
Section WithFloat.
Context {float : Type} `{FloatOps float} `{ChartOps float}.

Definition containers : list string :=
  ["jwt-client"; "jwt-creator"; "jwt-verifier"; "cert-auth"; "swan-carol";
   "swan-moon"]%string.

(** [n / x] with an int [n] and a float [x] *)
Definition py_div (n : Z) (x : float) : result float :=
  if float_is_zero x then Raise ZeroDivisionError else Ok (int_div_float n x).

(** [max(a, b)] *)
Definition py_max (a b : pynum float) : pynum float :=
  if num_ltb a b then b else a.

(** [filter(lambda x: x["container"] == cont, docker_stats_data)] *)
Definition cont_data_of (docker_stats_data : list (sample float)) (cont : string)
  : list (sample float) :=
  filter (fun x => String.eqb (container x) cont) docker_stats_data.

(** The loop over [zip(cont_data[1:], cont_times[1:])]: the rates appended
    to [traffic_rate]. *)
Fixpoint rates (prev_tot_net : Z) (prev_time : float)
         (entries : list (sample float)) : result (list (pynum float)) :=
  match entries with
  | [] => Ok []
  | entry :: rest =>
      rate <- py_div (total_net_traffic entry - prev_tot_net)
                     (float_sub (time entry) prev_time) ;;
      more <- rates (total_net_traffic entry) (time entry) rest ;;
      Ok (PyFloat rate :: more)
  end.

(** [traffic_rate] after the loop; [cont_data[0]] raises on an empty
    list. *)
Definition traffic_rate_of (cont_data : list (sample float))
  : result (list (pynum float)) :=
  match cont_data with
  | [] => Raise IndexError
  | first :: rest =>
      more <- rates (total_net_traffic first) (time first) rest ;;
      Ok (PyInt 0 :: more)
  end.

(** The moving average over windows of three rates, after two zeros. *)
Definition average_data_of (traffic_rate : list (pynum float))
  : list (pynum float) :=
  let window := 3 in
  [PyInt 0; PyInt 0] ++
  map (fun ind => PyFloat (kbps (fmean (firstn 3 (skipn ind traffic_rate)))))
      (seq 0 (Z.to_nat (Z.of_nat (List.length traffic_rate) - window + 1))).

(** What one turn of the loop over the containers appends to the four
    lists. *)
Record series : Type := mk_series {
  cont_times : list float;
  cont_cpu : list (pynum float);
  cont_ram : list float;
  cont_net : list (pynum float)
}.

Definition container_series (docker_stats_data : list (sample float))
           (cont : string) : result series :=
  let cont_data := cont_data_of docker_stats_data cont in
  traffic_rate <- traffic_rate_of cont_data ;;
  Ok {| cont_times := map time cont_data;
        cont_cpu := map cpu_usage cont_data;
        cont_ram := map memory_usage cont_data;
        cont_net := average_data_of traffic_rate |}.

Fixpoint for_containers (docker_stats_data : list (sample float))
         (conts : list string) : result (list series) :=
  match conts with
  | [] => Ok []
  | cont :: rest =>
      s <- container_series docker_stats_data cont ;;
      more <- for_containers docker_stats_data rest ;;
      Ok (s :: more)
  end.

(** The tuple [parse_branch] returns. *)
Record parsed : Type := mk_parsed {
  legend : list string;
  latencies : list (pynum float);
  timestamps : list (list float);
  cpu_series : list (list (pynum float));
  cpu_max : pynum float;
  ram_series : list (list float);
  ram_max : pynum float;
  net_series : list (list (pynum float));
  net_max : pynum float
}.

(** The loops that take the maximum of the values of all series. *)
Definition max_of (values : list (pynum float)) : pynum float :=
  fold_left py_max values (PyInt 0).

Definition parse_branch (docker_stats_data : list (sample float))
           (client_perf_data : list (ClientPerf.observation float))
  : result parsed :=
  let latencies := map ClientPerf.latency client_perf_data in
  per_container <- for_containers docker_stats_data containers ;;
  let timestamps := map cont_times per_container in
  let cpu_usage := map cont_cpu per_container in
  let ram_usage := map cont_ram per_container in
  let net_usage := map cont_net per_container in
  let cpu_max := max_of (List.concat cpu_usage) in
  let ram_max := max_of (map PyFloat (List.concat ram_usage)) in
  let net_max := max_of (List.concat net_usage) in
  min_timestamp <- Analysis.py_min (List.concat timestamps) ;;
  let timestamps :=
    map (fun x => map (fun y => float_sub y min_timestamp) x) timestamps in
  Ok {| legend := containers;
        latencies := latencies;
        timestamps := timestamps;
        cpu_series := cpu_usage;
        cpu_max := cpu_max;
        ram_series := ram_usage;
        ram_max := ram_max;
        net_series := net_usage;
        net_max := net_max |}.

(** What [open] and [json.load] make of the file of a branch, lines 64 and
    65, when they raise nothing: a JSON object that holds under each of
    the two keys the dataset that [analysis.py] wrote, or lacks the key, or
    a JSON value of another kind. *)
Inductive decoded : Type :=
| Object (docker_stats_entry : option (list (sample float)))
         (client_perf_entry : option (list (ClientPerf.observation float)))
| NotObject.

(** [data["docker_stats"]] and [data["client_perf"]]: a list, a string, a
    number and [None] take no key. *)
Definition docker_stats_of (data : decoded) : result (list (sample float)) :=
  match data with
  | Object (Some docker_stats_data) _ => Ok docker_stats_data
  | Object None _ => Raise KeyError
  | NotObject => Raise TypeError
  end.

Definition client_perf_of (data : decoded)
  : result (list (ClientPerf.observation float)) :=
  match data with
  | Object _ (Some client_perf_data) => Ok client_perf_data
  | Object _ None => Raise KeyError
  | NotObject => Raise TypeError
  end.

(** [parse_branch] from its first line on: [file] is the decoded value or
    the exception of [open] or [json.load], such as [FileNotFoundError] or
    [JSONDecodeError]. *)
Definition parse_branch_file (file : result decoded) : result parsed :=
  data <- file ;;
  docker_stats_data <- docker_stats_of data ;;
  client_perf_data <- client_perf_of data ;;
  parse_branch docker_stats_data client_perf_data.

(** The assertions of [render_time_chart]: as many legends as series, and
    in every series as many values as timestamps. *)
Fixpoint assert_lengths {A : Type} (series : list (list A))
         (timestamps : list (list float)) (legend : list string)
  : result unit :=
  match series, timestamps, legend with
  | ser :: series', times :: timestamps', _ :: legend' =>
      if Nat.eqb (List.length ser) (List.length times)
      then assert_lengths series' timestamps' legend'
      else Raise AssertionError
  | _, _, _ => Ok tt
  end.

Definition render_time_chart {A : Type} (timestamps : list (list float))
           (series : list (list A)) (legend : list string) : result unit :=
  if Nat.eqb (List.length legend) (List.length series)
  then assert_lengths series timestamps legend
  else Raise AssertionError.

(** The three time charts of [render_branch], in the order they are
    drawn. *)
Definition render_branch (p : parsed) : result unit :=
  _ <- render_time_chart (timestamps p) (cpu_series p) (legend p) ;;
  _ <- render_time_chart (timestamps p) (ram_series p) (legend p) ;;
  render_time_chart (timestamps p) (net_series p) (legend p).

End WithFloat.
Arguments series float : clear implicits.
Arguments parsed float : clear implicits.
Arguments decoded float : clear implicits.
End Charts.

(** No two samples in a row carry the same timestamp: the divisor of every
    rate is not zero. *)
Fixpoint spaced {float : Type} `{ChartOps float} (prev_time : float)
         (entries : list (sample float)) : Prop :=
  match entries with
  | [] => True
  | entry :: rest =>
      float_is_zero (float_sub (time entry) prev_time) = false /\
      spaced (time entry) rest
  end.

(** The samples of a container that [parse_branch] gets through: at least
    one, and no two in a row with the same timestamp. *)
Definition chartable {float : Type} `{ChartOps float}
           (cont_data : list (sample float)) : Prop :=
  match cont_data with
  | [] => False
  | first :: rest => spaced (time first) rest
  end.

(** ** Chart data on the reference instance *)

Module ChartScenario.

Definition number (x : pynum Qc) : Qc :=
  match x with
  | PyInt n => Q2Qc (inject_Z n)
  | PyFloat q => q
  end.

#[global] Instance Qc_charts : ChartOps Qc := {
  float_sub x y := Qcminus x y;
  float_is_zero x := if Qc_eq_dec x (Q2Qc 0) then true else false;
  int_div_float n x := Qcdiv (Q2Qc (inject_Z n)) x;
  fmean l :=
    Qcdiv (fold_left (fun acc x => Qcplus acc (number x)) l (Q2Qc 0))
          (Q2Qc (inject_Z (Z.of_nat (List.length l))));
  kbps x := Qcmult (Q2Qc (8 # 1000)) x;
  num_ltb x y := Reference.Qc_ltb (number x) (number y)
}.

(** A sample of the container [cont] taken at the second [t] with [total]
    bytes of traffic so far. *)
Definition sample_at (cont : string) (t total : Z) : sample Qc :=
  {| time := Q2Qc (inject_Z t);
     container := cont;
     total_net_traffic := total;
     memory_usage := truediv 512 2048;
     cpu_usage := PyFloat (truediv 100 1000) |}.

(** One round of samples of the six containers at the second [t]. *)
Definition round (t total : Z) : list (sample Qc) :=
  map (fun cont => sample_at cont t total) Charts.containers.

(** Three rounds: every container has three samples. *)
Definition three_rounds : list (sample Qc) :=
  round 1704067221 1000 ++ round 1704067222 3000 ++ round 1704067223 4000.

(** One round, and a second one that [swan-moon] misses. *)
Definition short_round : list (sample Qc) :=
  round 1704067221 1000 ++ removelast (round 1704067222 3000).

(** One round that [swan-moon] misses. *)
Definition missing_container : list (sample Qc) :=
  removelast (round 1704067221 1000).

(** The series of [jwt-client] over the three rounds, and what
    [parse_branch] returns for the short round. *)
Definition client_series : Charts.series Qc :=
  match Charts.container_series three_rounds "jwt-client" with
  | Ok s => s
  | Raise _ => Charts.mk_series [] [] [] []
  end.

Definition short_parsed : Charts.parsed Qc :=
  match Charts.parse_branch short_round [] with
  | Ok p => p
  | Raise _ =>
      Charts.mk_parsed [] [] [] [] (PyInt 0) [] (PyInt 0) [] (PyInt 0)
  end.

(** Files of a branch: none, one that was cut off while it was written, a
    JSON array, an object without the observations of the load generator,
    and the files that hold the datasets above. *)
Definition no_file : result (Charts.decoded Qc) := Raise FileNotFoundError.

Definition cut_off_file : result (Charts.decoded Qc) := Raise JSONDecodeError.

Definition array_file : result (Charts.decoded Qc) := Ok Charts.NotObject.

Definition stats_only_file : result (Charts.decoded Qc) :=
  Ok (Charts.Object (Some three_rounds) None).

Definition missing_container_file : result (Charts.decoded Qc) :=
  Ok (Charts.Object (Some missing_container) (Some [])).

Definition short_round_file : result (Charts.decoded Qc) :=
  Ok (Charts.Object (Some short_round) (Some [])).

End ChartScenario.

(** ** File names and branch names *)

Module Driver.

Definition SystemExit : exn := OtherError "SystemExit".

(** [s.split(sep)[0]]: the part of [s] before the first [sep], all of [s]
    when [sep] does not occur. *)
Fixpoint before_first (sep s : string) : string :=
  if String.prefix sep s then EmptyString
  else match s with
       | EmptyString => EmptyString
       | String c s' => String c (before_first sep s')
       end.

(** The name of the file [analysis.py] writes for a branch, in the data
    folder. *)
Definition out_file (branch : string) : string := (branch ++ ".json")%string.

(** The branch [render_folder] reads off a file name. *)
Definition branch_of (filename : string) : string :=
  before_first ".json" filename.

(** [name.split("/")[-1]]: the part after the last slash. *)
Fixpoint last_part (current name : string) : string :=
  match name with
  | EmptyString => current
  | String c name' =>
      if Ascii.eqb c "/" then last_part EmptyString name'
      else last_part (current ++ String c EmptyString) name'
  end.

(** [l.remove(x)]: the first [x] goes, [ValueError] when there is none. *)
Fixpoint list_remove (x : string) (l : list string) : result (list string) :=
  match l with
  | [] => Raise ValueError
  | y :: l' =>
      if String.eqb y x then Ok l'
      else l'' <- list_remove x l' ;; Ok (y :: l'')
  end.

(** [x in l] *)
Definition list_mem (x : string) (l : list string) : bool :=
  existsb (String.eqb x) l.

(** The loop that validates the branches given on the command line;
    [quit(-1)] raises [SystemExit]. *)
Fixpoint validate (branches avail_branches : list string) : result unit :=
  match branches with
  | [] => Ok tt
  | branch :: rest =>
      if negb (list_mem branch avail_branches) then Raise SystemExit
      else validate rest avail_branches
  end.

(** The branches to analyse, from the names of the remote refs and the
    branches given on the command line. *)
Definition select_branches (refs args_branches : list string)
  : result (list string) :=
  let avail_branches := map (last_part EmptyString) refs in
  avail_branches <- list_remove "HEAD" avail_branches ;;
  match args_branches with
  | _ :: _ =>
      _ <- validate args_branches avail_branches ;;
      Ok args_branches
  | [] => Ok avail_branches
  end.

End Driver.


(** * Properties *)

(** ** The error monad *)

Lemma bind_Ok_inv {A B} (m : result A) (k : A -> result B) (b : B) :
  (x <- m ;; k x) = Ok b -> exists a, m = Ok a /\ k a = Ok b.
Proof.
  destruct m as [a | e]; simpl; intros Hb.
  - exists a. split; [reflexivity | exact Hb].
  - discriminate Hb.
Qed.

Lemma bind_Ok {A B} (m : result A) (k : A -> result B) (a : A) :
  m = Ok a -> (x <- m ;; k x) = k a.
Proof. intros ->. reflexivity. Qed.

Lemma except_KeyError_Ok_inv {A} (m h : result A) (a : A) :
  except_KeyError m h = Ok a -> m = Ok a \/ (m = Raise KeyError /\ h = Ok a).
Proof.
  destruct m as [x | e]; simpl.
  - intros Hx. left. exact Hx.
  - destruct e; intros He; try discriminate He. right. split; [reflexivity | exact He].
Qed.

Ltac bind_inv H :=
  let x := fresh "x" in
  let Hx := fresh "Hx" in
  apply bind_Ok_inv in H; destruct H as (x & Hx & H).

(** ** Dicts *)

Lemma dict_get_set (d : dict) (k k' : string) (v : pyval) :
  dict_get (dict_set d k v) k' = if String.eqb k' k then Some v else dict_get d k'.
Proof.
  induction d as [| [k0 v0] d IH]; simpl.
  - destruct (String.eqb k' k); reflexivity.
  - destruct (String.eqb k k0) eqn:Hk; simpl.
    + apply String.eqb_eq in Hk. subst k0.
      destruct (String.eqb k' k); reflexivity.
    + destruct (String.eqb k' k0) eqn:Hk0.
      * apply String.eqb_eq in Hk0. subst k0.
        rewrite String.eqb_sym, Hk. reflexivity.
      * exact IH.
Qed.

Lemma dict_get_In (d : dict) (k : string) (v : pyval) :
  NoDup (dict_keys d) -> In (k, v) d -> dict_get d k = Some v.
Proof.
  induction d as [| [k0 v0] d IH]; simpl; intros Hnd Hin.
  - contradiction.
  - inversion Hnd as [| ? ? Hnotin Hnd']; subst.
    destruct Hin as [Heq | Hin].
    + inversion Heq; subst. rewrite String.eqb_refl. reflexivity.
    + destruct (String.eqb k k0) eqn:Hk.
      * apply String.eqb_eq in Hk. subst k0. exfalso. apply Hnotin.
        change k with (fst (k, v)). apply in_map. exact Hin.
      * apply IH; assumption.
Qed.

(** ** The metric extractor *)

Section ExtractFacts.
Context {float : Type} `{FloatOps float}.

Lemma extract_with_networks (data : dict) (timestamp : pyval) (nets : dict) :
  dict_get data "read" = Some timestamp ->
  dict_get data "networks" = Some (VDict nets) ->
  extract data =
    (total <- for_ifaces data 0 (dict_keys nets) ;;
     after_networks data timestamp total).
Proof.
  intros Hread Hnets. unfold extract, dict_mem. simpl.
  rewrite Hread, Hnets. reflexivity.
Qed.

(** A sample comes only from a snapshot with a timestamp and a network
    section that is a dict. *)
Lemma extract_sample_inv (data : dict) (s : sample float) :
  extract data = Ok (Some s) ->
  exists timestamp nets total,
    dict_get data "read" = Some timestamp /\
    dict_get data "networks" = Some (VDict nets) /\
    for_ifaces data 0 (dict_keys nets) = Ok total /\
    after_networks data timestamp total = Ok (Some s).
Proof.
  intros Hs. unfold extract, dict_mem in Hs. simpl in Hs.
  destruct (dict_get data "read") as [timestamp |] eqn:Hread; [| discriminate Hs].
  simpl in Hs.
  destruct (dict_get data "networks") as [networks |] eqn:Hnets; [| discriminate Hs].
  simpl in Hs.
  destruct networks as [| n | str | nets]; try discriminate Hs.
  simpl in Hs. bind_inv Hs.
  exists timestamp, nets, x. repeat split; assumption.
Qed.

Lemma after_networks_inv (data : dict) (timestamp : pyval) (total : Z)
      (s : sample float) :
  after_networks data timestamp total = Ok (Some s) ->
  total_net_traffic s = total /\
  except_KeyError (cpu_try data) (Ok (PyInt 0)) = Ok (cpu_usage s).
Proof.
  intros Hs. unfold after_networks in Hs.
  do 7 bind_inv Hs. inversion Hs; subst s; simpl. split; [reflexivity | assumption].
Qed.

End ExtractFacts.

Section NetworkTotal.
Context {float : Type} `{FloatOps float}.

Lemma add_iface_bytes (data nets : dict) (k : string) (v : pyval) (total r : Z) :
  dict_get data "networks" = Some (VDict nets) ->
  dict_get nets k = Some v ->
  add_iface data total k = Ok r <->
  exists b, iface_bytes v = Some b /\ r = total + b.
Proof.
  intros Hnets Hk. unfold add_iface, iface_bytes. simpl.
  rewrite Hnets. simpl. rewrite Hk. simpl.
  destruct (getitem v "rx_bytes") as [rx | e1]; simpl.
  - destruct rx as [| rx | s | d]; simpl;
      try (split; [intros Hr; discriminate Hr
                  | intros (b & Hb & _); destruct (getitem v "tx_bytes") as [[]|]; discriminate Hb]).
    destruct (getitem v "tx_bytes") as [tx | e2]; simpl.
    + destruct tx as [| tx | s | d]; simpl;
        try (split; [intros Hr; discriminate Hr | intros (b & Hb & _); discriminate Hb]).
      split.
      * intros Hr. inversion Hr; subst r. exists (rx + tx). split; [reflexivity | lia].
      * intros (b & Hb & Hr). inversion Hb; subst b r. f_equal. lia.
    + split; [intros Hr; discriminate Hr | intros (b & Hb & _); discriminate Hb].
  - split; [intros Hr; discriminate Hr | intros (b & Hb & _); discriminate Hb].
Qed.

(** The loop over the keys of [items] adds up the bytes of the items,
    when every item is found under its key in the network section. *)
Lemma for_ifaces_items (data nets : dict) :
  dict_get data "networks" = Some (VDict nets) ->
  forall (items : dict) (total r : Z),
    (forall k v, In (k, v) items -> dict_get nets k = Some v) ->
    for_ifaces data total (dict_keys items) = Ok r <->
    exists t, sum_rx_tx items = Some t /\ r = total + t.
Proof.
  intros Hnets items. induction items as [| [k v] items IH]; intros total r Hin; simpl.
  - split.
    + intros Hr. inversion Hr; subst. exists 0. split; [reflexivity | lia].
    + intros (t & Ht & Hr). inversion Ht; subst. f_equal. lia.
  - assert (Hk : dict_get nets k = Some v) by (apply Hin; left; reflexivity).
    assert (Hin' : forall k' v', In (k', v') items -> dict_get nets k' = Some v')
      by (intros k' v' Hi; apply Hin; right; exact Hi).
    split.
    + intros Hr. bind_inv Hr.
      apply (add_iface_bytes data nets k v total x Hnets Hk) in Hx.
      destruct Hx as (b & Hb & Hx). subst x.
      apply (IH (total + b) r Hin') in Hr. destruct Hr as (t & Ht & Hr).
      rewrite Hb, Ht. exists (b + t). split; [reflexivity | lia].
    + intros (t0 & Ht0 & Hr).
      destruct (iface_bytes v) as [b |] eqn:Hb; [| discriminate Ht0].
      destruct (sum_rx_tx items) as [t |] eqn:Ht; [| discriminate Ht0].
      inversion Ht0; subst t0.
      assert (Ha : add_iface data total k = Ok (total + b)).
      { apply (add_iface_bytes data nets k v total (total + b) Hnets Hk).
        exists b. split; [exact Hb | reflexivity]. }
      unfold dict in *. rewrite Ha. simpl.
      apply (IH (total + b) r Hin'). exists t. split; [reflexivity | lia].
Qed.

Lemma sum_rx_tx_Permutation (nets nets' : dict) :
  Permutation nets nets' -> sum_rx_tx nets' = sum_rx_tx nets.
Proof.
  induction 1 as [| [k v] l l' _ IH | [k1 v1] [k2 v2] l | l1 l2 l3 _ IH1 _ IH2]; simpl.
  - reflexivity.
  - rewrite IH. reflexivity.
  - destruct (iface_bytes v1) as [b1 |], (iface_bytes v2) as [b2 |],
      (sum_rx_tx l) as [t |]; try reflexivity.
    f_equal. lia.
  - rewrite IH2, IH1. reflexivity.
Qed.

(** The total of a sample is the sum over the items of the network
    section. *)
Lemma for_ifaces_sum (data nets : dict) (total : Z) :
  dict_get data "networks" = Some (VDict nets) ->
  NoDup (dict_keys nets) ->
  for_ifaces data 0 (dict_keys nets) = Ok total <-> sum_rx_tx nets = Some total.
Proof.
  intros Hnets Hnd.
  rewrite (for_ifaces_items data nets Hnets nets 0 total
             (fun k v Hin => dict_get_In nets k v Hnd Hin)).
  split.
  - intros (t & Ht & Hr). rewrite Ht. f_equal. lia.
  - intros Ht. exists total. split; [exact Ht | lia].
Qed.

(** Replacing the network section leaves the rest of [extract] as it is. *)
Lemma after_networks_set_networks (data : dict) (v timestamp : pyval) (total : Z) :
  after_networks (dict_set data "networks" v) timestamp total =
  after_networks data timestamp total.
Proof.
  unfold after_networks, cpu_try. simpl.
  rewrite !dict_get_set. simpl. reflexivity.
Qed.

End NetworkTotal.

Section ExtractClaims.
Context {float : Type} `{FloatOps float}.

(** C2: a snapshot that carries its timestamp ([read]) and lacks the network
    section makes [extract] return [None], the incomplete signal: no
    exception is raised and no sample is made. *)
Theorem extract_without_networks (data : dict) (timestamp : pyval) :
  dict_get data "read" = Some timestamp ->
  dict_get data "networks" = None ->
  extract data = Ok None.
Proof.
  intros Hread Hnets. unfold extract, dict_mem. simpl.
  rewrite Hread, Hnets. reflexivity.
Qed.

(** [None] is returned for no other snapshot. *)
Lemma extract_None_inv (data : dict) :
  extract data = Ok None -> dict_get data "networks" = None.
Proof.
  intros Hn. unfold extract, dict_mem in Hn. simpl in Hn.
  destruct (dict_get data "read") as [timestamp |]; [| discriminate Hn]. simpl in Hn.
  destruct (dict_get data "networks") as [networks |]; [| reflexivity]. simpl in Hn.
  destruct networks as [| n | str | nets]; try discriminate Hn. simpl in Hn.
  bind_inv Hn. unfold after_networks in Hn. do 7 bind_inv Hn. discriminate Hn.
Qed.

(** C8: the total of network bytes of a sample is the sum of rx plus tx
    bytes over the interfaces of the network section, and the sample is the
    same in whatever order the section lists its interfaces. *)
Theorem extract_total_network_bytes (data nets : dict) (s : sample float) :
  dict_get data "networks" = Some (VDict nets) ->
  NoDup (dict_keys nets) ->
  extract data = Ok (Some s) ->
  sum_rx_tx nets = Some (total_net_traffic s) /\
  forall nets', Permutation nets nets' ->
    extract (dict_set data "networks" (VDict nets')) = Ok (Some s).
Proof.
  intros Hnets Hnd Hs.
  destruct (extract_sample_inv data s Hs) as (timestamp & nets0 & total & Hread & Hnets0 & Hloop & Hrest).
  rewrite Hnets in Hnets0. inversion Hnets0; subst nets0. clear Hnets0.
  destruct (after_networks_inv data timestamp total s Hrest) as [Htotal _].
  apply (for_ifaces_sum data nets total Hnets Hnd) in Hloop.
  split.
  - rewrite Htotal. exact Hloop.
  - intros nets' Hperm.
    set (data' := dict_set data "networks" (VDict nets')).
    assert (Hread' : dict_get data' "read" = Some timestamp)
      by (unfold data'; rewrite dict_get_set; exact Hread).
    assert (Hnets' : dict_get data' "networks" = Some (VDict nets'))
      by (unfold data'; rewrite dict_get_set; reflexivity).
    assert (Hnd' : NoDup (dict_keys nets'))
      by (apply (Permutation_NoDup (Permutation_map fst Hperm)); exact Hnd).
    rewrite (extract_with_networks data' timestamp nets' Hread' Hnets').
    assert (Hloop' : for_ifaces data' 0 (dict_keys nets') = Ok total).
    { apply (for_ifaces_sum data' nets' total Hnets' Hnd').
      rewrite (sum_rx_tx_Permutation nets nets' Hperm). exact Hloop. }
    rewrite Hloop'. simpl. unfold data'.
    rewrite after_networks_set_networks. exact Hrest.
Qed.


(** C6, as the code has it: a snapshot with a network section whose memory
    limit is zero makes [extract] raise [ZeroDivisionError]; the division is
    not guarded. *)
Theorem extract_zero_memory_limit (data nets : dict) (timestamp : pyval)
        (total usage : Z) :
  dict_get data "read" = Some timestamp ->
  dict_get data "networks" = Some (VDict nets) ->
  NoDup (dict_keys nets) ->
  sum_rx_tx nets = Some total ->
  getpath (VDict data) ["memory_stats"; "usage"]%string = Ok (VInt usage) ->
  getpath (VDict data) ["memory_stats"; "limit"]%string = Ok (VInt 0) ->
  extract data = Raise ZeroDivisionError.
Proof.
  intros Hread Hnets Hnd Hsum Husage Hlimit.
  rewrite (extract_with_networks data timestamp nets Hread Hnets).
  apply (for_ifaces_sum data nets total Hnets Hnd) in Hsum.
  rewrite Hsum. simpl. unfold after_networks.
  rewrite Husage, Hlimit. reflexivity.
Qed.

End ExtractClaims.

(** ** The extractor on the reference snapshots *)

Lemma NoDup_reference_networks : NoDup (dict_keys Reference.networks).
Proof.
  repeat constructor; simpl; intros Hin;
    repeat (destruct Hin as [Hin | Hin]; [discriminate Hin |]); exact Hin.
Qed.

Lemma extract_reference_snapshot :
  extract Reference.snapshot = Ok (Some Reference.snapshot_sample).
Proof. reflexivity. Qed.

Lemma extract_reference_snapshot_first :
  extract Reference.snapshot_first = Ok (Some Reference.snapshot_first_sample).
Proof. reflexivity. Qed.

Lemma extract_without_networks_witness :
  extract (float := Qc) Reference.snapshot_no_networks = Ok None.
Proof.
  apply (extract_without_networks Reference.snapshot_no_networks
           (VStr "2024-01-01T00:00:01")); reflexivity.
Defined.

Lemma extract_total_network_bytes_witness :
  sum_rx_tx Reference.networks = Some 160 /\
  extract Reference.snapshot_swapped = Ok (Some Reference.snapshot_sample).
Proof.
  destruct (extract_total_network_bytes Reference.snapshot Reference.networks
              Reference.snapshot_sample eq_refl NoDup_reference_networks
              extract_reference_snapshot) as [Hsum Hperm].
  split.
  - exact Hsum.
  - apply (Hperm (rev Reference.networks)). apply Permutation_rev.
Defined.


Lemma extract_zero_memory_limit_witness :
  extract (float := Qc) Reference.snapshot_zero_limit = Raise ZeroDivisionError.
Proof.
  apply (extract_zero_memory_limit Reference.snapshot_zero_limit Reference.networks
           (VStr "2024-01-01T00:00:10") 160 512);
    try reflexivity.
  exact NoDup_reference_networks.
Defined.

(** The snapshot with a zero memory limit has a network section, and
    [extract] neither returns the incomplete signal for it nor avoids the
    division error. *)
Lemma extract_zero_limit_not_incomplete :
  dict_mem Reference.snapshot_zero_limit "networks" = true /\
  getpath (VDict Reference.snapshot_zero_limit) ["memory_stats"; "limit"]%string
    = Ok (VInt 0) /\
  extract (float := Qc) Reference.snapshot_zero_limit <> Ok None /\
  extract (float := Qc) Reference.snapshot_zero_limit = Raise ZeroDivisionError.
Proof.
  repeat split; try reflexivity. intros Hnone. discriminate Hnone.
Qed.

(** ** Slices *)

Lemma slice_to_0 {A} (l : list A) : slice_to l 0 = [].
Proof. reflexivity. Qed.

Lemma slice_to_neg {A} (l : list A) (r : Z) :
  0 < r <= Z.of_nat (List.length l) ->
  slice_to l (- r) = firstn (List.length l - Z.to_nat r) l.
Proof.
  intros Hr. unfold slice_to.
  destruct (- r <? 0) eqn:Hneg; [| apply Z.ltb_ge in Hneg; lia].
  f_equal. lia.
Qed.

(** ** The container metrics collector *)

Section DockerStatFacts.
Context {float : Type} `{FloatOps float}.

(** When the last round is partial, exactly its samples are cut off. *)
Lemma same_amount_partial_round (self : DockerStat.collector float)
      (data : list (sample float)) :
  0 < DockerStat.num_containers self ->
  Z.of_nat (List.length data) mod DockerStat.num_containers self <> 0 ->
  exists kept,
    DockerStat.same_amount self data = Ok kept /\
    Z.of_nat (List.length kept) =
      Z.of_nat (List.length data)
      - Z.of_nat (List.length data) mod DockerStat.num_containers self /\
    Z.of_nat (List.length kept) mod DockerStat.num_containers self = 0.
Proof.
  intros Hn Hr. unfold DockerStat.same_amount, py_mod.
  set (n := DockerStat.num_containers self) in *.
  set (len := Z.of_nat (List.length data)) in *.
  destruct (n =? 0) eqn:Hz; [apply Z.eqb_eq in Hz; lia |]. simpl.
  assert (Hlen : 0 <= len) by (unfold len; lia).
  assert (Hmod : 0 <= len mod n < n) by (apply Z.mod_pos_bound; lia).
  assert (Hle : len mod n <= len) by (apply Z.mod_le; lia).
  exists (firstn (List.length data - Z.to_nat (len mod n)) data).
  split; [| split].
  - f_equal. apply slice_to_neg. fold len. lia.
  - rewrite length_firstn. fold len. unfold len in *. lia.
  - rewrite length_firstn.
    replace (Z.of_nat (Nat.min (List.length data - Z.to_nat (len mod n)) (List.length data)))
      with (len - len mod n) by (unfold len in *; lia).
    rewrite Zminus_mod, Zmod_mod, Z.sub_diag. apply Zmod_0_l.
Qed.

(** C1, where the code departs from it: when the samples fill whole rounds,
    the slice is [data[:0]] and every sample is dropped. *)
Theorem same_amount_full_rounds (self : DockerStat.collector float)
        (data : list (sample float)) :
  0 < DockerStat.num_containers self ->
  Z.of_nat (List.length data) mod DockerStat.num_containers self = 0 ->
  DockerStat.same_amount self data = Ok [].
Proof.
  intros Hn Hr. unfold DockerStat.same_amount, py_mod.
  destruct (DockerStat.num_containers self =? 0) eqn:Hz;
    [apply Z.eqb_eq in Hz; lia |].
  simpl. rewrite Hr. reflexivity.
Qed.

(** Without containers the modulo raises. *)
Lemma same_amount_no_containers (self : DockerStat.collector float)
      (data : list (sample float)) :
  DockerStat.num_containers self = 0 ->
  DockerStat.same_amount self data = Raise ZeroDivisionError.
Proof.
  intros Hn. unfold DockerStat.same_amount, py_mod. rewrite Hn. reflexivity.
Qed.

Lemma collect_no_containers (self : DockerStat.collector float)
      (points : list dict) :
  DockerStat.num_containers self = 0 ->
  exists e, DockerStat.collect self points = Raise e /\
            (is_Ok (DockerStat.collect_loop points []) = true ->
             e = ZeroDivisionError).
Proof.
  intros Hn. unfold DockerStat.collect.
  destruct (DockerStat.collect_loop points []) as [data | e]; simpl.
  - exists ZeroDivisionError. split; [| reflexivity].
    apply same_amount_no_containers. exact Hn.
  - exists e. split; [reflexivity | intros Hok; discriminate Hok].
Qed.



(** A worker that has ended is not brought back by further turns. *)
Lemma collect_loop_ended (turns more : list Listing.turn) :
  forall (data : list (sample float)) (r : result (list (sample float))),
    Listing.collect_loop turns data = Some r ->
    Listing.collect_loop (turns ++ more) data = Some r.
Proof.
  induction turns as [| t turns IH]; intros data r Hr;
    cbn [Listing.collect_loop app] in *; [discriminate Hr |].
  destruct (Listing.one_turn t data); [apply IH; exact Hr | exact Hr | exact Hr].
Qed.



Lemma docker_join_stop_event (self : DockerStat.collector float)
      (points : list dict) :
  DockerStat.stop_event (snd (DockerStat.join self points))
  = DockerStat.stop_event self.
Proof.
  unfold DockerStat.join.
  destruct (DockerStat.collector_thread self); try reflexivity.
  destruct (DockerStat.collect self points); reflexivity.
Qed.

Lemma docker_stop_collecting_stopped (self : DockerStat.collector float)
      (points : list dict) :
  DockerStat.stop_event self = true ->
  DockerStat.stop_collecting self points = (Raise RuntimeError, self).
Proof. intros Hs. unfold DockerStat.stop_collecting. rewrite Hs. reflexivity. Qed.

Lemma docker_stop_collecting_sets_event (self self' : DockerStat.collector float)
      (points : list dict) (r : result (list (sample float))) :
  DockerStat.stop_event self = false ->
  DockerStat.stop_collecting self points = (r, self') ->
  DockerStat.stop_event self' = true.
Proof.
  intros Hs Hstop. unfold DockerStat.stop_collecting in Hstop. rewrite Hs in Hstop.
  pose proof (docker_join_stop_event (DockerStat.set_stop_event self) points) as Hj.
  destruct (DockerStat.join (DockerStat.set_stop_event self) points) as [[u | e] c];
    inversion Hstop; subst; exact Hj.
Qed.

End DockerStatFacts.



Lemma extract_reference_snapshot_creator :
  extract Reference.snapshot_creator = Ok (Some Reference.snapshot_creator_sample).
Proof. reflexivity. Qed.

(** Two containers, one complete snapshot of each: both samples are
    dropped. *)
Lemma same_amount_full_rounds_witness :
  DockerStat.collect_loop [Reference.snapshot; Reference.snapshot_creator] []
    = Ok [Reference.snapshot_sample; Reference.snapshot_creator_sample] /\
  DockerStat.same_amount Reference.two_containers
    [Reference.snapshot_sample; Reference.snapshot_creator_sample] = Ok [].
Proof.
  split.
  - reflexivity.
  - apply (same_amount_full_rounds Reference.two_containers
             [Reference.snapshot_sample; Reference.snapshot_creator_sample]);
      reflexivity.
Defined.

Lemma stop_collecting_full_rounds :
  fst (DockerStat.stop_collecting Reference.two_containers
         [Reference.snapshot; Reference.snapshot_creator]) = Ok [].
Proof. reflexivity. Qed.

(** ** The load generator collector *)

Section ClientPerfFacts.
Context {float : Type} `{FloatOps float}.

Lemma load_loop_app (self : ClientPerf.collector float)
      (l1 l2 : list (ClientPerf.request float)) :
  forall (request_id : Z) (data : list (ClientPerf.observation float)),
    ClientPerf.load_loop self (l1 ++ l2) request_id data =
    (d <- ClientPerf.load_loop self l1 request_id data ;;
     ClientPerf.load_loop self l2 (request_id + Z.of_nat (List.length l1)) d).
Proof.
  induction l1 as [| r l1 IH]; intros request_id data.
  - simpl. rewrite Z.add_0_r. reflexivity.
  - cbn [app ClientPerf.load_loop List.length].
    destruct (ClientPerf.post r) as [elapsed | e]; simpl; [| reflexivity].
    rewrite IH. f_equal.
    replace (request_id + 1 + Z.of_nat (List.length l1))
      with (request_id + Z.pos (Pos.of_succ_nat (List.length l1))) by lia.
    reflexivity.
Qed.

(** Requests that are answered or time out are all recorded. *)
Lemma load_loop_answered (self : ClientPerf.collector float)
      (reqs : list (ClientPerf.request float)) :
  forallb ClientPerf.answered reqs = true ->
  forall (request_id : Z) (data : list (ClientPerf.observation float)),
  exists obs,
    ClientPerf.load_loop self reqs request_id data = Ok (data ++ obs) /\
    List.length obs = List.length reqs.
Proof.
  induction reqs as [| r reqs IH]; intros Hans request_id data.
  - exists []. simpl. rewrite app_nil_r. split; reflexivity.
  - simpl in Hans. apply andb_true_iff in Hans. destruct Hans as [Hr Hans].
    cbn [ClientPerf.load_loop].
    unfold ClientPerf.answered in Hr. unfold ClientPerf.post.
    destruct (ClientPerf.outcome r) as [elapsed | | e]; try discriminate Hr; simpl;
      match goal with
      | |- context [ClientPerf.load_loop self reqs ?i (data ++ [?o])] =>
          destruct (IH Hans i (data ++ [o])) as (obs & Hobs & Hlen);
          exists (o :: obs); rewrite Hobs, <- app_assoc; simpl;
          split; [reflexivity | f_equal; exact Hlen]
      end.
Qed.

(** Against an endpoint that never answers in time, every observation
    carries the threshold. *)
Lemma load_loop_all_timeouts (self : ClientPerf.collector float)
      (reqs : list (ClientPerf.request float)) :
  Forall (fun r => ClientPerf.outcome r = ClientPerf.TimedOut) reqs ->
  forall (request_id : Z) (data : list (ClientPerf.observation float)),
    Forall (fun o => ClientPerf.latency o = PyInt TIMEOUT_SEC) data ->
    exists data',
      ClientPerf.load_loop self reqs request_id data = Ok data' /\
      Forall (fun o => ClientPerf.latency o = PyInt TIMEOUT_SEC) data'.
Proof.
  induction 1 as [| r reqs Hr _ IH]; intros request_id data Hdata.
  - exists data. split; [reflexivity | exact Hdata].
  - cbn [ClientPerf.load_loop]. unfold ClientPerf.post. rewrite Hr. simpl.
    apply IH. apply Forall_app. split; [exact Hdata |].
    constructor; [reflexivity | constructor].
Qed.

Lemma client_join_stop_event (self : ClientPerf.collector float)
      (reqs : list (ClientPerf.request float)) :
  ClientPerf.stop_event (snd (ClientPerf.join self reqs))
  = ClientPerf.stop_event self.
Proof.
  unfold ClientPerf.join.
  destruct (ClientPerf.collector_thread self); try reflexivity.
  destruct (ClientPerf.load_continuous self reqs); reflexivity.
Qed.

Lemma client_stop_collecting_stopped (self : ClientPerf.collector float)
      (reqs : list (ClientPerf.request float)) :
  ClientPerf.stop_event self = true ->
  ClientPerf.stop_collecting self reqs = (Raise RuntimeError, self).
Proof. intros Hs. unfold ClientPerf.stop_collecting. rewrite Hs. reflexivity. Qed.

Lemma client_stop_collecting_sets_event (self self' : ClientPerf.collector float)
      (reqs : list (ClientPerf.request float))
      (r : result (list (ClientPerf.observation float))) :
  ClientPerf.stop_event self = false ->
  ClientPerf.stop_collecting self reqs = (r, self') ->
  ClientPerf.stop_event self' = true.
Proof.
  intros Hs Hstop. unfold ClientPerf.stop_collecting in Hstop. rewrite Hs in Hstop.
  pose proof (client_join_stop_event (ClientPerf.set_stop_event self) reqs) as Hj.
  destruct (ClientPerf.join (ClientPerf.set_stop_event self) reqs) as [[u | e] c];
    inversion Hstop; subst; exact Hj.
Qed.

(** C5: after a stop that returned the dataset, a second stop of either
    collector raises [RuntimeError] and leaves the collector, and so its
    dataset, as it was. *)
Theorem stop_collecting_twice :
  (forall (self self' : ClientPerf.collector float)
          (reqs reqs' : list (ClientPerf.request float))
          (d : list (ClientPerf.observation float)),
      ClientPerf.stop_collecting self reqs = (Ok d, self') ->
      ClientPerf.stop_collecting self' reqs' = (Raise RuntimeError, self') /\
      ClientPerf.data (snd (ClientPerf.stop_collecting self' reqs')) = d) /\
  (forall (self self' : DockerStat.collector float)
          (points points' : list dict) (d : list (sample float)),
      DockerStat.stop_collecting self points = (Ok d, self') ->
      DockerStat.stop_collecting self' points' = (Raise RuntimeError, self') /\
      DockerStat.data (snd (DockerStat.stop_collecting self' points')) = d).
Proof.
  split.
  - intros self self' reqs reqs' d Hstop.
    assert (Hs : ClientPerf.stop_event self = false).
    { destruct (ClientPerf.stop_event self) eqn:Hs; [| reflexivity].
      rewrite (client_stop_collecting_stopped self reqs Hs) in Hstop.
      discriminate Hstop. }
    pose proof (client_stop_collecting_sets_event self self' reqs (Ok d) Hs Hstop) as Hs'.
    rewrite (client_stop_collecting_stopped self' reqs' Hs'). split; [reflexivity |].
    simpl. unfold ClientPerf.stop_collecting in Hstop. rewrite Hs in Hstop.
    destruct (ClientPerf.join (ClientPerf.set_stop_event self) reqs) as [[u | e] c];
      inversion Hstop; subst; reflexivity.
  - intros self self' points points' d Hstop.
    assert (Hs : DockerStat.stop_event self = false).
    { destruct (DockerStat.stop_event self) eqn:Hs; [| reflexivity].
      rewrite (docker_stop_collecting_stopped self points Hs) in Hstop.
      discriminate Hstop. }
    pose proof (docker_stop_collecting_sets_event self self' points (Ok d) Hs Hstop) as Hs'.
    rewrite (docker_stop_collecting_stopped self' points' Hs'). split; [reflexivity |].
    simpl. unfold DockerStat.stop_collecting in Hstop. rewrite Hs in Hstop.
    destruct (DockerStat.join (DockerStat.set_stop_event self) points) as [[u | e] c];
      inversion Hstop; subst; reflexivity.
Qed.

End ClientPerfFacts.

Lemma stop_collecting_twice_witness :
  ClientPerf.stop_collecting
    (snd (ClientPerf.stop_collecting Reference.load_collector Reference.three_requests))
    [] =
  (Raise RuntimeError,
   snd (ClientPerf.stop_collecting Reference.load_collector Reference.three_requests)) /\
  List.length
    (ClientPerf.data
       (snd (ClientPerf.stop_collecting
               (snd (ClientPerf.stop_collecting Reference.load_collector
                       Reference.three_requests)) []))) = 3%nat.
Proof.
  destruct (proj1 (stop_collecting_twice (float := Qc))
              Reference.load_collector
              (snd (ClientPerf.stop_collecting Reference.load_collector
                      Reference.three_requests))
              Reference.three_requests []
              (ClientPerf.data
                 (snd (ClientPerf.stop_collecting Reference.load_collector
                         Reference.three_requests)))
              eq_refl) as [Hraise Hdata].
  split.
  - exact Hraise.
  - rewrite Hdata. reflexivity.
Defined.

(** ** The orchestrator *)

Section RunCmdFacts.

Lemma run_cmd_after_timeouts (expected : option string) (n : nat)
      (rest : list Analysis.attempt) :
  Analysis.run_cmd expected (repeat Analysis.TimeoutExpired n ++ rest)
  = Analysis.run_cmd expected rest.
Proof. induction n as [| n IH]; simpl; [reflexivity | exact IH]. Qed.



End RunCmdFacts.

Section AnalysisFacts.
Context {float : Type} `{FloatOps float}.



End AnalysisFacts.

(** ** Trimming *)

Section TrimFacts.
Context {float : Type} `{FloatOrder float}.

Lemma float_lt_le_trans (x y z : float) :
  float_ltb x y = true -> float_ltb z y = false -> float_ltb x z = true.
Proof.
  intros Hxy Hyz. destruct (float_ltb y z) eqn:Hlt.
  - exact (float_ltb_trans x y z Hxy Hlt).
  - rewrite <- (float_ltb_total y z Hlt Hyz). exact Hxy.
Qed.

Lemma float_le_trans (x y z : float) :
  float_ltb y x = false -> float_ltb z y = false -> float_ltb z x = false.
Proof.
  intros Hxy Hyz. destruct (float_ltb z x) eqn:Hlt; [| reflexivity].
  rewrite (float_lt_le_trans z x y Hlt Hxy) in Hyz. discriminate Hyz.
Qed.

Lemma float_lt_asym (x y : float) :
  float_ltb x y = true -> float_ltb y x = false.
Proof.
  intros Hxy. destruct (float_ltb y x) eqn:Hyx; [| reflexivity].
  rewrite <- (float_ltb_trans x y x Hxy Hyx). apply float_ltb_irrefl.
Qed.

(** The loop of [min] ends on a least element. *)
Lemma fold_min_least (l : list float) :
  forall x,
    let m := fold_left (fun cur item => if float_ltb item cur then item else cur) l x in
    In m (x :: l) /\ forall t, In t (x :: l) -> float_ltb t m = false.
Proof.
  induction l as [| a l IH]; intros x; simpl.
  - split; [left; reflexivity |].
    intros t [Ht | []]. subst t. apply float_ltb_irrefl.
  - specialize (IH (if float_ltb a x then a else x)).
    simpl in IH. destruct IH as [Hin Hleast].
    set (m := fold_left (fun cur item => if float_ltb item cur then item else cur) l
                        (if float_ltb a x then a else x)) in *.
    assert (Hfirst : float_ltb (if float_ltb a x then a else x) m = false)
      by (apply Hleast; left; reflexivity).
    split.
    + destruct Hin as [Hin | Hin]; [| right; right; exact Hin].
      destruct (float_ltb a x); [right; left | left]; exact Hin.
    + intros t [Ht | [Ht | Ht]].
      * subst t. destruct (float_ltb a x) eqn:Hax; [| exact Hfirst].
        apply (float_le_trans m a x Hfirst). apply float_lt_asym. exact Hax.
      * subst t. destruct (float_ltb a x) eqn:Hax; [exact Hfirst |].
        apply (float_le_trans m x a Hfirst Hax).
      * apply Hleast. right. exact Ht.
Qed.

Lemma py_min_least (l : list float) :
  l <> [] ->
  exists m, Analysis.py_min l = Ok m /\ In m l /\
            forall t, In t l -> float_ltb t m = false.
Proof.
  destruct l as [| x l]; intros Hne; [contradiction Hne; reflexivity |].
  exists (fold_left (fun cur item => if float_ltb item cur then item else cur) l x).
  split; [reflexivity |]. exact (fold_min_least l x).
Qed.

Lemma py_min2_least (a b : float) :
  (Analysis.py_min2 a b = a \/ Analysis.py_min2 a b = b) /\
  float_ltb a (Analysis.py_min2 a b) = false /\
  float_ltb b (Analysis.py_min2 a b) = false.
Proof.
  unfold Analysis.py_min2. destruct (float_ltb b a) eqn:Hba.
  - split; [right; reflexivity |]. split.
    + apply float_lt_asym. exact Hba.
    + apply float_ltb_irrefl.
  - split; [left; reflexivity |]. split.
    + apply float_ltb_irrefl.
    + exact Hba.
Qed.

(** C3: when both datasets have records, the trim step returns a result;
    with [t0] the least timestamp of both datasets, the records of the
    result are the records of the datasets whose timestamp is strictly
    greater than the spin-up time plus [t0], and the timestamp of a record
    of the result is neither less than that bound nor equal to it. *)
Theorem trim_spinup_retained (spinup_time : Z)
        (client_perf_data : list (ClientPerf.observation float))
        (docker_stats_data : list (sample float)) :
  client_perf_data <> [] ->
  docker_stats_data <> [] ->
  exists res t0,
    Analysis.trim_spinup spinup_time client_perf_data docker_stats_data = Ok res /\
    In t0 (map ClientPerf.start client_perf_data ++ map time docker_stats_data) /\
    (forall t,
        In t (map ClientPerf.start client_perf_data ++ map time docker_stats_data) ->
        float_ltb t t0 = false) /\
    (forall x,
        In x (Analysis.client_perf res) <->
        In x client_perf_data /\
        float_ltb (int_add_float spinup_time t0) (ClientPerf.start x) = true) /\
    (forall x,
        In x (Analysis.docker_stats res) <->
        In x docker_stats_data /\
        float_ltb (int_add_float spinup_time t0) (time x) = true) /\
    (forall x,
        In x (Analysis.client_perf res) ->
        float_ltb (ClientPerf.start x) (int_add_float spinup_time t0) = false /\
        ClientPerf.start x <> int_add_float spinup_time t0) /\
    (forall x,
        In x (Analysis.docker_stats res) ->
        float_ltb (time x) (int_add_float spinup_time t0) = false /\
        time x <> int_add_float spinup_time t0).
Proof.
  intros Hclient Hstats.
  assert (Hc : map ClientPerf.start client_perf_data <> [])
    by (destruct client_perf_data; [contradiction Hclient; reflexivity | discriminate]).
  assert (Hd : map time docker_stats_data <> [])
    by (destruct docker_stats_data; [contradiction Hstats; reflexivity | discriminate]).
  destruct (py_min_least _ Hc) as (mp & Hmp & Hinp & Hleastp).
  destruct (py_min_least _ Hd) as (ms & Hms & Hins & Hleasts).
  destruct (py_min2_least mp ms) as (Hwhich & Hlep & Hles).
  unfold Analysis.trim_spinup. rewrite Hmp, Hms. cbn [bind].
  unfold Analysis.py_gt.
  set (bound := int_add_float spinup_time (Analysis.py_min2 mp ms)).
  assert (Hstrict : forall t, float_ltb bound t = true ->
                              float_ltb t bound = false /\ t <> bound).
  { intros t Ht. split; [apply float_lt_asym; exact Ht |].
    intros ->. rewrite float_ltb_irrefl in Ht. discriminate Ht. }
  eexists. exists (Analysis.py_min2 mp ms).
  split; [reflexivity |].
  cbn [Analysis.client_perf Analysis.docker_stats]. fold bound.
  split; [| split; [| split; [| split; [| split]]]].
  - apply in_or_app. destruct Hwhich as [-> | ->]; [left | right]; assumption.
  - intros t Ht. apply in_app_or in Ht. destruct Ht as [Ht | Ht].
    + apply (float_le_trans _ mp t Hlep). apply Hleastp. exact Ht.
    + apply (float_le_trans _ ms t Hles). apply Hleasts. exact Ht.
  - intros x. apply filter_In.
  - intros x. apply filter_In.
  - intros x Hx. apply filter_In in Hx. apply Hstrict. exact (proj2 Hx).
  - intros x Hx. apply filter_In in Hx. apply Hstrict. exact (proj2 Hx).
Qed.

End TrimFacts.

Section TrimErrors.
Context {float : Type} `{FloatOps float}.

(** [min] of an empty dataset raises: no result is returned. *)
Lemma trim_spinup_empty (spinup_time : Z)
      (client_perf_data : list (ClientPerf.observation float))
      (docker_stats_data : list (sample float)) :
  client_perf_data = [] \/ docker_stats_data = [] ->
  Analysis.trim_spinup spinup_time client_perf_data docker_stats_data
  = Raise ValueError.
Proof.
  intros [-> | ->]; unfold Analysis.trim_spinup; simpl; [reflexivity |].
  destruct client_perf_data; reflexivity.
Qed.

(** The result of a run is the result of the trim step on the datasets the
    two collectors returned. *)
Lemma run_analysis_result (env : Analysis.environment float)
      (spinup_time msg_length : Z) (res : Analysis.ExperimentResult float) :
  Analysis.run_analysis env spinup_time msg_length = Some (Ok res) ->
  exists client_perf_data docker_stats_data,
    Analysis.trim_spinup spinup_time client_perf_data docker_stats_data = Ok res.
Proof.
  unfold Analysis.run_analysis, Analysis.step. intros Hrun.
  repeat match type of Hrun with
         | match ?m with _ => _ end = _ =>
             destruct m as [[?|?]|] ; try discriminate Hrun
         | match ?m with _ => _ end = _ =>
             destruct m as [?|?] ; try discriminate Hrun
         end.
  inversion Hrun as [Htrim]. eauto.
Qed.

End TrimErrors.

(** ** The orchestrator on the reference instance *)

Lemma Qc_ltb_irrefl (x : Qc) : Reference.Qc_ltb x x = false.
Proof.
  unfold Reference.Qc_ltb. replace (Qccompare x x) with Eq; [reflexivity |].
  symmetry. apply Qceq_alt. reflexivity.
Qed.

Lemma Qc_ltb_lt (x y : Qc) : Reference.Qc_ltb x y = true <-> Qclt x y.
Proof.
  unfold Reference.Qc_ltb. rewrite Qclt_alt.
  destruct (Qccompare x y); split; intros Hc; try reflexivity; discriminate Hc.
Qed.

Lemma Qc_ltb_total (x y : Qc) :
  Reference.Qc_ltb x y = false -> Reference.Qc_ltb y x = false -> x = y.
Proof.
  intros Hxy Hyx. destruct (Qc_dec x y) as [[Hlt | Hgt] | Heq].
  - apply Qc_ltb_lt in Hlt. rewrite Hlt in Hxy. discriminate Hxy.
  - apply Qc_ltb_lt in Hgt. rewrite Hgt in Hyx. discriminate Hyx.
  - exact Heq.
Qed.

#[global] Instance Qc_float_order : FloatOrder Qc.
Proof.
  split.
  - exact Qc_ltb_irrefl.
  - intros x y z Hxy Hyz. apply Qc_ltb_lt. apply Qc_ltb_lt in Hxy, Hyz.
    exact (Qclt_trans x y z Hxy Hyz).
  - exact Qc_ltb_total.
Qed.

Lemma trim_spinup_retained_witness :
  exists res t0,
    Analysis.trim_spinup 15 Reference.three_observations
      [Reference.snapshot_sample; Reference.snapshot_creator_sample] = Ok res /\
    In t0 (map ClientPerf.start Reference.three_observations
           ++ map time [Reference.snapshot_sample; Reference.snapshot_creator_sample]) /\
    (forall t,
        In t (map ClientPerf.start Reference.three_observations
              ++ map time [Reference.snapshot_sample; Reference.snapshot_creator_sample]) ->
        float_ltb t t0 = false) /\
    (forall x,
        In x (Analysis.client_perf res) <->
        In x Reference.three_observations /\
        float_ltb (int_add_float 15 t0) (ClientPerf.start x) = true) /\
    (forall x,
        In x (Analysis.docker_stats res) <->
        In x [Reference.snapshot_sample; Reference.snapshot_creator_sample] /\
        float_ltb (int_add_float 15 t0) (time x) = true) /\
    (forall x,
        In x (Analysis.client_perf res) ->
        float_ltb (ClientPerf.start x) (int_add_float 15 t0) = false /\
        ClientPerf.start x <> int_add_float 15 t0) /\
    (forall x,
        In x (Analysis.docker_stats res) ->
        float_ltb (time x) (int_add_float 15 t0) = false /\
        time x <> int_add_float 15 t0).
Proof.
  apply (trim_spinup_retained 15 Reference.three_observations
           [Reference.snapshot_sample; Reference.snapshot_creator_sample]);
    discriminate.
Defined.

(** On the reference datasets the first request, sent at the fifth second,
    is the oldest record, and the bound is the twentieth second: the
    requests sent at the fifth and the sixth second and the samples of the
    tenth and the eleventh go, the request sent at the thirtieth stays. *)
Lemma trim_spinup_reference :
  Analysis.trim_spinup 15 Reference.three_observations
    [Reference.snapshot_sample; Reference.snapshot_creator_sample]
  = Ok Scenario.steady_result /\
  float_ltb (int_add_float 15 (truediv 1704067205000000000 1000000000))
            (truediv 1704067230000000000 1000000000) = true /\
  float_ltb (int_add_float 15 (truediv 1704067205000000000 1000000000))
            (time Reference.snapshot_creator_sample) = false.
Proof. split; [vm_compute; reflexivity | split; reflexivity]. Qed.

(** A record whose timestamp is the bound itself goes: of three requests
    sent 0, 15 and 16 seconds after the start, with a spin-up time of 15
    seconds, the last one stays. *)
Lemma trim_spinup_at_the_bound :
  exists res,
    Analysis.trim_spinup 15
      [ ClientPerf.mk_observation 0 500 (PyInt 9) (truediv 1704067205 1);
        ClientPerf.mk_observation 1 500 (PyInt 9) (truediv 1704067220 1);
        ClientPerf.mk_observation 2 500 (PyInt 9) (truediv 1704067221 1) ]
      [Reference.snapshot_sample] = Ok res /\
    map ClientPerf.id (Analysis.client_perf res) = [2] /\
    Analysis.docker_stats res = [].
Proof. eexists. split; [vm_compute; reflexivity | split; reflexivity]. Qed.

(** The records the reference run keeps: of the three requests the one
    sent 25 seconds after the first, and no sample, both being older than
    the spin-up time. *)
Lemma run_analysis_steady_run :
  exists res,
    Analysis.run_analysis Reference.steady_run 15 500 = Some (Ok res) /\
    map ClientPerf.id (Analysis.client_perf res) = [2] /\
    Analysis.docker_stats res = [].
Proof. eexists. split; [vm_compute; reflexivity | split; reflexivity]. Qed.


Lemma load_continuous_three_requests :
  ClientPerf.load_continuous Reference.load_collector Reference.three_requests
  = Ok Reference.three_observations.
Proof. reflexivity. Qed.

(** A snapshot without its timestamp makes [extract] raise before the
    network section is looked at. *)
Lemma extract_without_read {float : Type} `{FloatOps float} (data : dict) :
  dict_get data "read" = None -> extract data = Raise KeyError.
Proof. intros Hread. unfold extract. simpl. rewrite Hread. reflexivity. Qed.

(** ** When [extract] makes a sample *)

Section ExtractComplete.
Context {float : Type} `{FloatOps float}.

(** A snapshot with a valid timestamp, a name, a network section of integer
    counters, integer memory figures with a limit that is not zero, and CPU
    figures of which at most some are missing, yields a sample. *)
Lemma extract_complete (data nets : dict) (ts name : string) (t : float)
      (total usage limit : Z) :
  dict_get data "read" = Some (VStr ts) ->
  fromisoformat_timestamp ts = Some t ->
  dict_get data "networks" = Some (VDict nets) ->
  NoDup (dict_keys nets) ->
  sum_rx_tx nets = Some total ->
  getpath (VDict data) ["memory_stats"; "usage"]%string = Ok (VInt usage) ->
  getpath (VDict data) ["memory_stats"; "limit"]%string = Ok (VInt limit) ->
  limit <> 0 ->
  (forall e, cpu_try data = Raise e -> e = KeyError) ->
  dict_get data "name" = Some (VStr name) ->
  exists cpu,
    extract data = Ok (Some {| time := t;
                               container := str_tail name;
                               total_net_traffic := total;
                               memory_usage := truediv usage limit;
                               cpu_usage := cpu |}).
Proof.
  intros Hread Hts Hnets Hnd Hsum Husage Hlimit Hnz Hcpu Hname.
  rewrite (extract_with_networks data (VStr ts) nets Hread Hnets).
  apply (for_ifaces_sum data nets total Hnets Hnd) in Hsum.
  rewrite Hsum. cbn [bind]. unfold after_networks.
  rewrite Husage, Hlimit. cbn [bind py_truediv].
  apply Z.eqb_neq in Hnz. rewrite Hnz. cbn [bind].
  destruct (cpu_try data) as [cpu | e] eqn:Hc.
  - exists cpu. simpl. rewrite Hts, Hname. reflexivity.
  - rewrite (Hcpu e eq_refl). exists (PyInt 0). simpl. rewrite Hts, Hname. reflexivity.
Qed.

(** X3: the CPU ratio of a sample is the int 0 exactly when a key was missing
    in the [try] block. *)
Lemma extract_cpu_default (data : dict) (s : sample float) :
  extract data = Ok (Some s) ->
  cpu_usage s = PyInt 0 <-> cpu_try data = Raise KeyError.
Proof.
  intros Hs.
  destruct (extract_sample_inv data s Hs) as (timestamp & nets & total & _ & _ & _ & Hrest).
  destruct (after_networks_inv data timestamp total s Hrest) as [_ Hcpu].
  apply except_KeyError_Ok_inv in Hcpu. destruct Hcpu as [Hok | [Hkey Hzero]].
  - split; intros Hc.
    + rewrite Hc in Hok. unfold cpu_try in Hok. do 7 bind_inv Hok. discriminate Hok.
    + rewrite Hc in Hok. discriminate Hok.
  - inversion Hzero as [Hz]. split; intros _; [exact Hkey | reflexivity].
Qed.

(** X4: when the two system usages are equal the division of the [try] block
    raises, and [extract] with it. *)
Lemma extract_zero_system_difference (data nets : dict) (timestamp : pyval)
      (total usage limit cur_total pre_total sys : Z) :
  dict_get data "read" = Some timestamp ->
  dict_get data "networks" = Some (VDict nets) ->
  NoDup (dict_keys nets) ->
  sum_rx_tx nets = Some total ->
  getpath (VDict data) ["memory_stats"; "usage"]%string = Ok (VInt usage) ->
  getpath (VDict data) ["memory_stats"; "limit"]%string = Ok (VInt limit) ->
  limit <> 0 ->
  getpath (VDict data) ["cpu_stats"; "cpu_usage"; "total_usage"]%string
    = Ok (VInt cur_total) ->
  getpath (VDict data) ["precpu_stats"; "cpu_usage"; "total_usage"]%string
    = Ok (VInt pre_total) ->
  getpath (VDict data) ["cpu_stats"; "system_cpu_usage"]%string = Ok (VInt sys) ->
  getpath (VDict data) ["precpu_stats"; "system_cpu_usage"]%string = Ok (VInt sys) ->
  extract data = Raise ZeroDivisionError.
Proof.
  intros Hread Hnets Hnd Hsum Husage Hlimit Hnz Hct Hpt Hcs Hps.
  rewrite (extract_with_networks data timestamp nets Hread Hnets).
  apply (for_ifaces_sum data nets total Hnets Hnd) in Hsum.
  rewrite Hsum. cbn [bind]. unfold after_networks, cpu_try.
  rewrite Husage, Hlimit, Hct, Hpt, Hcs, Hps. cbn [bind py_truediv py_sub].
  apply Z.eqb_neq in Hnz. rewrite Hnz. cbn [bind].
  rewrite Z.sub_diag. reflexivity.
Qed.

End ExtractComplete.

(** * Further properties of the code *)

(** ** The metric extractor *)

Section ExtractMore.
Context {float : Type} `{FloatOps float}.

(** X1: [extract] returns [None] exactly for the snapshots that have the
    key [read] and lack the key [networks]. *)
Theorem extract_incomplete_iff (data : dict) :
  extract data = Ok None <->
  dict_mem data "read" = true /\ dict_mem data "networks" = false.
Proof.
  unfold dict_mem. split.
  - intros Hn. rewrite (extract_None_inv data Hn). split; [| reflexivity].
    unfold extract in Hn. simpl in Hn.
    destruct (dict_get data "read"); [reflexivity | discriminate Hn].
  - intros [Hread Hnets]. unfold extract, dict_mem. simpl.
    destruct (dict_get data "read"); [| discriminate Hread].
    destruct (dict_get data "networks"); [discriminate Hnets | reflexivity].
Qed.

Lemma py_truediv_Ok_inv (a b : pyval) (q : float) :
  py_truediv a b = Ok q ->
  exists x y, a = VInt x /\ b = VInt y /\ y <> 0 /\ q = truediv x y.
Proof.
  unfold py_truediv. intros Hq.
  destruct a as [| x | |]; try discriminate Hq.
  destruct b as [| y | |]; try discriminate Hq.
  destruct (y =? 0) eqn:Hy; [discriminate Hq |].
  apply Z.eqb_neq in Hy. inversion Hq. exists x, y. repeat split; assumption.
Qed.

Lemma parse_timestamp_Ok_inv (v : pyval) (t : float) :
  parse_timestamp v = Ok t ->
  exists ts, v = VStr ts /\ fromisoformat_timestamp ts = Some t.
Proof.
  unfold parse_timestamp. intros Ht.
  destruct v as [| | ts |]; try discriminate Ht.
  destruct (fromisoformat_timestamp ts) as [t' |] eqn:Hts; [| discriminate Ht].
  inversion Ht; subst. exists ts. split; [reflexivity | exact Hts].
Qed.

Lemma getitem_dict_Ok (data : dict) (k : string) (v : pyval) :
  getitem (VDict data) k = Ok v <-> dict_get data k = Some v.
Proof.
  simpl. destruct (dict_get data k) as [x |]; split; intros Hx;
    inversion Hx; reflexivity.
Qed.

(** X2: for a snapshot with a network section, a dict of distinct
    interfaces, [extract] makes the sample [s] exactly when the timestamp
    is a string in ISO format, the name is a string, every interface carries
    integer counters, usage and limit are integers with a limit that is not
    zero, and the [try] block ends without an error or with [KeyError]; the
    fields of [s] are then the parsed time, the name without its first
    character, the sum of the counters, usage divided by limit, and the CPU
    ratio or its default. *)
Theorem extract_sample_iff (data nets : dict) (s : sample float) :
  dict_get data "networks" = Some (VDict nets) ->
  NoDup (dict_keys nets) ->
  extract data = Ok (Some s) <->
  exists (ts name : string) (usage limit : Z),
    dict_get data "read" = Some (VStr ts) /\
    fromisoformat_timestamp ts = Some (time s) /\
    dict_get data "name" = Some (VStr name) /\
    container s = str_tail name /\
    sum_rx_tx nets = Some (total_net_traffic s) /\
    getpath (VDict data) ["memory_stats"; "usage"]%string = Ok (VInt usage) /\
    getpath (VDict data) ["memory_stats"; "limit"]%string = Ok (VInt limit) /\
    limit <> 0 /\
    memory_usage s = truediv usage limit /\
    except_KeyError (cpu_try data) (Ok (PyInt 0)) = Ok (cpu_usage s).
Proof.
  intros Hnets Hnd. split.
  - intros Hs.
    destruct (extract_sample_inv data s Hs)
      as (timestamp & nets0 & total & Hread & Hnets0 & Hloop & Hrest).
    rewrite Hnets in Hnets0. inversion Hnets0; subst nets0. clear Hnets0.
    apply (for_ifaces_sum data nets total Hnets Hnd) in Hloop.
    unfold after_networks in Hrest.
    apply bind_Ok_inv in Hrest. destruct Hrest as (usage & Husage & Hrest).
    apply bind_Ok_inv in Hrest. destruct Hrest as (limit & Hlimit & Hrest).
    apply bind_Ok_inv in Hrest. destruct Hrest as (mem & Hmem & Hrest).
    apply bind_Ok_inv in Hrest. destruct Hrest as (cpu & Hcpu & Hrest).
    apply bind_Ok_inv in Hrest. destruct Hrest as (t & Ht & Hrest).
    apply bind_Ok_inv in Hrest. destruct Hrest as (name & Hname & Hrest).
    apply bind_Ok_inv in Hrest. destruct Hrest as (cont & Hcont & Hrest).
    inversion Hrest; subst s; clear Hrest. cbn [time container total_net_traffic
                                                 memory_usage cpu_usage].
    destruct (py_truediv_Ok_inv usage limit mem Hmem) as (u & l & -> & -> & Hl & ->).
    destruct (parse_timestamp_Ok_inv timestamp t Ht) as (ts & -> & Hts).
    apply getitem_dict_Ok in Hname.
    destruct name as [| | name |]; try discriminate Hcont.
    inversion Hcont; subst cont.
    exists ts, name, u, l. repeat split; assumption.
  - intros (ts & name & usage & limit & Hread & Hts & Hname & Hcont & Hsum
            & Husage & Hlimit & Hl & Hmem & Hcpu).
    rewrite (extract_with_networks data (VStr ts) nets Hread Hnets).
    apply (for_ifaces_sum data nets (total_net_traffic s) Hnets Hnd) in Hsum.
    rewrite Hsum. cbn [bind]. unfold after_networks.
    rewrite Husage, Hlimit. cbn [bind py_truediv].
    apply Z.eqb_neq in Hl. rewrite Hl. cbn [bind]. rewrite Hcpu. cbn [bind].
    simpl. rewrite Hts, Hname. simpl. rewrite <- Hcont, <- Hmem.
    destruct s; reflexivity.
Qed.

(** X5: only the keys of the CPU figures are defaulted: for a snapshot with
    a timestamp and a network section of integer counters, a missing key on
    the way to the memory usage or to the memory limit makes [extract]
    raise [KeyError]. *)
Theorem extract_missing_memory_key (data nets : dict) (timestamp : pyval)
        (total : Z) :
  dict_get data "read" = Some timestamp ->
  dict_get data "networks" = Some (VDict nets) ->
  NoDup (dict_keys nets) ->
  sum_rx_tx nets = Some total ->
  getpath (VDict data) ["memory_stats"; "usage"]%string = Raise KeyError \/
  getpath (VDict data) ["memory_stats"; "limit"]%string = Raise KeyError ->
  extract data = Raise KeyError.
Proof.
  intros Hread Hnets Hnd Hsum Hmissing.
  rewrite (extract_with_networks data timestamp nets Hread Hnets).
  apply (for_ifaces_sum data nets total Hnets Hnd) in Hsum.
  rewrite Hsum. cbn [bind]. unfold after_networks.
  destruct Hmissing as [Hu | Hl].
  - rewrite Hu. reflexivity.
  - rewrite Hl. simpl in Hl |- *.
    destruct (dict_get data "memory_stats") as [m |]; [| reflexivity].
    simpl in Hl |- *.
    destruct m as [| n | str | d]; simpl in Hl |- *; try discriminate Hl.
    destruct (dict_get d "usage"); reflexivity.
Qed.

End ExtractMore.

Lemma extract_sample_iff_witness :
  extract Reference.snapshot = Ok (Some Reference.snapshot_sample) <->
  exists (ts name : string) (usage limit : Z),
    dict_get Reference.snapshot "read" = Some (VStr ts) /\
    fromisoformat_timestamp ts = Some (time Reference.snapshot_sample) /\
    dict_get Reference.snapshot "name" = Some (VStr name) /\
    container Reference.snapshot_sample = str_tail name /\
    sum_rx_tx Reference.networks
      = Some (total_net_traffic Reference.snapshot_sample) /\
    getpath (VDict Reference.snapshot) ["memory_stats"; "usage"]%string
      = Ok (VInt usage) /\
    getpath (VDict Reference.snapshot) ["memory_stats"; "limit"]%string
      = Ok (VInt limit) /\
    limit <> 0 /\
    memory_usage Reference.snapshot_sample = truediv usage limit /\
    except_KeyError (cpu_try Reference.snapshot) (Ok (PyInt 0))
      = Ok (cpu_usage Reference.snapshot_sample).
Proof.
  apply (extract_sample_iff Reference.snapshot Reference.networks
           Reference.snapshot_sample eq_refl NoDup_reference_networks).
Defined.

Lemma extract_cpu_default_witness :
  cpu_usage Reference.snapshot_first_sample = PyInt 0 <->
  cpu_try (float := Qc) Reference.snapshot_first = Raise KeyError.
Proof.
  apply (extract_cpu_default Reference.snapshot_first
           Reference.snapshot_first_sample extract_reference_snapshot_first).
Defined.

Lemma extract_zero_system_difference_witness :
  extract (float := Qc) Scenario.snapshot_idle_system = Raise ZeroDivisionError.
Proof.
  apply (extract_zero_system_difference Scenario.snapshot_idle_system
           Reference.networks (VStr "2024-01-01T00:00:10")
           160 512 2048 400 300 10000);
    try reflexivity.
  - exact NoDup_reference_networks.
  - discriminate.
Defined.

Lemma extract_missing_memory_key_witness :
  extract (float := Qc) Scenario.snapshot_no_memory = Raise KeyError.
Proof.
  apply (extract_missing_memory_key Scenario.snapshot_no_memory
           Reference.networks (VStr "2024-01-01T00:00:10") 160);
    try reflexivity.
  - exact NoDup_reference_networks.
  - left. reflexivity.
Defined.

(** ** The container metrics collector, from the data points to the dataset *)

Section DockerStatMore.
Context {float : Type} `{FloatOps float}.

Lemma same_amount_cases (self : DockerStat.collector float)
      (data : list (sample float)) :
  0 < DockerStat.num_containers self ->
  DockerStat.same_amount self data =
  Ok (if Z.of_nat (List.length data) mod DockerStat.num_containers self =? 0
      then []
      else firstn (List.length data
                   - Z.to_nat (Z.of_nat (List.length data)
                               mod DockerStat.num_containers self)) data).
Proof.
  intros Hn. unfold DockerStat.same_amount, py_mod.
  set (n := DockerStat.num_containers self) in *.
  set (len := Z.of_nat (List.length data)) in *.
  destruct (n =? 0) eqn:Hz; [apply Z.eqb_eq in Hz; lia |]. cbn [bind].
  assert (Hmod : 0 <= len mod n < n) by (apply Z.mod_pos_bound; lia).
  assert (Hle : len mod n <= len) by (apply Z.mod_le; unfold len; lia).
  destruct (len mod n =? 0) eqn:Hr.
  - apply Z.eqb_eq in Hr. rewrite Hr. reflexivity.
  - apply Z.eqb_neq in Hr. f_equal. apply slice_to_neg. fold len. lia.
Qed.

Lemma collect_set_stop_event (self : DockerStat.collector float)
      (points : list dict) :
  DockerStat.collect (DockerStat.set_stop_event self) points
  = DockerStat.collect self points.
Proof. reflexivity. Qed.

(** What [stop_collecting] returns for a collector that runs. *)
Lemma docker_stop_collecting_returns (self : DockerStat.collector float)
      (points : list dict) :
  DockerStat.collector_thread self = Started ->
  DockerStat.stop_event self = false ->
  fst (DockerStat.stop_collecting self points) =
  Ok match DockerStat.collect self points with
     | Ok d => d
     | Raise _ => DockerStat.data self
     end.
Proof.
  intros Ht Hs. unfold DockerStat.stop_collecting, DockerStat.join.
  rewrite Hs. cbn [DockerStat.collector_thread DockerStat.set_stop_event].
  rewrite Ht. rewrite collect_set_stop_event.
  destruct (DockerStat.collect self points); reflexivity.
Qed.

(** X6: a running collector with [N > 0] containers whose worker made [L]
    samples, [L] not a multiple of [N], returns on stop the first
    [L - L mod N] samples, in the order they were made. *)
Theorem stop_collecting_partial_round (self : DockerStat.collector float)
        (points : list dict) (data : list (sample float)) :
  DockerStat.collector_thread self = Started ->
  DockerStat.stop_event self = false ->
  0 < DockerStat.num_containers self ->
  DockerStat.collect_loop points [] = Ok data ->
  Z.of_nat (List.length data) mod DockerStat.num_containers self <> 0 ->
  fst (DockerStat.stop_collecting self points) =
  Ok (firstn (Z.to_nat (Z.of_nat (List.length data)
                        - Z.of_nat (List.length data)
                          mod DockerStat.num_containers self)) data).
Proof.
  intros Ht Hs Hn Hloop Hr.
  rewrite (docker_stop_collecting_returns self points Ht Hs).
  unfold DockerStat.collect. rewrite Hloop. cbn [bind].
  rewrite (same_amount_cases self data Hn).
  apply Z.eqb_neq in Hr. rewrite Hr. do 2 f_equal.
  apply Z.eqb_neq in Hr.
  pose proof (Z.mod_pos_bound (Z.of_nat (List.length data))
                (DockerStat.num_containers self) Hn) as Hmod.
  pose proof (Z.mod_le (Z.of_nat (List.length data))
                (DockerStat.num_containers self)) as Hle.
  lia.
Qed.

(** X7: with [N > 0] containers the dataset returned on stop is a prefix of
    the samples the worker made, its length is a multiple of [N], and it is
    never all of them: when there are samples, at least one is dropped. *)
Theorem stop_collecting_drops_samples (self : DockerStat.collector float)
        (points : list dict) (data : list (sample float)) :
  DockerStat.collector_thread self = Started ->
  DockerStat.stop_event self = false ->
  0 < DockerStat.num_containers self ->
  DockerStat.collect_loop points [] = Ok data ->
  exists kept dropped,
    fst (DockerStat.stop_collecting self points) = Ok kept /\
    data = kept ++ dropped /\
    Z.of_nat (List.length kept) mod DockerStat.num_containers self = 0 /\
    (data <> [] -> dropped <> []).
Proof.
  intros Ht Hs Hn Hloop.
  rewrite (docker_stop_collecting_returns self points Ht Hs).
  unfold DockerStat.collect. rewrite Hloop. cbn [bind].
  rewrite (same_amount_cases self data Hn).
  set (n := DockerStat.num_containers self) in *.
  set (len := Z.of_nat (List.length data)) in *.
  assert (Hmod : 0 <= len mod n < n) by (apply Z.mod_pos_bound; lia).
  assert (Hle : len mod n <= len) by (apply Z.mod_le; unfold len; lia).
  destruct (len mod n =? 0) eqn:Hr.
  - exists [], data. split; [reflexivity |]. split; [reflexivity |].
    split; [apply Zmod_0_l | intros Hne; exact Hne].
  - apply Z.eqb_neq in Hr.
    set (k := (List.length data - Z.to_nat (len mod n))%nat).
    exists (firstn k data), (skipn k data). split; [reflexivity |].
    split; [symmetry; apply firstn_skipn |]. split.
    + rewrite length_firstn.
      replace (Z.of_nat (Nat.min k (List.length data))) with (len - len mod n)
        by (unfold k, len in *; lia).
      rewrite Zminus_mod, Zmod_mod, Z.sub_diag. apply Zmod_0_l.
    + intros _ Hnil.
      assert (Hlen : List.length (skipn k data) = 0%nat) by (rewrite Hnil; reflexivity).
      rewrite length_skipn in Hlen. unfold k, len in *. lia.
Qed.

Lemma collect_loop_app (l1 l2 : list dict) :
  forall acc : list (sample float),
    DockerStat.collect_loop (l1 ++ l2) acc =
    (d <- DockerStat.collect_loop l1 acc ;; DockerStat.collect_loop l2 d).
Proof.
  induction l1 as [| p l1 IH]; intros acc.
  - reflexivity.
  - cbn [app DockerStat.collect_loop].
    destruct (extract p) as [r | e]; cbn [bind]; [| reflexivity].
    apply IH.
Qed.

Lemma collect_loop_results (points : list dict) :
  forall acc data : list (sample float),
    DockerStat.collect_loop points acc = Ok data <->
    exists rs, Forall2 (fun p r => extract p = Ok r) points rs /\
               data = acc ++ samples_of rs.
Proof.
  induction points as [| p points IH]; intros acc data;
    cbn [DockerStat.collect_loop].
  - split.
    + intros Hd. inversion Hd; subst. exists []. split; [constructor |].
      simpl. rewrite app_nil_r. reflexivity.
    + intros (rs & Hrs & ->). inversion Hrs; subst. simpl.
      rewrite app_nil_r. reflexivity.
  - split.
    + intros Hd. bind_inv Hd. apply IH in Hd. destruct Hd as (rs & Hrs & ->).
      exists (x :: rs). split; [constructor; assumption |].
      destruct x as [s |]; simpl; [rewrite <- app_assoc |]; reflexivity.
    + intros (rs & Hrs & ->). inversion Hrs as [| ? r ? rs' Hp Hrs']; subst.
      rewrite Hp. cbn [bind]. apply IH. exists rs'. split; [exact Hrs' |].
      destruct r as [s |]; simpl; [rewrite <- app_assoc |]; reflexivity.
Qed.

Lemma samples_of_length (points : list dict)
      (rs : list (option (sample float))) :
  Forall2 (fun p r => extract p = Ok r) points rs ->
  List.length (samples_of rs)
  = List.length (filter (fun p => dict_mem p "networks") points).
Proof.
  induction 1 as [| p r points rs Hp _ IH]; [reflexivity |].
  unfold samples_of in *. cbn [flat_map filter]. rewrite length_app, IH.
  destruct r as [s |].
  - destruct (extract_sample_inv p s Hp) as (_ & nets & _ & _ & Hnets & _).
    unfold dict_mem. rewrite Hnets. reflexivity.
  - apply extract_None_inv in Hp. unfold dict_mem. rewrite Hp. reflexivity.
Qed.

(** X8: when the worker gets through its data points, the samples it holds
    are the samples of the data points in their order, the data points
    without a network section leaving no trace: there are as many samples
    as data points with the key [networks]. *)
Theorem collect_loop_keeps_samples (points : list dict)
        (data : list (sample float)) :
  DockerStat.collect_loop points [] = Ok data ->
  (exists rs, Forall2 (fun p r => extract p = Ok r) points rs /\
              data = samples_of rs) /\
  List.length data
  = List.length (filter (fun p => dict_mem p "networks") points).
Proof.
  intros Hd. apply collect_loop_results in Hd. destruct Hd as (rs & Hrs & ->).
  simpl. split.
  - exists rs. split; [exact Hrs | reflexivity].
  - apply samples_of_length. exact Hrs.
Qed.

(** X9: an exception of [extract] on one data point ends the worker: the
    samples made before are lost, and [stop_collecting] returns the dataset
    the collector had, the empty list of [__init__]. *)
Theorem collect_failure_loses_samples (self : DockerStat.collector float)
        (before after : list dict) (point : dict) (e : exn)
        (data : list (sample float)) :
  DockerStat.collector_thread self = Started ->
  DockerStat.stop_event self = false ->
  DockerStat.collect_loop before [] = Ok data ->
  extract (float := float) point = Raise e ->
  DockerStat.collect self (before ++ point :: after) = Raise e /\
  fst (DockerStat.stop_collecting self (before ++ point :: after))
  = Ok (DockerStat.data self).
Proof.
  intros Ht Hs Hbefore Hpoint.
  assert (Hc : DockerStat.collect self (before ++ point :: after) = Raise e).
  { unfold DockerStat.collect. rewrite collect_loop_app, Hbefore.
    cbn [bind DockerStat.collect_loop]. rewrite Hpoint. reflexivity. }
  split; [exact Hc |].
  rewrite (docker_stop_collecting_returns self _ Ht Hs), Hc. reflexivity.
Qed.

End DockerStatMore.

Lemma stop_collecting_partial_round_witness :
  fst (DockerStat.stop_collecting Reference.two_containers
         [Reference.snapshot; Reference.snapshot_creator; Reference.snapshot])
  = Ok (firstn (Z.to_nat (3 - 3 mod 2))
          [Reference.snapshot_sample; Reference.snapshot_creator_sample;
           Reference.snapshot_sample]).
Proof.
  apply (stop_collecting_partial_round Reference.two_containers
           [Reference.snapshot; Reference.snapshot_creator; Reference.snapshot]
           [Reference.snapshot_sample; Reference.snapshot_creator_sample;
            Reference.snapshot_sample]);
    try reflexivity.
  discriminate.
Defined.

Lemma stop_collecting_drops_samples_witness :
  exists kept dropped,
    fst (DockerStat.stop_collecting Reference.two_containers
           [Reference.snapshot; Reference.snapshot_creator; Reference.snapshot])
    = Ok kept /\
    [Reference.snapshot_sample; Reference.snapshot_creator_sample;
     Reference.snapshot_sample] = kept ++ dropped /\
    Z.of_nat (List.length kept) mod 2 = 0 /\
    ([Reference.snapshot_sample; Reference.snapshot_creator_sample;
      Reference.snapshot_sample] <> [] -> dropped <> []).
Proof.
  apply (stop_collecting_drops_samples Reference.two_containers
           [Reference.snapshot; Reference.snapshot_creator; Reference.snapshot]
           [Reference.snapshot_sample; Reference.snapshot_creator_sample;
            Reference.snapshot_sample]);
    reflexivity.
Defined.

Lemma collect_loop_keeps_samples_witness :
  (exists rs,
      Forall2 (fun p r => extract p = Ok r)
        [Reference.snapshot; Reference.snapshot_no_networks;
         Reference.snapshot_creator] rs /\
      [Reference.snapshot_sample; Reference.snapshot_creator_sample]
      = samples_of rs) /\
  List.length [Reference.snapshot_sample; Reference.snapshot_creator_sample]
  = List.length
      (filter (fun p => dict_mem p "networks")
         [Reference.snapshot; Reference.snapshot_no_networks;
          Reference.snapshot_creator]).
Proof.
  apply (collect_loop_keeps_samples
           [Reference.snapshot; Reference.snapshot_no_networks;
            Reference.snapshot_creator]
           [Reference.snapshot_sample; Reference.snapshot_creator_sample]).
  reflexivity.
Defined.

Lemma collect_failure_loses_samples_witness :
  DockerStat.collect Reference.two_containers
    ([Reference.snapshot] ++ Reference.snapshot_zero_limit
                          :: [Reference.snapshot_creator])
  = Raise ZeroDivisionError /\
  fst (DockerStat.stop_collecting Reference.two_containers
         ([Reference.snapshot] ++ Reference.snapshot_zero_limit
                               :: [Reference.snapshot_creator]))
  = Ok [].
Proof.
  apply (collect_failure_loses_samples Reference.two_containers
           [Reference.snapshot] [Reference.snapshot_creator]
           Reference.snapshot_zero_limit ZeroDivisionError
           [Reference.snapshot_sample]);
    reflexivity.
Defined.

(** ** The load generator collector, from the requests to the dataset *)

Section ClientPerfMore.
Context {float : Type} `{FloatOps float}.

Lemma load_loop_observations (self : ClientPerf.collector float)
      (reqs : list (ClientPerf.request float)) :
  forallb ClientPerf.answered reqs = true ->
  forall (request_id : Z) (data : list (ClientPerf.observation float)),
  exists obs,
    ClientPerf.load_loop self reqs request_id data = Ok (data ++ obs) /\
    List.length obs = List.length reqs /\
    forall (i : nat) (r : ClientPerf.request float),
      nth_error reqs i = Some r ->
      exists o,
        nth_error obs i = Some o /\
        ClientPerf.id o = request_id + Z.of_nat i /\
        ClientPerf.msg_length o = ClientPerf.message_length self /\
        ClientPerf.start o = truediv (ClientPerf.sent_ns r) 1000000000 /\
        ClientPerf.post r = Ok (ClientPerf.latency o).
Proof.
  induction reqs as [| r reqs IH]; intros Hans request_id data.
  - exists []. rewrite app_nil_r. split; [reflexivity |]. split; [reflexivity |].
    intros [| i] r Hr; discriminate Hr.
  - simpl in Hans. apply andb_true_iff in Hans. destruct Hans as [Hr Hans].
    cbn [ClientPerf.load_loop].
    destruct (ClientPerf.post r) as [elapsed | e] eqn:Hpost.
    2:{ unfold ClientPerf.post in Hpost. unfold ClientPerf.answered in Hr.
        destruct (ClientPerf.outcome r); discriminate Hpost || discriminate Hr. }
    cbn [bind].
    set (o := {| ClientPerf.id := request_id;
                 ClientPerf.msg_length := ClientPerf.message_length self;
                 ClientPerf.latency := elapsed;
                 ClientPerf.start := truediv (ClientPerf.sent_ns r) 1000000000 |}).
    destruct (IH Hans (request_id + 1) (data ++ [o])) as (obs & Hobs & Hlen & Hnth).
    exists (o :: obs). rewrite Hobs, <- app_assoc. split; [reflexivity |].
    split; [simpl; f_equal; exact Hlen |].
    intros [| i] r' Hr'.
    + inversion Hr'; subst r'. exists o.
      split; [reflexivity |]. split; [cbn; lia |].
      split; [reflexivity |]. split; [reflexivity | exact Hpost].
    + destruct (Hnth i r' Hr') as (o' & Ho' & Hid & Hrest).
      exists o'. split; [exact Ho' |]. split; [rewrite Hid; lia | exact Hrest].
Qed.

(** X11: when every request is answered or times out, the worker records
    one observation per request, in order: the observation of the request
    at position [i] has the id [i], the message length of the collector,
    the send time in seconds, and as latency the elapsed time of the answer
    or the int [TIMEOUT_SEC]. *)
Theorem load_continuous_observations (self : ClientPerf.collector float)
        (reqs : list (ClientPerf.request float)) :
  forallb ClientPerf.answered reqs = true ->
  exists data,
    ClientPerf.load_continuous self reqs = Ok data /\
    List.length data = List.length reqs /\
    forall (i : nat) (r : ClientPerf.request float),
      nth_error reqs i = Some r ->
      exists o,
        nth_error data i = Some o /\
        ClientPerf.id o = Z.of_nat i /\
        ClientPerf.msg_length o = ClientPerf.message_length self /\
        ClientPerf.start o = truediv (ClientPerf.sent_ns r) 1000000000 /\
        ClientPerf.latency o =
          match ClientPerf.outcome r with
          | ClientPerf.Responded elapsed => PyFloat elapsed
          | _ => PyInt TIMEOUT_SEC
          end.
Proof.
  intros Hans.
  destruct (load_loop_observations self reqs Hans 0 []) as (obs & Hobs & Hlen & Hnth).
  exists obs. split; [exact Hobs |]. split; [exact Hlen |].
  intros i r Hr. destruct (Hnth i r Hr) as (o & Ho & Hid & Hmsg & Hstart & Hpost).
  exists o. split; [exact Ho |]. split; [rewrite Hid; lia |].
  split; [exact Hmsg |]. split; [exact Hstart |].
  assert (Ha : ClientPerf.answered r = true).
  { rewrite forallb_forall in Hans. apply Hans.
    apply (nth_error_In _ _ Hr). }
  unfold ClientPerf.post in Hpost. unfold ClientPerf.answered in Ha.
  destruct (ClientPerf.outcome r); inversion Hpost; reflexivity.
Qed.

(** The loop reads the message length of the collector and nothing else. *)
Lemma load_loop_message_length (self self' : ClientPerf.collector float)
      (reqs : list (ClientPerf.request float)) :
  ClientPerf.message_length self = ClientPerf.message_length self' ->
  forall (request_id : Z) (data : list (ClientPerf.observation float)),
    ClientPerf.load_loop self reqs request_id data
    = ClientPerf.load_loop self' reqs request_id data.
Proof.
  intros Hm. induction reqs as [| r reqs IH]; intros request_id data.
  - reflexivity.
  - cbn [ClientPerf.load_loop]. rewrite Hm.
    destruct (ClientPerf.post r); cbn [bind]; [apply IH | reflexivity].
Qed.

(** What [stop_collecting] returns for a collector that runs. *)
Lemma client_stop_collecting_returns (self : ClientPerf.collector float)
      (reqs : list (ClientPerf.request float)) :
  ClientPerf.collector_thread self = Started ->
  ClientPerf.stop_event self = false ->
  fst (ClientPerf.stop_collecting self reqs) =
  Ok match ClientPerf.load_continuous self reqs with
     | Ok d => d
     | Raise _ => ClientPerf.data self
     end.
Proof.
  intros Ht Hs. unfold ClientPerf.stop_collecting, ClientPerf.join.
  rewrite Hs. cbn [ClientPerf.collector_thread ClientPerf.set_stop_event].
  rewrite Ht.
  unfold ClientPerf.load_continuous.
  rewrite (load_loop_message_length (ClientPerf.set_stop_event self) self reqs
             eq_refl 0 []).
  destruct (ClientPerf.load_loop self reqs 0 []); reflexivity.
Qed.

(** X12: an exception of [requests.post] other than the read timeout ends
    the worker with that exception: the observations recorded before are
    lost, and [stop_collecting] returns the dataset the collector had, the
    empty list of [__init__]. *)
Theorem load_continuous_failure (self : ClientPerf.collector float)
        (before after : list (ClientPerf.request float))
        (r : ClientPerf.request float) (e : exn) :
  ClientPerf.collector_thread self = Started ->
  ClientPerf.stop_event self = false ->
  forallb ClientPerf.answered before = true ->
  ClientPerf.outcome r = ClientPerf.Failed e ->
  ClientPerf.load_continuous self (before ++ r :: after) = Raise e /\
  fst (ClientPerf.stop_collecting self (before ++ r :: after))
  = Ok (ClientPerf.data self).
Proof.
  intros Ht Hs Hbefore Hr.
  assert (Hl : ClientPerf.load_continuous self (before ++ r :: after) = Raise e).
  { unfold ClientPerf.load_continuous. rewrite load_loop_app.
    destruct (load_loop_answered self before Hbefore 0 []) as (obs & Hobs & _).
    rewrite Hobs. cbn [bind ClientPerf.load_loop].
    unfold ClientPerf.post. rewrite Hr. reflexivity. }
  split; [exact Hl |].
  rewrite (client_stop_collecting_returns self _ Ht Hs), Hl. reflexivity.
Qed.

(** X10: a collector that is stopped before it was started raises
    [RuntimeError] from the join with the stop event already set; it can
    still be started, and every later stop raises [RuntimeError]: such a
    collector never returns a dataset. *)
Theorem stop_before_start :
  (forall (self : ClientPerf.collector float)
          (reqs reqs' : list (ClientPerf.request float)),
      ClientPerf.collector_thread self = NotStarted ->
      ClientPerf.stop_event self = false ->
      let stopped := snd (ClientPerf.stop_collecting self reqs) in
      let started := snd (ClientPerf.start_collecting stopped) in
      fst (ClientPerf.stop_collecting self reqs) = Raise RuntimeError /\
      fst (ClientPerf.start_collecting stopped) = Ok tt /\
      ClientPerf.stop_collecting started reqs' = (Raise RuntimeError, started) /\
      ClientPerf.data started = ClientPerf.data self) /\
  (forall (self : DockerStat.collector float) (points points' : list dict),
      DockerStat.collector_thread self = NotStarted ->
      DockerStat.stop_event self = false ->
      let stopped := snd (DockerStat.stop_collecting self points) in
      let started := snd (DockerStat.start_collecting stopped) in
      fst (DockerStat.stop_collecting self points) = Raise RuntimeError /\
      fst (DockerStat.start_collecting stopped) = Ok tt /\
      DockerStat.stop_collecting started points' = (Raise RuntimeError, started) /\
      DockerStat.data started = DockerStat.data self).
Proof.
  split.
  - intros self reqs reqs' Ht Hs.
    unfold ClientPerf.stop_collecting at 1 2 3, ClientPerf.join,
      ClientPerf.start_collecting.
    rewrite Hs. cbn. rewrite Ht. cbn. rewrite Ht. cbn.
    repeat split; reflexivity.
  - intros self points points' Ht Hs.
    unfold DockerStat.stop_collecting at 1 2 3, DockerStat.join,
      DockerStat.start_collecting.
    rewrite Hs. cbn. rewrite Ht. cbn. rewrite Ht. cbn.
    repeat split; reflexivity.
Qed.

End ClientPerfMore.

(** ** Timeouts of the load generator *)

Section ClientPerfTimeouts.
Context {float : Type} `{FloatOps float}.


End ClientPerfTimeouts.



Lemma load_continuous_observations_witness :
  exists data,
    ClientPerf.load_continuous Reference.load_collector Reference.three_requests
    = Ok data /\
    List.length data = List.length Reference.three_requests /\
    forall (i : nat) (r : ClientPerf.request Qc),
      nth_error Reference.three_requests i = Some r ->
      exists o,
        nth_error data i = Some o /\
        ClientPerf.id o = Z.of_nat i /\
        ClientPerf.msg_length o
        = ClientPerf.message_length Reference.load_collector /\
        ClientPerf.start o = truediv (ClientPerf.sent_ns r) 1000000000 /\
        ClientPerf.latency o =
          match ClientPerf.outcome r with
          | ClientPerf.Responded elapsed => PyFloat elapsed
          | _ => PyInt TIMEOUT_SEC
          end.
Proof.
  apply (load_continuous_observations Reference.load_collector
           Reference.three_requests).
  reflexivity.
Defined.

Lemma load_continuous_failure_witness :
  ClientPerf.load_continuous Reference.load_collector
    (Reference.three_requests ++ Scenario.refused :: Reference.three_requests)
  = Raise (OtherError "ConnectionError") /\
  fst (ClientPerf.stop_collecting Reference.load_collector
         (Reference.three_requests ++ Scenario.refused :: Reference.three_requests))
  = Ok [].
Proof.
  apply (load_continuous_failure Reference.load_collector
           Reference.three_requests Reference.three_requests
           Scenario.refused (OtherError "ConnectionError"));
    reflexivity.
Defined.

Lemma stop_before_start_witness :
  fst (ClientPerf.stop_collecting Scenario.idle_collector Reference.three_requests)
  = Raise RuntimeError /\
  fst (ClientPerf.stop_collecting
         (snd (ClientPerf.start_collecting
                 (snd (ClientPerf.stop_collecting Scenario.idle_collector
                         Reference.three_requests))))
         Reference.three_requests)
  = Raise RuntimeError.
Proof.
  destruct (proj1 (stop_before_start (float := Qc)) Scenario.idle_collector
              Reference.three_requests Reference.three_requests
              eq_refl eq_refl) as (Hstop & _ & Hagain & _).
  split; [exact Hstop |]. rewrite Hagain. reflexivity.
Defined.

(** ** Foreground commands *)

Section RunCmdMore.

Lemma prefix_app (a b : string) :
  String.prefix a b = true <-> exists post, b = (a ++ post)%string.
Proof.
  revert b. induction a as [| c a IH]; intros b.
  - split; [intros _; exists b; reflexivity | intros _; destruct b; reflexivity].
  - destruct b as [| c' b]; simpl.
    + split; [intros Hf; discriminate Hf | intros (post & Hp); discriminate Hp].
    + destruct (ascii_dec c c') as [-> | Hne].
      * rewrite IH. split.
        -- intros (post & ->). exists post. reflexivity.
        -- intros (post & Hp). inversion Hp. exists post. reflexivity.
      * split; [intros Hf; discriminate Hf |].
        intros (post & Hp). inversion Hp. congruence.
Qed.

(** [needle in hay] holds exactly when [hay] is [needle] between two
    strings. *)
Lemma contains_app (needle hay : string) :
  Analysis.contains needle hay = true <->
  exists pre post, hay = (pre ++ needle ++ post)%string.
Proof.
  induction hay as [| c hay IH].
  - cbn [Analysis.contains]. rewrite orb_false_r, prefix_app. split.
    + intros (post & Hp). exists EmptyString, post. exact Hp.
    + intros (pre & post & Hp). destruct pre; [exists post; exact Hp |].
      discriminate Hp.
  - cbn [Analysis.contains]. rewrite orb_true_iff, prefix_app, IH. split.
    + intros [(post & Hp) | (pre & post & Hp)].
      * exists EmptyString, post. exact Hp.
      * exists (String c pre), post. simpl. rewrite Hp. reflexivity.
    + intros (pre & post & Hp). destruct pre as [| c' pre].
      * left. exists post. exact Hp.
      * right. inversion Hp. exists pre, post. reflexivity.
Qed.

(** X14: [run_cmd] is still retrying after the attempts on offer exactly
    when every one of them timed out. *)
Theorem run_cmd_retrying_iff (expected : option string)
        (attempts : list Analysis.attempt) :
  Analysis.run_cmd expected attempts = None <->
  Forall (fun a => a = Analysis.TimeoutExpired) attempts.
Proof.
  induction attempts as [| a attempts IH].
  - split; [intros _; constructor | reflexivity].
  - destruct a as [| returncode out]; cbn [Analysis.run_cmd].
    + rewrite IH. split.
      * intros Hall. constructor; [reflexivity | exact Hall].
      * intros Hall. inversion Hall; assumption.
    + split.
      * intros Hn. destruct (negb (returncode =? 0)); [discriminate Hn |].
        destruct (Analysis.truthy expected
                  && negb (Analysis.contains (Analysis.marker expected) out));
          discriminate Hn.
      * intros Hall. inversion Hall as [| ? ? Ha _]. discriminate Ha.
Qed.

(** X15: [run_cmd] returns exactly when, after some number of timeouts, an
    attempt exits with the return code 0 and, if a marker that is not empty
    is expected, its output holds the marker. *)
Theorem run_cmd_returns_iff (expected : option string)
        (attempts : list Analysis.attempt) :
  Analysis.run_cmd expected attempts = Some (Ok tt) <->
  exists (n : nat) (out : string) (rest : list Analysis.attempt),
    attempts = repeat Analysis.TimeoutExpired n ++ Analysis.Exited 0 out :: rest /\
    (Analysis.truthy expected = true ->
     exists pre post, out = (pre ++ Analysis.marker expected ++ post)%string).
Proof.
  induction attempts as [| a attempts IH].
  - split; [intros Hr; discriminate Hr |].
    intros (n & out & rest & Ha & _). destruct n; discriminate Ha.
  - destruct a as [| returncode out]; cbn [Analysis.run_cmd].
    + rewrite IH. split.
      * intros (n & out & rest & -> & Hm). exists (S n), out, rest.
        split; [reflexivity | exact Hm].
      * intros (n & out & rest & Ha & Hm). destruct n as [| n]; [discriminate Ha |].
        inversion Ha. exists n, out, rest. split; [reflexivity | exact Hm].
    + split.
      * intros Hr. destruct (returncode =? 0) eqn:Hc; [| discriminate Hr].
        apply Z.eqb_eq in Hc. subst returncode. cbn [negb] in Hr.
        exists 0%nat, out, attempts. split; [reflexivity |].
        intros Ht. rewrite Ht in Hr. cbn [andb] in Hr.
        destruct (Analysis.contains (Analysis.marker expected) out) eqn:Hc;
          [| discriminate Hr].
        apply contains_app. exact Hc.
      * intros (n & out' & rest & Ha & Hm).
        destruct n as [| n]; [| discriminate Ha].
        inversion Ha; subst. cbn [Z.eqb negb].
        destruct (Analysis.truthy expected) eqn:Ht; [| reflexivity].
        cbn [andb]. apply contains_app in Hm; [| reflexivity].
        rewrite Hm. reflexivity.
Qed.

(** X16: the return code is looked at before the output: an attempt that
    exits with a return code other than 0 raises [CalledProcessError] even
    when its output holds the marker. *)
Theorem run_cmd_nonzero_exit (expected : option string) (n : nat)
        (returncode : Z) (out : string) (rest : list Analysis.attempt) :
  returncode <> 0 ->
  Analysis.run_cmd expected
    (repeat Analysis.TimeoutExpired n ++ Analysis.Exited returncode out :: rest)
  = Some (Raise CalledProcessError).
Proof.
  intros Hc. rewrite run_cmd_after_timeouts. cbn [Analysis.run_cmd].
  apply Z.eqb_neq in Hc. rewrite Hc. reflexivity.
Qed.

(** The shaping loop ends well exactly when every exit code is 0. *)
Lemma shape_Ok_iff (exit_codes : list Z) :
  Analysis.shape exit_codes = Ok tt <-> Forall (fun c => c = 0) exit_codes.
Proof.
  induction exit_codes as [| c codes IH]; cbn [Analysis.shape].
  - split; [intros _; constructor | reflexivity].
  - destruct (c =? 0) eqn:Hc.
    + apply Z.eqb_eq in Hc. rewrite IH. split.
      * intros Hall. constructor; assumption.
      * intros Hall. inversion Hall; assumption.
    + apply Z.eqb_neq in Hc. split; [intros Hr; discriminate Hr |].
      intros Hall. inversion Hall. contradiction.
Qed.

Lemma shape_Raise (exit_codes : list Z) (e : exn) :
  Analysis.shape exit_codes = Raise e -> e = RuntimeError.
Proof.
  induction exit_codes as [| c codes IH]; cbn [Analysis.shape].
  - intros Hr. discriminate Hr.
  - destruct (c =? 0); [exact IH |]. intros Hr. inversion Hr. reflexivity.
Qed.

End RunCmdMore.

Lemma run_cmd_returns_iff_witness :
  Analysis.run_cmd (Some Analysis.BUILD_SUCCESS)
    (Analysis.test_attempts Reference.steady_run) = Some (Ok tt) <->
  exists (n : nat) (out : string) (rest : list Analysis.attempt),
    Analysis.test_attempts Reference.steady_run
    = repeat Analysis.TimeoutExpired n ++ Analysis.Exited 0 out :: rest /\
    (Analysis.truthy (Some Analysis.BUILD_SUCCESS) = true ->
     exists pre post,
       out = (pre ++ Analysis.marker (Some Analysis.BUILD_SUCCESS) ++ post)%string).
Proof.
  apply (run_cmd_returns_iff (Some Analysis.BUILD_SUCCESS)
           (Analysis.test_attempts Reference.steady_run)).
Defined.

Lemma run_cmd_nonzero_exit_witness :
  Analysis.run_cmd (Some Analysis.BUILD_SUCCESS)
    (repeat Analysis.TimeoutExpired 3
     ++ Analysis.Exited 1 "[INFO] BUILD SUCCESS" :: [])
  = Some (Raise CalledProcessError).
Proof.
  apply (run_cmd_nonzero_exit (Some Analysis.BUILD_SUCCESS) 3 1
           "[INFO] BUILD SUCCESS" []).
  discriminate.
Defined.

(** ** A whole run *)

Section RunAnalysisMore.
Context {float : Type} `{FloatOps float}.

(** [run_analysis] once the system is up. *)
Lemma run_analysis_system_up (env : Analysis.environment float)
      (spinup_time msg_length : Z) :
  system_up env ->
  Analysis.run_analysis env spinup_time msg_length =
  match Analysis.shape (Analysis.tc_exit_codes env) with
  | Raise e => Some (Raise e)
  | Ok _ =>
      match fst (ClientPerf.stop_collecting (load_collector_of msg_length)
                   (Analysis.requests_seen env)),
            fst (DockerStat.stop_collecting (stat_collector_of env)
                   (Analysis.points_seen env)) with
      | Ok client_perf_data, Ok docker_stats_data =>
          Some (Analysis.trim_spinup spinup_time client_perf_data docker_stats_data)
      | Raise e, _ => Some (Raise e)
      | Ok _, Raise e => Some (Raise e)
      end
  end.
Proof.
  intros (Hdown & Hcheckout & Htest & Hpackage & Hlaunch).
  unfold Analysis.run_analysis. rewrite Hdown, Hcheckout, Htest, Hpackage, Hlaunch.
  cbn [Analysis.step].
  destruct (Analysis.shape (Analysis.tc_exit_codes env)); [| reflexivity].
  cbn [Analysis.step]. unfold load_collector_of, stat_collector_of.
  destruct (fst (ClientPerf.stop_collecting _ _)); [| reflexivity].
  cbn [Analysis.step].
  destruct (fst (DockerStat.stop_collecting _ _)); reflexivity.
Qed.

Lemma run_analysis_Ok_system_up (env : Analysis.environment float)
      (spinup_time msg_length : Z) (res : Analysis.ExperimentResult float) :
  Analysis.run_analysis env spinup_time msg_length = Some (Ok res) ->
  system_up env.
Proof.
  unfold Analysis.run_analysis, system_up. intros Hrun.
  destruct (Analysis.run_cmd None (Analysis.down_attempts env))
    as [[[] | e] |]; try discriminate Hrun. cbn [Analysis.step] in Hrun.
  destruct (Analysis.checkout env) as [[] | e]; try discriminate Hrun.
  cbn [Analysis.step] in Hrun.
  destruct (Analysis.run_cmd (Some Analysis.BUILD_SUCCESS) (Analysis.test_attempts env))
    as [[[] | e] |]; try discriminate Hrun. cbn [Analysis.step] in Hrun.
  destruct (Analysis.run_cmd (Some Analysis.BUILD_SUCCESS)
              (Analysis.package_attempts env))
    as [[[] | e] |]; try discriminate Hrun. cbn [Analysis.step] in Hrun.
  destruct (Analysis.launch env) as [[] | e]; try discriminate Hrun.
  repeat split.
Qed.

(** X17: once the system is up, one [tc] command that exits with a code
    other than 0 ends the run with [RuntimeError]: no dataset is
    returned. *)
Theorem run_analysis_shaping_failure (env : Analysis.environment float)
        (spinup_time msg_length : Z) :
  system_up env ->
  Exists (fun c => c <> 0) (Analysis.tc_exit_codes env) ->
  Analysis.run_analysis env spinup_time msg_length = Some (Raise RuntimeError).
Proof.
  intros Hup Hcode. rewrite (run_analysis_system_up env _ _ Hup).
  destruct (Analysis.shape (Analysis.tc_exit_codes env)) as [[] | e] eqn:Hshape.
  - apply shape_Ok_iff in Hshape. apply Exists_exists in Hcode.
    destruct Hcode as (c & Hin & Hc). rewrite Forall_forall in Hshape.
    contradiction (Hc (Hshape c Hin)).
  - rewrite (shape_Raise _ e Hshape). reflexivity.
Qed.

(** X18: a run returns a result only when every step before ended well:
    the system came up, every [tc] command exited with 0, and both
    collectors returned datasets that are not empty; the result is then the
    trim of these two datasets. *)
Theorem run_analysis_Ok_inv (env : Analysis.environment float)
        (spinup_time msg_length : Z) (res : Analysis.ExperimentResult float) :
  Analysis.run_analysis env spinup_time msg_length = Some (Ok res) ->
  system_up env /\
  Forall (fun c => c = 0) (Analysis.tc_exit_codes env) /\
  exists client_perf_data docker_stats_data,
    fst (ClientPerf.stop_collecting (load_collector_of msg_length)
           (Analysis.requests_seen env)) = Ok client_perf_data /\
    fst (DockerStat.stop_collecting (stat_collector_of env)
           (Analysis.points_seen env)) = Ok docker_stats_data /\
    client_perf_data <> [] /\
    docker_stats_data <> [] /\
    Analysis.trim_spinup spinup_time client_perf_data docker_stats_data = Ok res.
Proof.
  intros Hrun. pose proof (run_analysis_Ok_system_up env _ _ res Hrun) as Hup.
  split; [exact Hup |].
  rewrite (run_analysis_system_up env _ _ Hup) in Hrun.
  destruct (Analysis.shape (Analysis.tc_exit_codes env)) as [[] | e] eqn:Hshape;
    [| discriminate Hrun].
  split; [apply shape_Ok_iff; exact Hshape |].
  destruct (fst (ClientPerf.stop_collecting _ _)) as [client |];
    [| discriminate Hrun].
  destruct (fst (DockerStat.stop_collecting _ _)) as [stats |];
    [| discriminate Hrun].
  assert (Htrim : Analysis.trim_spinup spinup_time client stats = Ok res)
    by (injection Hrun as Hrun; exact Hrun).
  clear Hrun. exists client, stats.
  split; [reflexivity |]. split; [reflexivity |].
  split; [| split; [| exact Htrim]].
  - intros ->. rewrite trim_spinup_empty in Htrim; [discriminate Htrim |].
    left. reflexivity.
  - intros ->. rewrite trim_spinup_empty in Htrim; [discriminate Htrim |].
    right. reflexivity.
Qed.

(** X19: when the samples the worker made fill whole rounds of the
    containers listed, the metrics collector returns the empty list, [min]
    is taken of an empty sequence, and the run ends with [ValueError]
    instead of a result. *)
Theorem run_analysis_whole_rounds (env : Analysis.environment float)
        (spinup_time msg_length : Z) (data : list (sample float)) :
  system_up env ->
  Forall (fun c => c = 0) (Analysis.tc_exit_codes env) ->
  Analysis.containers_listed env <> [] ->
  DockerStat.collect_loop (Analysis.points_seen env) [] = Ok data ->
  Z.of_nat (List.length data)
    mod Z.of_nat (List.length (Analysis.containers_listed env)) = 0 ->
  Analysis.run_analysis env spinup_time msg_length = Some (Raise ValueError).
Proof.
  intros Hup Hcodes Hconts Hloop Hr.
  rewrite (run_analysis_system_up env _ _ Hup).
  apply shape_Ok_iff in Hcodes. rewrite Hcodes.
  rewrite (client_stop_collecting_returns (load_collector_of msg_length)
             (Analysis.requests_seen env) eq_refl eq_refl).
  rewrite (docker_stop_collecting_returns (stat_collector_of env)
             (Analysis.points_seen env) eq_refl eq_refl).
  unfold DockerStat.collect. rewrite Hloop. cbn [bind].
  assert (Hn : 0 < DockerStat.num_containers (stat_collector_of env)).
  { cbn. destruct (Analysis.containers_listed env); [contradiction Hconts; reflexivity |].
    cbn [List.length]. lia. }
  rewrite (same_amount_cases (stat_collector_of env) data Hn).
  change (DockerStat.num_containers (stat_collector_of env))
    with (Z.of_nat (List.length (Analysis.containers_listed env))).
  rewrite Hr. cbn [Z.eqb]. f_equal. apply trim_spinup_empty. right. reflexivity.
Qed.

End RunAnalysisMore.

Lemma system_up_steady_run : system_up Reference.steady_run.
Proof. repeat split. Qed.

Lemma run_analysis_shaping_failure_witness :
  Analysis.run_analysis Scenario.unshaped_run 15 500 = Some (Raise RuntimeError).
Proof.
  apply (run_analysis_shaping_failure Scenario.unshaped_run 15 500).
  - repeat split.
  - apply Exists_cons_tl, Exists_cons_hd. discriminate.
Defined.

Lemma run_analysis_steady_result :
  Analysis.run_analysis Reference.steady_run 15 500
  = Some (Ok Scenario.steady_result).
Proof. vm_compute. reflexivity. Qed.

Lemma run_analysis_Ok_inv_witness :
  system_up Reference.steady_run /\
  Forall (fun c => c = 0) (Analysis.tc_exit_codes Reference.steady_run) /\
  exists client_perf_data docker_stats_data,
    fst (ClientPerf.stop_collecting (load_collector_of 500)
           (Analysis.requests_seen Reference.steady_run)) = Ok client_perf_data /\
    fst (DockerStat.stop_collecting (stat_collector_of Reference.steady_run)
           (Analysis.points_seen Reference.steady_run)) = Ok docker_stats_data /\
    client_perf_data <> [] /\
    docker_stats_data <> [] /\
    Analysis.trim_spinup 15 client_perf_data docker_stats_data
    = Ok Scenario.steady_result.
Proof.
  apply (run_analysis_Ok_inv Reference.steady_run 15 500 Scenario.steady_result
           run_analysis_steady_result).
Defined.

Lemma run_analysis_whole_rounds_witness :
  Analysis.run_analysis Scenario.whole_rounds_run 15 500
  = Some (Raise ValueError).
Proof.
  apply (run_analysis_whole_rounds Scenario.whole_rounds_run 15 500
           [Reference.snapshot_sample; Reference.snapshot_creator_sample;
            Reference.snapshot_sample; Reference.snapshot_creator_sample]).
  - repeat split.
  - repeat constructor.
  - discriminate.
  - reflexivity.
  - reflexivity.
Defined.

(** ** Background commands *)

Section BackgroundFacts.

Lemma wait_for_waiting (expected : option string)
      (before rest : list Background.turn) :
  Forall (Background.waiting expected) before ->
  Background.wait_for (Analysis.marker expected) (before ++ rest)
  = Background.wait_for (Analysis.marker expected) rest.
Proof.
  induction 1 as [| t before (Hlate & Hline & Hutf8) _ IH]; [reflexivity |].
  cbn [app Background.wait_for]. unfold Background.decode.
  rewrite Hlate, Hline, Hutf8. exact IH.
Qed.

Lemma wait_for_inv (expected : option string) (turns : list Background.turn)
      (r : result unit) :
  Background.wait_for (Analysis.marker expected) turns = Some r ->
  exists before t rest,
    turns = before ++ t :: rest /\
    Forall (Background.waiting expected) before /\
    ((Background.late t = true /\ r = Raise RuntimeError) \/
     (Background.late t = false /\
      Analysis.contains (Analysis.marker expected) (Background.line t) = true /\
      r = Ok tt) \/
     (Background.late t = false /\
      Analysis.contains (Analysis.marker expected) (Background.line t) = false /\
      Background.utf8 [] (Background.line t) = false /\
      r = Raise Background.UnicodeDecodeError)).
Proof.
  induction turns as [| t turns IH]; cbn [Background.wait_for]; intros Hr.
  - discriminate Hr.
  - destruct (Background.late t) eqn:Hlate.
    + exists [], t, turns. split; [reflexivity |]. split; [constructor |].
      left. split; [exact Hlate |]. inversion Hr. reflexivity.
    + destruct (Analysis.contains (Analysis.marker expected) (Background.line t))
        eqn:Hline.
      * exists [], t, turns. split; [reflexivity |]. split; [constructor |].
        right. left. split; [exact Hlate |]. split; [exact Hline |].
        inversion Hr. reflexivity.
      * unfold Background.decode in Hr.
        destruct (Background.utf8 [] (Background.line t)) eqn:Hutf8.
        -- destruct (IH Hr) as (before & t' & rest & -> & Hbefore & Hcase).
           exists (t :: before), t', rest. split; [reflexivity |].
           split; [| exact Hcase].
           constructor; [repeat split; assumption | exact Hbefore].
        -- exists [], t, turns. split; [reflexivity |]. split; [constructor |].
           right. right. split; [exact Hlate |]. split; [exact Hline |].
           split; [exact Hutf8 |]. inversion Hr. reflexivity.
Qed.

(** X20: with an expected output that is not empty, [run_cmd_background]
    returns exactly when the process was started, some line holds the
    expected output, and no test of the deadline up to that line has found
    the time over; the lines before are searched one by one, hold no
    marker each, and are decoded each. *)
Theorem run_cmd_background_returns_iff (popen : result unit)
        (expected : option string) (turns : list Background.turn) :
  Analysis.truthy expected = true ->
  Background.run_cmd_background popen expected turns = Some (Ok tt) <->
  popen = Ok tt /\
  exists before t rest,
    turns = before ++ t :: rest /\
    Forall (Background.waiting expected) before /\
    Background.late t = false /\
    exists pre post,
      Background.line t = (pre ++ Analysis.marker expected ++ post)%string.
Proof.
  intros Ht. unfold Background.run_cmd_background.
  destruct popen as [[] | e'].
  - rewrite Ht. split.
    + intros Hr. split; [reflexivity |].
      destruct (wait_for_inv expected turns (Ok tt) Hr)
        as (before & t & rest & Hturns & Hbefore &
            [[_ Hraise] | [(Hlate & Hline & _) | (_ & _ & _ & Hraise)]]).
      * discriminate Hraise.
      * exists before, t, rest. split; [exact Hturns |]. split; [exact Hbefore |].
        split; [exact Hlate |]. apply contains_app. exact Hline.
      * discriminate Hraise.
    + intros (_ & before & t & rest & -> & Hbefore & Hlate & Hline).
      rewrite (wait_for_waiting expected before (t :: rest) Hbefore).
      cbn [Background.wait_for]. rewrite Hlate.
      apply contains_app in Hline. rewrite Hline. reflexivity.
  - split; [intros Hr; discriminate Hr | intros (Hp & _); discriminate Hp].
Qed.

(** X21: [run_cmd_background] raises exactly when [Popen] raises, with the
    exception of [Popen], or when, with an expected output that is not
    empty and before any line held it, a test of the deadline finds the
    time over, with [RuntimeError], or a line is not UTF-8, with
    [UnicodeDecodeError]; whatever the process prints later.  Without an
    expected output it raises with [Popen] only. *)
Theorem run_cmd_background_raises_iff (popen : result unit)
        (expected : option string) (turns : list Background.turn) (e : exn) :
  Background.run_cmd_background popen expected turns = Some (Raise e) <->
  popen = Raise e \/
  (popen = Ok tt /\
   Analysis.truthy expected = true /\
   exists before t rest,
     turns = before ++ t :: rest /\
     Forall (Background.waiting expected) before /\
     ((Background.late t = true /\ e = RuntimeError) \/
      (Background.late t = false /\
       Analysis.contains (Analysis.marker expected) (Background.line t) = false /\
       Background.utf8 [] (Background.line t) = false /\
       e = Background.UnicodeDecodeError))).
Proof.
  unfold Background.run_cmd_background.
  destruct popen as [[] | e'].
  - destruct (Analysis.truthy expected) eqn:Ht.
    + split.
      * intros Hr. right. split; [reflexivity |]. split; [reflexivity |].
        destruct (wait_for_inv expected turns (Raise e) Hr)
          as (before & t & rest & Hturns & Hbefore &
              [[Hlate Hraise] | [(_ & _ & Hok) | (Hlate & Hline & Hutf8 & Hraise)]]).
        -- inversion Hraise. exists before, t, rest.
           split; [exact Hturns |]. split; [exact Hbefore |].
           left. split; [exact Hlate | reflexivity].
        -- discriminate Hok.
        -- inversion Hraise. exists before, t, rest.
           split; [exact Hturns |]. split; [exact Hbefore |].
           right. repeat split; assumption.
      * intros [Hp | (_ & _ & before & t & rest & -> & Hbefore & Hcase)];
          [discriminate Hp |].
        rewrite (wait_for_waiting expected before (t :: rest) Hbefore).
        cbn [Background.wait_for].
        destruct Hcase as [[Hlate ->] | (Hlate & Hline & Hutf8 & ->)].
        -- rewrite Hlate. reflexivity.
        -- unfold Background.decode. rewrite Hlate, Hline, Hutf8. reflexivity.
    + split.
      * intros Hr. discriminate Hr.
      * intros [Hp | (_ & Hf & _)]; [discriminate Hp | discriminate Hf].
  - split.
    + intros Hr. left. inversion Hr. reflexivity.
    + intros [Hp | (Hp & _)]; [inversion Hp; reflexivity | discriminate Hp].
Qed.

(** Bytes below 128 decode. *)
Lemma utf8_ascii (s : string) :
  (forall c, In c (list_ascii_of_string s) -> (N_of_ascii c <= 127)%N) ->
  Background.utf8 [] s = true.
Proof.
  induction s as [| c s IH]; intros Hs; [reflexivity |].
  cbn [Background.utf8]. unfold Background.lead.
  assert (Hc : (N_of_ascii c <=? 127)%N = true).
  { apply N.leb_le. apply Hs. left. reflexivity. }
  rewrite Hc. apply IH. intros c' Hc'. apply Hs. right. exact Hc'.
Qed.

End BackgroundFacts.

Lemma run_cmd_background_returns_iff_witness :
  Background.run_cmd_background (Ok tt) (Some "ready to interact"%string)
    [ Background.building; Background.accented; Background.ready;
      Background.overdue ] = Some (Ok tt) <->
  Ok tt = Ok tt /\
  exists before t rest,
    [ Background.building; Background.accented; Background.ready;
      Background.overdue ] = before ++ t :: rest /\
    Forall (Background.waiting (Some "ready to interact"%string)) before /\
    Background.late t = false /\
    exists pre post,
      Background.line t
      = (pre ++ Analysis.marker (Some "ready to interact") ++ post)%string.
Proof.
  apply (run_cmd_background_returns_iff (Ok tt) (Some "ready to interact"%string)).
  reflexivity.
Defined.

(** A line that is no UTF-8 ends the wait before the line that holds the
    expected output is read. *)
Lemma run_cmd_background_raises_iff_witness :
  Background.run_cmd_background (Ok tt) (Some "ready to interact"%string)
    [ Background.building; Background.garbled; Background.ready ]
  = Some (Raise Background.UnicodeDecodeError).
Proof.
  apply (run_cmd_background_raises_iff (Ok tt) (Some "ready to interact"%string)).
  right. split; [reflexivity |]. split; [reflexivity |].
  exists [Background.building], Background.garbled, [Background.ready].
  split; [reflexivity |]. split.
  - constructor; [| constructor]. split; [reflexivity |]. split; reflexivity.
  - right. split; [reflexivity |]. split; [reflexivity |]. split; reflexivity.
Defined.

(** The reference process on its own: it is waited for through a line with
    an accent, the wait ends on the line that is no UTF-8, on the deadline,
    and with the exception of [Popen]. *)
Lemma run_cmd_background_reference :
  Background.run_cmd_background (Ok tt) (Some "ready to interact"%string)
    [ Background.building; Background.accented; Background.ready ]
  = Some (Ok tt) /\
  Background.run_cmd_background (Ok tt) (Some "ready to interact"%string)
    [ Background.building; Background.garbled; Background.ready ]
  = Some (Raise Background.UnicodeDecodeError) /\
  Background.run_cmd_background (Ok tt) (Some "ready to interact"%string)
    [ Background.building; Background.overdue; Background.ready ]
  = Some (Raise RuntimeError) /\
  Background.run_cmd_background (Raise (OtherError "OSError"))
    (Some "ready to interact"%string) [ Background.ready ]
  = Some (Raise (OtherError "OSError")) /\
  Background.run_cmd_background (Ok tt) None [ Background.garbled ] = Some (Ok tt).
Proof. repeat split. Qed.

(** ** Chart data *)

Section ChartFacts.
Context {float : Type} `{FloatOps float} `{ChartOps float}.

Lemma rates_length (entries : list (sample float)) :
  forall (prev_tot_net : Z) (prev_time : float) (rs : list (pynum float)),
    Charts.rates prev_tot_net prev_time entries = Ok rs ->
    List.length rs = List.length entries.
Proof.
  induction entries as [| entry rest IH]; intros prev_tot_net prev_time rs Hr;
    cbn [Charts.rates] in Hr.
  - inversion Hr. reflexivity.
  - do 2 bind_inv Hr. inversion Hr. simpl. f_equal. exact (IH _ _ _ Hx0).
Qed.

Lemma rates_Ok_iff (entries : list (sample float)) :
  forall (prev_tot_net : Z) (prev_time : float),
    (exists rs, Charts.rates prev_tot_net prev_time entries = Ok rs) <->
    spaced prev_time entries.
Proof.
  induction entries as [| entry rest IH]; intros prev_tot_net prev_time;
    cbn [Charts.rates spaced].
  - split; [intros _; exact I | intros _; exists []; reflexivity].
  - unfold Charts.py_div.
    destruct (float_is_zero (float_sub (time entry) prev_time)); cbn [bind].
    + split; [intros (rs & Hr); discriminate Hr | intros (Hz & _); discriminate Hz].
    + rewrite <- (IH (total_net_traffic entry) (time entry)). split.
      * intros (rs & Hr). bind_inv Hr. split; [reflexivity | exists x; exact Hx].
      * intros (_ & rs & Hr). rewrite Hr. eexists. reflexivity.
Qed.

Lemma rates_Raise (entries : list (sample float)) :
  forall (prev_tot_net : Z) (prev_time : float) (e : exn),
    Charts.rates prev_tot_net prev_time entries = Raise e ->
    e = ZeroDivisionError.
Proof.
  induction entries as [| entry rest IH]; intros prev_tot_net prev_time e Hr;
    cbn [Charts.rates] in Hr.
  - discriminate Hr.
  - unfold Charts.py_div in Hr.
    destruct (float_is_zero (float_sub (time entry) prev_time)); cbn [bind] in Hr.
    + inversion Hr. reflexivity.
    + destruct (Charts.rates (total_net_traffic entry) (time entry) rest) eqn:Hrest;
        cbn [bind] in Hr; [discriminate Hr |].
      inversion Hr; subst. exact (IH _ _ _ Hrest).
Qed.

Lemma average_data_length (traffic_rate : list (pynum float)) :
  List.length (Charts.average_data_of traffic_rate)
  = Nat.max 2 (List.length traffic_rate).
Proof.
  unfold Charts.average_data_of.
  rewrite length_app, length_map, length_seq. cbn [List.length]. lia.
Qed.

(** X22: the four series [parse_branch] makes for a container with [n]
    samples: there is at least one sample, the timestamps, the CPU values
    and the memory values are [n] each, and the traffic averages are [n]
    for [n >= 2] and two for a single sample. *)
Theorem container_series_lengths (docker_stats_data : list (sample float))
        (cont : string) (s : Charts.series float) :
  Charts.container_series docker_stats_data cont = Ok s ->
  let n := List.length (Charts.cont_data_of docker_stats_data cont) in
  (1 <= n)%nat /\
  List.length (Charts.cont_times s) = n /\
  List.length (Charts.cont_cpu s) = n /\
  List.length (Charts.cont_ram s) = n /\
  List.length (Charts.cont_net s) = Nat.max 2 n.
Proof.
  intros Hs n. unfold Charts.container_series in Hs. bind_inv Hs.
  inversion Hs; subst s; clear Hs. cbn [Charts.cont_times Charts.cont_cpu
                                        Charts.cont_ram Charts.cont_net].
  rewrite !length_map, average_data_length. fold n.
  unfold Charts.traffic_rate_of in Hx.
  destruct (Charts.cont_data_of docker_stats_data cont) as [| first rest] eqn:Hcd;
    [discriminate Hx |].
  bind_inv Hx. inversion Hx; subst x. apply rates_length in Hx0.
  cbn [List.length] in *. subst n. rewrite Hx0.
  repeat split; lia.
Qed.

Lemma container_series_Ok_iff (docker_stats_data : list (sample float))
      (cont : string) :
  (exists s, Charts.container_series docker_stats_data cont = Ok s) <->
  chartable (Charts.cont_data_of docker_stats_data cont).
Proof.
  unfold Charts.container_series, Charts.traffic_rate_of, chartable.
  destruct (Charts.cont_data_of docker_stats_data cont) as [| first rest].
  - split; [intros (s & Hs); discriminate Hs | intros []].
  - rewrite <- (rates_Ok_iff rest (total_net_traffic first) (time first)). split.
    + intros (s & Hs). bind_inv Hs. bind_inv Hx. exists x0. exact Hx0.
    + intros (rs & Hr). rewrite Hr. eexists. reflexivity.
Qed.

Lemma container_series_Raise (docker_stats_data : list (sample float))
      (cont : string) (e : exn) :
  Charts.container_series docker_stats_data cont = Raise e ->
  (e = IndexError /\ Charts.cont_data_of docker_stats_data cont = []) \/
  (e = ZeroDivisionError /\
   Charts.cont_data_of docker_stats_data cont <> [] /\
   ~ chartable (Charts.cont_data_of docker_stats_data cont)).
Proof.
  intros He.
  assert (Hnot : ~ chartable (Charts.cont_data_of docker_stats_data cont)).
  { intros Hc. apply container_series_Ok_iff in Hc. destruct Hc as (s & Hs).
    rewrite Hs in He. discriminate He. }
  unfold Charts.container_series, Charts.traffic_rate_of in He.
  destruct (Charts.cont_data_of docker_stats_data cont) as [| first rest].
  - left. inversion He. split; reflexivity.
  - right.
    destruct (Charts.rates (total_net_traffic first) (time first) rest) eqn:Hr;
      cbn [bind] in He; [discriminate He |].
    inversion He; subst. split; [exact (rates_Raise _ _ _ _ Hr) |].
    split; [discriminate | exact Hnot].
Qed.

Lemma for_containers_Forall2 (docker_stats_data : list (sample float))
      (conts : list string) :
  forall per_container,
    Charts.for_containers docker_stats_data conts = Ok per_container <->
    Forall2 (fun cont s => Charts.container_series docker_stats_data cont = Ok s)
            conts per_container.
Proof.
  induction conts as [| cont conts IH]; intros per_container;
    cbn [Charts.for_containers].
  - split.
    + intros Hp. inversion Hp. constructor.
    + intros Hp. inversion Hp. reflexivity.
  - split.
    + intros Hp. do 2 bind_inv Hp. inversion Hp. constructor; [exact Hx |].
      apply IH. exact Hx0.
    + intros Hp. inversion Hp as [| ? s ? rest Hs Hrest]; subst.
      rewrite Hs. cbn [bind]. apply IH in Hrest. rewrite Hrest. reflexivity.
Qed.

Lemma for_containers_Raise (docker_stats_data : list (sample float))
      (conts : list string) (e : exn) :
  Charts.for_containers docker_stats_data conts = Raise e ->
  exists cont,
    In cont conts /\ Charts.container_series docker_stats_data cont = Raise e.
Proof.
  induction conts as [| cont conts IH]; cbn [Charts.for_containers]; intros He.
  - discriminate He.
  - destruct (Charts.container_series docker_stats_data cont) as [s | e'] eqn:Hs;
      cbn [bind] in He.
    + destruct (Charts.for_containers docker_stats_data conts) as [more | e'] eqn:Hm;
        cbn [bind] in He; [discriminate He |].
      inversion He; subst. destruct (IH eq_refl) as (c & Hin & Hc).
      exists c. split; [right; exact Hin | exact Hc].
    + inversion He; subst. exists cont. split; [left; reflexivity | exact Hs].
Qed.

End ChartFacts.

Section ParseBranchFacts.
Context {float : Type} `{FloatOps float} `{ChartOps float}.

Lemma container_series_inv (docker_stats_data : list (sample float))
      (cont : string) (s : Charts.series float) :
  Charts.container_series docker_stats_data cont = Ok s ->
  Charts.cont_data_of docker_stats_data cont <> [] /\
  Charts.cont_times s = map time (Charts.cont_data_of docker_stats_data cont) /\
  Charts.cont_cpu s = map cpu_usage (Charts.cont_data_of docker_stats_data cont) /\
  Charts.cont_ram s = map memory_usage (Charts.cont_data_of docker_stats_data cont) /\
  List.length (Charts.cont_net s)
  = Nat.max 2 (List.length (Charts.cont_data_of docker_stats_data cont)).
Proof.
  intros Hs. unfold Charts.container_series in Hs. bind_inv Hs.
  inversion Hs; subst s; clear Hs.
  cbn [Charts.cont_times Charts.cont_cpu Charts.cont_ram Charts.cont_net].
  rewrite average_data_length. unfold Charts.traffic_rate_of in Hx.
  destruct (Charts.cont_data_of docker_stats_data cont) as [| first rest];
    [discriminate Hx |].
  bind_inv Hx. inversion Hx; subst x. apply rates_length in Hx0.
  cbn [List.length]. rewrite Hx0.
  split; [discriminate |]. repeat split; reflexivity.
Qed.

Lemma py_min_nonempty (l : list float) :
  l <> [] -> exists m, Analysis.py_min l = Ok m.
Proof.
  destruct l as [| x l]; intros Hl; [contradiction Hl; reflexivity |].
  eexists. reflexivity.
Qed.

Lemma timestamps_nonempty (docker_stats_data : list (sample float))
      (per_container : list (Charts.series float)) :
  Forall2 (fun cont s => Charts.container_series docker_stats_data cont = Ok s)
          Charts.containers per_container ->
  List.concat (map Charts.cont_times per_container) <> [].
Proof.
  intros Hp. unfold Charts.containers in Hp.
  inversion Hp as [| cont s conts rest Hs _]; subst.
  destruct (container_series_inv _ _ _ Hs) as (Hne & Htimes & _).
  cbn [map List.concat]. rewrite Htimes.
  destruct (Charts.cont_data_of docker_stats_data "jwt-client"); [contradiction Hne; reflexivity |].
  discriminate.
Qed.

Lemma for_containers_Ok (docker_stats_data : list (sample float))
      (conts : list string) :
  Forall (fun cont => chartable (Charts.cont_data_of docker_stats_data cont)) conts ->
  exists per_container,
    Charts.for_containers docker_stats_data conts = Ok per_container.
Proof.
  induction 1 as [| cont conts Hc _ IH]; cbn [Charts.for_containers].
  - exists []. reflexivity.
  - apply container_series_Ok_iff in Hc. destruct Hc as (s & Hs).
    destruct IH as (more & Hmore). rewrite Hs, Hmore. eexists. reflexivity.
Qed.

(** X23: [parse_branch] returns exactly when each of the six containers
    has at least one sample in the dataset and no two samples in a row of a
    container carry the same timestamp. *)
Theorem parse_branch_Ok_iff (docker_stats_data : list (sample float))
        (client_perf_data : list (ClientPerf.observation float)) :
  (exists p, Charts.parse_branch docker_stats_data client_perf_data = Ok p) <->
  Forall (fun cont => chartable (Charts.cont_data_of docker_stats_data cont))
         Charts.containers.
Proof.
  unfold Charts.parse_branch. split.
  - intros (p & Hp). bind_inv Hp. clear Hp.
    apply for_containers_Forall2 in Hx.
    induction Hx as [| cont s conts rest Hs _ IH]; constructor; [| exact IH].
    apply container_series_Ok_iff. exists s. exact Hs.
  - intros Hall. destruct (for_containers_Ok _ _ Hall) as (per_container & Hpc).
    rewrite Hpc. cbn [bind].
    apply for_containers_Forall2 in Hpc.
    destruct (py_min_nonempty _ (timestamps_nonempty _ _ Hpc)) as (m & Hm).
    rewrite Hm. eexists. reflexivity.
Qed.

(** Over the decoded datasets the loops raise for a container without a
    sample or with two samples in a row that carry the same timestamp. *)
Lemma parse_branch_datasets_Raise (docker_stats_data : list (sample float))
      (client_perf_data : list (ClientPerf.observation float)) (e : exn) :
  Charts.parse_branch docker_stats_data client_perf_data = Raise e ->
  exists cont,
    In cont Charts.containers /\
    ((e = IndexError /\ Charts.cont_data_of docker_stats_data cont = []) \/
     (e = ZeroDivisionError /\
      Charts.cont_data_of docker_stats_data cont <> [] /\
      ~ chartable (Charts.cont_data_of docker_stats_data cont))).
Proof.
  unfold Charts.parse_branch. intros He.
  destruct (Charts.for_containers docker_stats_data Charts.containers)
    as [per_container | e'] eqn:Hpc; cbn [bind] in He.
  - apply for_containers_Forall2 in Hpc.
    destruct (py_min_nonempty _ (timestamps_nonempty _ _ Hpc)) as (m & Hm).
    rewrite Hm in He. discriminate He.
  - inversion He; subst e'.
    destruct (for_containers_Raise _ _ _ Hpc) as (cont & Hin & Hc).
    exists cont. split; [exact Hin |]. exact (container_series_Raise _ _ _ Hc).
Qed.

(** X25: what [parse_branch] raises, from the file on: the exception of
    [open] or [json.load]; [TypeError] when the decoded value is no
    object; [KeyError] when the object lacks one of the two datasets; and,
    with both datasets as they were written, [IndexError] for one of the
    six containers without a sample, [ZeroDivisionError] for one with two
    samples in a row that carry the same timestamp, and nothing else. *)
Theorem parse_branch_Raise (file : result (Charts.decoded float)) (e : exn) :
  Charts.parse_branch_file file = Raise e ->
  file = Raise e \/
  (file = Ok Charts.NotObject /\ e = TypeError) \/
  (exists docker_stats_entry client_perf_entry,
      file = Ok (Charts.Object docker_stats_entry client_perf_entry) /\
      (docker_stats_entry = None \/ client_perf_entry = None) /\
      e = KeyError) \/
  (exists docker_stats_data client_perf_data cont,
      file = Ok (Charts.Object (Some docker_stats_data) (Some client_perf_data)) /\
      In cont Charts.containers /\
      ((e = IndexError /\ Charts.cont_data_of docker_stats_data cont = []) \/
       (e = ZeroDivisionError /\
        Charts.cont_data_of docker_stats_data cont <> [] /\
        ~ chartable (Charts.cont_data_of docker_stats_data cont)))).
Proof.
  unfold Charts.parse_branch_file. intros He.
  destruct file as [[[docker_stats_data |] [client_perf_data |] |] | e'];
    cbn [bind Charts.docker_stats_of Charts.client_perf_of] in He.
  - right. right. right.
    destruct (parse_branch_datasets_Raise _ _ _ He) as (cont & Hin & Hcase).
    exists docker_stats_data, client_perf_data, cont.
    split; [reflexivity |]. split; [exact Hin | exact Hcase].
  - right. right. left. inversion He.
    exists (Some docker_stats_data), None.
    split; [reflexivity |]. split; [right; reflexivity | reflexivity].
  - right. right. left. inversion He.
    exists None, (Some client_perf_data).
    split; [reflexivity |]. split; [left; reflexivity | reflexivity].
  - right. right. left. inversion He.
    exists None, None.
    split; [reflexivity |]. split; [left; reflexivity | reflexivity].
  - right. left. inversion He. split; reflexivity.
  - left. inversion He. reflexivity.
Qed.

Lemma assert_lengths_map {A : Type} (f : Charts.series float -> list A)
      (g : Charts.series float -> list float)
      (per_container : list (Charts.series float)) :
  forall legend : list string,
    List.length legend = List.length per_container ->
    Charts.assert_lengths (map f per_container) (map g per_container) legend =
    if forallb (fun s => Nat.eqb (List.length (f s)) (List.length (g s)))
               per_container
    then Ok tt else Raise AssertionError.
Proof.
  induction per_container as [| s rest IH]; intros legend Hlen.
  - destruct legend; reflexivity.
  - destruct legend as [| l legend]; [discriminate Hlen |].
    cbn [map Charts.assert_lengths forallb].
    destruct (Nat.eqb (List.length (f s)) (List.length (g s))); [| reflexivity].
    cbn [andb]. apply IH. inversion Hlen. reflexivity.
Qed.

Lemma render_time_chart_map {A : Type} (f : Charts.series float -> list A)
      (g : Charts.series float -> list float)
      (per_container : list (Charts.series float)) (legend : list string) :
  List.length legend = List.length per_container ->
  Charts.render_time_chart (map g per_container) (map f per_container) legend =
  if forallb (fun s => Nat.eqb (List.length (f s)) (List.length (g s)))
             per_container
  then Ok tt else Raise AssertionError.
Proof.
  intros Hlen. unfold Charts.render_time_chart.
  rewrite length_map, Hlen, Nat.eqb_refl. apply assert_lengths_map. exact Hlen.
Qed.

Lemma forallb_Forall2 {A B : Type} (R : A -> B -> Prop) (P : A -> bool)
      (Q : B -> bool) (l : list A) (l' : list B) :
  Forall2 R l l' ->
  (forall a b, R a b -> P a = Q b) ->
  forallb P l = forallb Q l'.
Proof.
  intros Hl HR. induction Hl as [| a b l l' Hab _ IH]; [reflexivity |].
  cbn [forallb]. rewrite (HR a b Hab), IH. reflexivity.
Qed.

(** X24: after [parse_branch] the assertions of the three time charts hold
    exactly when every container has at least two samples: the CPU and the
    memory series always have the length of the timestamps, the traffic
    series of a container with a single sample has two values, and
    [render_branch] then ends with [AssertionError]. *)
Theorem render_branch_after_parse (docker_stats_data : list (sample float))
        (client_perf_data : list (ClientPerf.observation float))
        (p : Charts.parsed float) :
  Charts.parse_branch docker_stats_data client_perf_data = Ok p ->
  Charts.render_branch p =
  if forallb (fun cont =>
                Nat.leb 2 (List.length (Charts.cont_data_of docker_stats_data cont)))
             Charts.containers
  then Ok tt else Raise AssertionError.
Proof.
  intros Hp. unfold Charts.parse_branch in Hp.
  apply bind_Ok_inv in Hp. destruct Hp as (per_container & Hpc & Hp).
  apply bind_Ok_inv in Hp. destruct Hp as (m & _ & Hp).
  inversion Hp; subst p; clear Hp. apply for_containers_Forall2 in Hpc.
  assert (Hlen : List.length Charts.containers = List.length per_container)
    by exact (Forall2_length Hpc).
  unfold Charts.render_branch.
  cbn [Charts.timestamps Charts.cpu_series Charts.ram_series Charts.net_series
       Charts.legend].
  rewrite map_map.
  rewrite !(render_time_chart_map _
              (fun s => map (fun y => float_sub y m) (Charts.cont_times s))
              per_container Charts.containers Hlen).
  rewrite <- (forallb_Forall2 _
                (fun cont => true)
                (fun s => Nat.eqb (List.length (Charts.cont_cpu s))
                            (List.length (map (fun y => float_sub y m)
                                              (Charts.cont_times s))))
                _ _ Hpc).
  2:{ intros cont s Hs. destruct (container_series_inv _ _ _ Hs) as (_ & Ht & Hc & _).
      rewrite length_map, Ht, Hc, !length_map. symmetry. apply Nat.eqb_refl. }
  rewrite <- (forallb_Forall2 _
                (fun cont => true)
                (fun s => Nat.eqb (List.length (Charts.cont_ram s))
                            (List.length (map (fun y => float_sub y m)
                                              (Charts.cont_times s))))
                _ _ Hpc).
  2:{ intros cont s Hs. destruct (container_series_inv _ _ _ Hs) as (_ & Ht & _ & Hr & _).
      rewrite length_map, Ht, Hr, !length_map. symmetry. apply Nat.eqb_refl. }
  cbn [forallb andb bind Charts.containers].
  rewrite <- (forallb_Forall2 _
                (fun cont =>
                   Nat.leb 2 (List.length (Charts.cont_data_of docker_stats_data cont)))
                (fun s => Nat.eqb (List.length (Charts.cont_net s))
                            (List.length (map (fun y => float_sub y m)
                                              (Charts.cont_times s))))
                _ _ Hpc).
  - reflexivity.
  - intros cont s Hs. destruct (container_series_inv _ _ _ Hs) as (_ & Ht & _ & _ & Hn).
    rewrite length_map, Ht, Hn, length_map.
    set (n := List.length (Charts.cont_data_of docker_stats_data cont)).
    destruct (Nat.leb 2 n) eqn:Hle.
    + apply Nat.leb_le in Hle. symmetry. apply Nat.eqb_eq. lia.
    + apply Nat.leb_gt in Hle. symmetry. apply Nat.eqb_neq. lia.
Qed.

End ParseBranchFacts.

(** ** Chart data on the reference instance *)

Lemma container_series_three_rounds :
  Charts.container_series ChartScenario.three_rounds "jwt-client"
  = Ok ChartScenario.client_series.
Proof. vm_compute. reflexivity. Qed.

Lemma container_series_lengths_witness :
  (1 <= 3)%nat /\
  List.length (Charts.cont_times ChartScenario.client_series) = 3%nat /\
  List.length (Charts.cont_cpu ChartScenario.client_series) = 3%nat /\
  List.length (Charts.cont_ram ChartScenario.client_series) = 3%nat /\
  List.length (Charts.cont_net ChartScenario.client_series) = 3%nat.
Proof.
  apply (container_series_lengths ChartScenario.three_rounds "jwt-client"
           ChartScenario.client_series container_series_three_rounds).
Defined.

Lemma parse_branch_short_round :
  Charts.parse_branch ChartScenario.short_round []
  = Ok ChartScenario.short_parsed.
Proof. vm_compute. reflexivity. Qed.

Lemma render_branch_after_parse_witness :
  Charts.render_branch ChartScenario.short_parsed = Raise AssertionError.
Proof.
  apply (render_branch_after_parse ChartScenario.short_round []
           ChartScenario.short_parsed parse_branch_short_round).
Defined.

Lemma parse_branch_Raise_witness :
  ChartScenario.missing_container_file = Raise IndexError \/
  (ChartScenario.missing_container_file = Ok Charts.NotObject /\
   IndexError = TypeError) \/
  (exists docker_stats_entry client_perf_entry,
      ChartScenario.missing_container_file
      = Ok (Charts.Object docker_stats_entry client_perf_entry) /\
      (docker_stats_entry = None \/ client_perf_entry = None) /\
      IndexError = KeyError) \/
  (exists docker_stats_data client_perf_data cont,
      ChartScenario.missing_container_file
      = Ok (Charts.Object (Some docker_stats_data) (Some client_perf_data)) /\
      In cont Charts.containers /\
      ((IndexError = IndexError /\
        Charts.cont_data_of docker_stats_data cont = []) \/
       (IndexError = ZeroDivisionError /\
        Charts.cont_data_of docker_stats_data cont <> [] /\
        ~ chartable (Charts.cont_data_of docker_stats_data cont)))).
Proof.
  apply (parse_branch_Raise ChartScenario.missing_container_file IndexError).
  vm_compute. reflexivity.
Defined.

(** The exceptions of the first lines of [parse_branch]: no file, a file
    that is no JSON, a JSON array, and an object without the observations
    of the load generator. *)
Lemma parse_branch_file_errors :
  Charts.parse_branch_file ChartScenario.no_file = Raise FileNotFoundError /\
  Charts.parse_branch_file ChartScenario.cut_off_file = Raise JSONDecodeError /\
  Charts.parse_branch_file ChartScenario.array_file = Raise TypeError /\
  Charts.parse_branch_file ChartScenario.stats_only_file = Raise KeyError /\
  Charts.parse_branch_file ChartScenario.missing_container_file = Raise IndexError /\
  Charts.parse_branch_file ChartScenario.short_round_file
  = Ok ChartScenario.short_parsed.
Proof.
  split; [reflexivity |]. split; [reflexivity |]. split; [reflexivity |].
  split; [reflexivity |]. split; vm_compute; reflexivity.
Qed.

Lemma parse_branch_three_rounds :
  exists p,
    Charts.parse_branch ChartScenario.three_rounds [] = Ok p /\
    Charts.render_branch p = Ok tt /\
    map (@List.length _) (Charts.net_series p) = [3; 3; 3; 3; 3; 3]%nat.
Proof.
  eexists. split; [vm_compute; reflexivity |]. split; reflexivity.
Qed.

(** ** File names and branch names *)

Section DriverFacts.

Lemma prefix_cons (a b : ascii) (s1 s2 : string) :
  String.prefix (String a s1) (String b s2) = true <->
  a = b /\ String.prefix s1 s2 = true.
Proof.
  simpl. destruct (ascii_dec a b) as [Hab | Hab]; split.
  - intros Hp. split; assumption.
  - intros [_ Hp]. exact Hp.
  - intros Hp. discriminate Hp.
  - intros [Hab' _]. contradiction.
Qed.

(** No [.json] begins in a name and ends in the [.json] put after it. *)
Lemma prefix_json_straddle (branch : string) :
  String.prefix ".json" (branch ++ ".json") = true ->
  branch = EmptyString \/ String.prefix ".json" branch = true.
Proof.
  intros Hp.
  destruct branch as [| c1 b]; [left; reflexivity | right].
  cbn [append] in Hp. apply prefix_cons in Hp. destruct Hp as [<- Hp].
  apply prefix_cons. split; [reflexivity |].
  destruct b as [| c2 b];
    [cbn [append] in Hp; apply prefix_cons in Hp; destruct Hp as [Hc _];
     discriminate Hc |].
  cbn [append] in Hp. apply prefix_cons in Hp. destruct Hp as [<- Hp].
  apply prefix_cons. split; [reflexivity |].
  destruct b as [| c3 b];
    [cbn [append] in Hp; apply prefix_cons in Hp; destruct Hp as [Hc _];
     discriminate Hc |].
  cbn [append] in Hp. apply prefix_cons in Hp. destruct Hp as [<- Hp].
  apply prefix_cons. split; [reflexivity |].
  destruct b as [| c4 b];
    [cbn [append] in Hp; apply prefix_cons in Hp; destruct Hp as [Hc _];
     discriminate Hc |].
  cbn [append] in Hp. apply prefix_cons in Hp. destruct Hp as [<- Hp].
  apply prefix_cons. split; [reflexivity |].
  destruct b as [| c5 b];
    [cbn [append] in Hp; apply prefix_cons in Hp; destruct Hp as [Hc _];
     discriminate Hc |].
  cbn [append] in Hp. apply prefix_cons in Hp. destruct Hp as [<- Hp].
  apply prefix_cons. split; [reflexivity |].
  destruct b; reflexivity.
Qed.

(** X26: the branch [render_folder] reads off the name of the file that
    [analysis.py] wrote for a branch is that branch exactly when the name
    of the branch does not hold [.json]; otherwise it is a shorter name. *)
Theorem branch_of_out_file (branch : string) :
  (Analysis.contains ".json" branch = false ->
   Driver.branch_of (Driver.out_file branch) = branch) /\
  (Analysis.contains ".json" branch = true ->
   Driver.branch_of (Driver.out_file branch) <> branch).
Proof.
  unfold Driver.branch_of, Driver.out_file. split.
  - induction branch as [| c b IH]; intros Hc.
    + reflexivity.
    + cbn [Analysis.contains] in Hc. apply orb_false_iff in Hc.
      destruct Hc as [Hp Hc].
      cbn [append Driver.before_first].
      destruct (String.prefix ".json" (String c (b ++ ".json"))) eqn:Hp'.
      * destruct (prefix_json_straddle (String c b) Hp') as [He | Ht];
          [discriminate He | rewrite Ht in Hp; discriminate Hp].
      * rewrite (IH Hc). reflexivity.
  - intros Hc Heq.
    assert (Hlen : (String.length (Driver.before_first ".json" (branch ++ ".json"))
                    < String.length branch)%nat).
    { clear Heq. induction branch as [| c b IH].
      - discriminate Hc.
      - cbn [Analysis.contains] in Hc. cbn [append Driver.before_first].
        destruct (String.prefix ".json" (String c (b ++ ".json"))) eqn:Hp';
          [simpl; lia |].
        destruct (String.prefix ".json" (String c b)) eqn:Hp.
        + apply prefix_app in Hp. destruct Hp as (post & Hp).
          assert (Hp'' : String.prefix ".json" (String c (b ++ ".json")) = true).
          { apply prefix_app. exists (post ++ ".json")%string.
            change (String c (b ++ ".json")) with (String c b ++ ".json")%string.
            rewrite Hp. cbn. reflexivity. }
          rewrite Hp'' in Hp'. discriminate Hp'.
        + cbn [orb] in Hc. specialize (IH Hc). simpl. lia. }
    rewrite Heq in Hlen. lia.
Qed.

Lemma list_remove_In (x y : string) (l l' : list string) :
  Driver.list_remove x l = Ok l' -> In y l' -> In y l.
Proof.
  revert l'. induction l as [| z l IH]; intros l' Hr Hin;
    cbn [Driver.list_remove] in Hr.
  - discriminate Hr.
  - destruct (String.eqb z x).
    + inversion Hr; subst. right. exact Hin.
    + bind_inv Hr. inversion Hr; subst. destruct Hin as [-> | Hin].
      * left. reflexivity.
      * right. exact (IH x0 Hx Hin).
Qed.

Lemma list_remove_once (x : string) (l l' : list string) :
  Driver.list_remove x l = Ok l' ->
  count_occ string_dec l x = S (count_occ string_dec l' x).
Proof.
  revert l'. induction l as [| z l IH]; intros l' Hr;
    cbn [Driver.list_remove] in Hr.
  - discriminate Hr.
  - destruct (String.eqb z x) eqn:Hz.
    + apply String.eqb_eq in Hz. subst z. inversion Hr; subst.
      cbn [count_occ]. destruct (string_dec x x); [reflexivity | contradiction].
    + apply String.eqb_neq in Hz. bind_inv Hr. inversion Hr; subst.
      cbn [count_occ]. destruct (string_dec z x); [contradiction |].
      exact (IH x0 Hx).
Qed.

Lemma validate_Ok (branches avail_branches : list string) :
  Driver.validate branches avail_branches = Ok tt <->
  Forall (fun b => In b avail_branches) branches.
Proof.
  induction branches as [| b rest IH]; cbn [Driver.validate].
  - split; [intros _; constructor | reflexivity].
  - unfold Driver.list_mem.
    destruct (existsb (String.eqb b) avail_branches) eqn:Hb; cbn [negb].
    + rewrite IH. apply existsb_exists in Hb. destruct Hb as (y & Hin & Hy).
      apply String.eqb_eq in Hy. subst y. split.
      * intros Hall. constructor; assumption.
      * intros Hall. inversion Hall; assumption.
    + split; [intros Hr; discriminate Hr |].
      intros Hall. inversion Hall as [| ? ? Hin _]; subst.
      assert (Ht : existsb (String.eqb b) avail_branches = true).
      { apply existsb_exists. exists b. split; [exact Hin | apply String.eqb_refl]. }
      rewrite Ht in Hb. discriminate Hb.
Qed.

(** X27: the branches selected for analysis are last parts of names of
    remote refs, and when exactly one ref is named [HEAD] none of them is
    [HEAD]; the branches given on the command line are selected as they are
    or not at all. *)
Theorem select_branches_available (refs args_branches branches : list string) :
  Driver.select_branches refs args_branches = Ok branches ->
  Forall (fun b => In b (map (Driver.last_part EmptyString) refs)) branches /\
  (count_occ string_dec (map (Driver.last_part EmptyString) refs) "HEAD"%string = 1%nat ->
   ~ In "HEAD"%string branches) /\
  (args_branches <> [] -> branches = args_branches).
Proof.
  unfold Driver.select_branches. intros Hs. bind_inv Hs.
  pose proof (list_remove_once _ _ _ Hx) as Hcount.
  assert (Hsub : forall b, In b x -> In b (map (Driver.last_part EmptyString) refs))
    by (intros b Hb; exact (list_remove_In _ b _ _ Hx Hb)).
  assert (Hhead : count_occ string_dec (map (Driver.last_part EmptyString) refs)
                    "HEAD"%string = 1%nat -> ~ In "HEAD"%string x).
  { intros Hone. rewrite Hone in Hcount. apply (count_occ_not_In string_dec). lia. }
  destruct args_branches as [| a args].
  - inversion Hs; subst. split; [apply Forall_forall; exact Hsub |].
    split; [exact Hhead | intros Hne; contradiction Hne; reflexivity].
  - bind_inv Hs. inversion Hs; subst. destruct x0.
    apply validate_Ok in Hx0. split; [| split; [| reflexivity]].
    + apply Forall_forall. intros b Hb. rewrite Forall_forall in Hx0.
      apply Hsub. exact (Hx0 b Hb).
    + intros Hone Hin. rewrite Forall_forall in Hx0.
      exact (Hhead Hone (Hx0 _ Hin)).
Qed.

(** X28: a branch given on the command line that is no branch of the
    remote ends the program before any branch is analysed. *)
Theorem select_branches_unknown (refs args_branches avail : list string)
        (branch : string) :
  Driver.list_remove "HEAD"%string (map (Driver.last_part EmptyString) refs) = Ok avail ->
  In branch args_branches ->
  ~ In branch avail ->
  Driver.select_branches refs args_branches = Raise Driver.SystemExit.
Proof.
  intros Havail Hin Hnot. unfold Driver.select_branches. rewrite Havail. cbn [bind].
  destruct args_branches as [| a args]; [contradiction Hin |].
  assert (Hv : Driver.validate (a :: args) avail = Raise Driver.SystemExit).
  { generalize dependent (a :: args). intros l Hl.
    induction l as [| b l IH]; [contradiction Hl |].
    cbn [Driver.validate]. unfold Driver.list_mem.
    destruct (existsb (String.eqb b) avail) eqn:Hb; cbn [negb]; [| reflexivity].
    destruct Hl as [-> | Hl]; [| exact (IH Hl)].
    apply existsb_exists in Hb. destruct Hb as (y & Hy & Heq).
    apply String.eqb_eq in Heq. subst y. contradiction. }
  rewrite Hv. reflexivity.
Qed.

End DriverFacts.

Lemma branch_of_out_file_witness :
  Driver.branch_of (Driver.out_file "pq-hybrid") = "pq-hybrid"%string /\
  Driver.branch_of (Driver.out_file "v1.json-fix") <> "v1.json-fix"%string.
Proof.
  split.
  - apply (proj1 (branch_of_out_file "pq-hybrid")). reflexivity.
  - apply (proj2 (branch_of_out_file "v1.json-fix")). reflexivity.
Defined.

Lemma select_branches_available_witness :
  Forall (fun b =>
            In b (map (Driver.last_part EmptyString)
                    ["origin/HEAD"; "origin/main"; "origin/feature/pq"]%string))
         ["pq"; "main"]%string /\
  (count_occ string_dec
     (map (Driver.last_part EmptyString)
        ["origin/HEAD"; "origin/main"; "origin/feature/pq"]%string)
     "HEAD"%string = 1%nat ->
   ~ In "HEAD"%string ["pq"; "main"]%string) /\
  (["pq"; "main"]%string <> [] -> ["pq"; "main"]%string = ["pq"; "main"]%string).
Proof.
  apply (select_branches_available
           ["origin/HEAD"; "origin/main"; "origin/feature/pq"]%string
           ["pq"; "main"]%string ["pq"; "main"]%string).
  reflexivity.
Defined.

Lemma select_branches_unknown_witness :
  Driver.select_branches ["origin/HEAD"; "origin/main"; "origin/feature/pq"]%string
    ["main"; "feature/pq"]%string
  = Raise Driver.SystemExit.
Proof.
  apply (select_branches_unknown
           ["origin/HEAD"; "origin/main"; "origin/feature/pq"]%string
           ["main"; "feature/pq"]%string ["main"; "pq"]%string "feature/pq"%string).
  - reflexivity.
  - right. left. reflexivity.
  - intros [Hm | [Hp | []]]; discriminate.
Defined.
